(** * MouseShare companion clients: dispatch engine and session loop

    A shallow embedding of [linux/mouseshare.py] and [windows/mouseshare.py]:
    the event dispatcher [inject_event], the frame reader [_read_exact] and
    the reconnecting client [tcp_client] of each platform, over a small model
    of the Python values the programs compute with. *)

From Stdlib Require Import ZArith List Bool Lia.
From Stdlib Require Import Strings.Byte Strings.Ascii.
From Stdlib Require Import Floats.SpecFloat.
From stdpp Require Import gmap strings list.

Local Open Scope Z_scope.
Set Warnings "-register-all".

(** ** Python values and the operations the clients apply to them *)

Module Py.

(** Exceptions the modelled code can raise or receive from the transport. *)
Inductive exn :=
  | AttributeError | TypeError | ValueError | OverflowError
  | ZeroDivisionError | StructError | JSONDecodeError
  | ConnectionError | OSError | TimeoutError.

(** A call either returns a value or raises. *)
Inductive res (A : Type) :=
  | Ok (a : A)
  | Raise (e : exn).
Arguments Ok {A} a.
Arguments Raise {A} e.

(** What [json.loads] can produce.  A Python float is an IEEE binary64
    number, taken from the standard library's [spec_float]. *)
Inductive json :=
  | JNull
  | JBool (b : bool)
  | JInt (z : Z)
  | JFloat (f : spec_float)
  | JStr (s : string)
  | JList (l : list json)
  | JDict (d : gmap string json).

Definition prec : Z := 53.
Definition emax : Z := 1024.


(** [float(k)] for an int [k]: nearest double, ties to even; too large an
    int raises. *)
Definition float_of_int (k : Z) : res spec_float :=
  match binary_normalize prec emax k 0 false with
  | S754_infinity _ => Raise OverflowError
  | f => Ok f
  end.

(** The integer part of [m * 2^e], towards zero. *)
Definition trunc_mantissa (m : positive) (e : Z) : Z :=
  if 0 <=? e then Z.shiftl (Zpos m) e else Z.shiftr (Zpos m) (- e).

(** [int(f)] for a float [f]. *)
Definition int_of_float (f : spec_float) : res Z :=
  match f with
  | S754_zero _ => Ok 0
  | S754_finite s m e => Ok (if s then - trunc_mantissa m e else trunc_mantissa m e)
  | S754_infinity _ => Raise OverflowError
  | S754_nan => Raise ValueError
  end.

(** The int a float is equal to, if any (the key a float hashes to in a
    dict with int keys). *)
Definition float_integral (f : spec_float) : option Z :=
  match f with
  | S754_zero _ => Some 0
  | S754_finite s m e =>
      if 0 <=? e then Some (if s then - Z.shiftl (Zpos m) e else Z.shiftl (Zpos m) e)
      else if Z.land (Zpos m) (Z.ones (- e)) =? 0
           then Some (if s then - Z.shiftr (Zpos m) (- e) else Z.shiftr (Zpos m) (- e))
           else None
  | _ => None
  end.

(** [a / b] for ints: the correctly rounded quotient. *)
Definition int_truediv (a b : Z) : res spec_float :=
  if b =? 0 then Raise ZeroDivisionError
  else if a =? 0 then Ok (S754_zero (b <? 0))
  else
    let '(q, e, l) := SFdiv_core_binary prec emax (Z.abs a) 0 (Z.abs b) 0 in
    match binary_round_aux prec emax (xorb (a <? 0) (b <? 0)) q e l with
    | S754_infinity _ => Raise OverflowError
    | f => Ok f
    end.


(** [s * k] for a str. *)
Fixpoint str_repeat (n : nat) (s : string) : string :=
  match n with
  | O => EmptyString
  | S n' => String.append s (str_repeat n' s)
  end.

(** Library functions of the Python runtime that the clients call and whose
    code is outside the repository. *)
Class PyLib := {
  (** [int(s)] for a str [s]; [None] when it raises [ValueError]. *)
  int_of_str : string -> option Z;
  (** [json.loads(payload.decode("utf-8"))]; [None] when either call raises. *)
  json_loads : list byte -> option json;
  (** [json.dumps(obj).encode("utf-8")]. *)
  json_dumps : json -> list byte
}.

(** [v * k] where [k] is an int. *)
Definition py_mul_int (v : json) (k : Z) : res json :=
  match v with
  | JInt z => Ok (JInt (z * k))
  | JBool b => Ok (JInt (Z.b2z b * k))
  | JFloat f =>
      match float_of_int k with
      | Ok fk => Ok (JFloat (SFmul prec emax f fk))
      | Raise e => Raise e
      end
  | JStr s => Ok (JStr (str_repeat (Z.to_nat k) s))
  | JList l => Ok (JList (concat (replicate (Z.to_nat k) l)))
  | JNull | JDict _ => Raise TypeError
  end.

(** [int(v)]. *)
Definition py_int {lib : PyLib} (v : json) : res Z :=
  match v with
  | JInt z => Ok z
  | JBool b => Ok (Z.b2z b)
  | JFloat f => int_of_float f
  | JStr s => match int_of_str s with Some z => Ok z | None => Raise ValueError end
  | JNull | JList _ | JDict _ => Raise TypeError
  end.


(** Truth value of [v] in an [if]. *)
Definition py_truthy (v : json) : bool :=
  match v with
  | JNull => false
  | JBool b => b
  | JInt z => negb (z =? 0)
  | JFloat (S754_zero _) => false
  | JFloat _ => true
  | JStr s => negb (String.eqb s EmptyString)
  | JList l => match l with [] => false | _ => true end
  | JDict d => match map_to_list d with [] => false | _ => true end
  end.

(** [v == s] for a str literal [s]. *)
Definition is_str (v : json) (s : string) : bool :=
  match v with
  | JStr s' => String.eqb s' s
  | _ => false
  end.

(** [event.get(k, default)]: only a dict has [get]. *)
Definition py_get (event : json) (k : string) (default : json) : res json :=
  match event with
  | JDict d => Ok (match d !! k with Some v => v | None => default end)
  | _ => Raise AttributeError
  end.

(** [table.get(k)] on a dict with int keys: ints, bools and integral floats
    hash and compare alike; lists and dicts are unhashable. *)
Definition table_get {V : Type} (table : gmap Z V) (k : json) : res (option V) :=
  match k with
  | JInt z => Ok (table !! z)
  | JBool b => Ok (table !! Z.b2z b)
  | JFloat f => Ok (match float_integral f with Some z => table !! z | None => None end)
  | JStr _ | JNull => Ok None
  | JList _ | JDict _ => Raise TypeError
  end.

(** [struct.unpack("!I", bs)[0]]: big-endian unsigned. *)
Definition struct_unpack_I (bs : list byte) : Z :=
  fold_left (fun acc b => acc * 256 + Z.of_N (Byte.to_N b)) bs 0.

Definition byte_of_Z (z : Z) : byte :=
  match Byte.of_N (Z.to_N (z mod 256)) with
  | Some b => b
  | None => x00
  end.

(** [struct.pack("!I", n)]. *)
Definition struct_pack_I (n : Z) : res (list byte) :=
  if (0 <=? n) && (n <? 2 ^ 32)
  then Ok [byte_of_Z (n / 2 ^ 24); byte_of_Z (n / 2 ^ 16); byte_of_Z (n / 2 ^ 8); byte_of_Z n]
  else Raise StructError.

(** State and exception monad: effects that happened before a [Raise]
    stay in the state. *)
Definition M (S A : Type) : Type := S -> res A * S.

Definition ret {S A : Type} (a : A) : M S A := fun s => (Ok a, s).

Definition bind {S A B : Type} (m : M S A) (k : A -> M S B) : M S B :=
  fun s => match m s with
           | (Ok a, s') => k a s'
           | (Raise e, s') => (Raise e, s')
           end.

Definition lift {S A : Type} (r : res A) : M S A := fun s => (r, s).

Definition modify {S : Type} (f : S -> S) : M S unit := fun s => (Ok tt, f s).

Definition when {S : Type} (b : bool) (m : M S unit) : M S unit :=
  if b then m else ret tt.

End Py.

Export Py.

Declare Scope py_scope.
Delimit Scope py_scope with py.
Notation "'do' x <- m ; k" := (bind m (fun x => k))
  (at level 10, x name, m at level 100, k at level 200) : py_scope.
Notation "'do' ' p <- m ; k" := (bind m (fun x => let 'p := x in k))
  (at level 10, p pattern, m at level 100, k at level 200) : py_scope.
Notation "'run' m ; k" := (bind m (fun _ => k))
  (at level 10, m at level 100, k at level 200) : py_scope.

Local Open Scope py_scope.

(** ** The byte stream of a connection *)

Module Net.

(** What successive [reader.read] calls of one connection meet: data that
    arrived (an empty chunk is end of stream), an error of the socket, or
    silence. *)
Inductive chunk :=
  | Data (bs : list byte)
  | Fault (e : exn)
  | Stall.

(** The stream still to come; after the last chunk the peer has closed. *)
Definition reader := list chunk.

(** Outcome of an awaited transport call: a value, an exception, or no
    completion. *)
Inductive io (A : Type) :=
  | Got (a : A)
  | Failed (e : exn)
  | Stalled.
Arguments Got {A} a.
Arguments Failed {A} e.
Arguments Stalled {A}.

(** [await reader.read(n)]: at most [n] bytes of what has arrived. *)
Definition reader_read (n : nat) (r : reader) : io (list byte) * reader :=
  match r with
  | [] => (Got [], [])
  | Data bs :: r' =>
      if (length bs <=? n)%nat then (Got bs, r')
      else (Got (take n bs), Data (drop n bs) :: r')
  | Fault e :: r' => (Failed e, r')
  | Stall :: _ => (Stalled, r)
  end.

(** The [while len(data) < n] loop of [_read_exact]; every pass adds at
    least one byte, so [n] passes are enough. *)
Fixpoint read_exact_loop (fuel n : nat) (data : list byte) (r : reader)
  : io (list byte) * reader :=
  if (n <=? length data)%nat then (Got data, r)
  else
    match fuel with
    | O => (Stalled, r)
    | S fuel' =>
        match reader_read (n - length data) r with
        | (Got [], r') => (Failed ConnectionError, r')
        | (Got chunk, r') => read_exact_loop fuel' n (data ++ chunk) r'
        | (Failed e, r') => (Failed e, r')
        | (Stalled, r') => (Stalled, r')
        end
    end.

Definition _read_exact (r : reader) (n : nat) : io (list byte) * reader :=
  read_exact_loop n n [] r.

(** Number of data bytes still to come. *)
Fixpoint reader_bytes (r : reader) : nat :=
  match r with
  | [] => O
  | Data bs :: r' => (length bs + reader_bytes r')%nat
  | _ :: r' => reader_bytes r'
  end.

(** The bytes that can be read before the stream ends, fails or stalls. *)
Fixpoint available (r : reader) : list byte :=
  match r with
  | Data (b :: bs) :: r' => (b :: bs) ++ available r'
  | _ => []
  end.

(** One connection: the incoming stream, and how many [writer.write] +
    [drain] calls succeed before one raises ([None]: all of them). *)
Record conn := {
  rd : reader;
  sent : nat;
  wbudget : option nat
}.

Definition set_rd (c : conn) (r : reader) : conn :=
  {| rd := r; sent := sent c; wbudget := wbudget c |}.

(** [writer.write(bs); await writer.drain()]. *)
Definition writer_write (c : conn) : io unit * conn :=
  match wbudget c with
  | Some k =>
      if (sent c <? k)%nat
      then (Got tt, {| rd := rd c; sent := S (sent c); wbudget := wbudget c |})
      else (Failed ConnectionError, c)
  | None => (Got tt, {| rd := rd c; sent := S (sent c); wbudget := wbudget c |})
  end.

(** What one pass of the outer [while True] meets when it connects. *)
Inductive attempt :=
  | Refused (e : exn)
  | NoAnswer
  | Accepted (incoming : reader) (writes : option nat).

(** How the inner read loop was left. *)
Inductive loop_exit :=
  | Broke
  | Raised (e : exn)
  | Blocked
  | OutOfFuel.

(** [except (ConnectionError, OSError, asyncio.IncompleteReadError)]. *)
Definition is_oserror (e : exn) : bool :=
  match e with
  | ConnectionError | OSError | TimeoutError => true
  | _ => false
  end.

Inductive level := INFO | WARNING | ERROR.

(** [RECONNECT_DELAY = 2.0]. *)
Definition RECONNECT_DELAY : spec_float := S754_finite false 4503599627370496 (-51).

(** The [returnControl] message both clients send upstream. *)
Definition return_event (norm_y : json) : json :=
  JDict (list_to_map [("type", JStr "returnControl"); ("normalizedX", JInt 0);
                      ("normalizedY", norm_y); ("edge", JStr "left")]).

(** [struct.pack("!I", len(payload)) + payload]. *)
Definition frame (payload : list byte) : res (list byte) :=
  match struct_pack_I (Z.of_nat (length payload)) with
  | Ok header => Ok (header ++ payload)
  | Raise e => Raise e
  end.

End Net.

Export Net.

(** ** The Linux daemon ([linux/mouseshare.py]) *)

Module Linux.

(** The evdev codes the daemon names ([ecodes.KEY_A], ...). *)
Inductive ecode :=
  | KEY_A | KEY_B | KEY_C | KEY_D | KEY_E | KEY_F | KEY_G | KEY_H | KEY_I
  | KEY_J | KEY_K | KEY_L | KEY_M | KEY_N | KEY_O | KEY_P | KEY_Q | KEY_R
  | KEY_S | KEY_T | KEY_U | KEY_V | KEY_W | KEY_X | KEY_Y | KEY_Z
  | KEY_0 | KEY_1 | KEY_2 | KEY_3 | KEY_4 | KEY_5 | KEY_6 | KEY_7 | KEY_8 | KEY_9
  | KEY_SPACE | KEY_ENTER | KEY_BACKSPACE | KEY_TAB | KEY_ESC | KEY_COMMA
  | KEY_DOT | KEY_SLASH | KEY_SEMICOLON | KEY_APOSTROPHE | KEY_LEFTBRACE
  | KEY_RIGHTBRACE | KEY_BACKSLASH | KEY_GRAVE | KEY_MINUS | KEY_EQUAL
  | KEY_LEFTSHIFT | KEY_RIGHTSHIFT | KEY_LEFTCTRL | KEY_RIGHTCTRL
  | KEY_LEFTALT | KEY_RIGHTALT | KEY_LEFTMETA | KEY_RIGHTMETA | KEY_CAPSLOCK
  | KEY_F1 | KEY_F2 | KEY_F3 | KEY_F4 | KEY_F5 | KEY_F6 | KEY_F7 | KEY_F8
  | KEY_F9 | KEY_F10 | KEY_F11 | KEY_F12
  | KEY_LEFT | KEY_RIGHT | KEY_DOWN | KEY_UP | KEY_HOME | KEY_END
  | KEY_PAGEUP | KEY_PAGEDOWN | KEY_DELETE | KEY_INSERT
  | KEY_NUMLOCK | KEY_KP0 | KEY_KP1 | KEY_KP2 | KEY_KP3 | KEY_KP4 | KEY_KP5
  | KEY_KP6 | KEY_KP7 | KEY_KP8 | KEY_KP9 | KEY_KPDOT | KEY_KPPLUS
  | KEY_KPMINUS | KEY_KPASTERISK | KEY_KPSLASH | KEY_KPENTER
  | BTN_LEFT | BTN_RIGHT | BTN_MIDDLE
  | REL_X | REL_Y | REL_WHEEL | REL_HWHEEL.

Inductive etype := EV_KEY | EV_REL.

Definition EDGE_THRESHOLD : Z := 5.

Definition MAC_TO_LINUX_KEYCODE : gmap Z ecode :=
  list_to_map
    [ (0, KEY_A); (11, KEY_B); (8, KEY_C); (2, KEY_D); (14, KEY_E); (3, KEY_F);
      (5, KEY_G); (4, KEY_H); (34, KEY_I); (38, KEY_J); (40, KEY_K); (37, KEY_L);
      (46, KEY_M); (45, KEY_N); (31, KEY_O); (35, KEY_P); (12, KEY_Q); (15, KEY_R);
      (1, KEY_S); (17, KEY_T); (32, KEY_U); (9, KEY_V); (13, KEY_W); (7, KEY_X);
      (16, KEY_Y); (6, KEY_Z);
      (29, KEY_0); (18, KEY_1); (19, KEY_2); (20, KEY_3); (21, KEY_4); (23, KEY_5);
      (22, KEY_6); (26, KEY_7); (28, KEY_8); (25, KEY_9);
      (49, KEY_SPACE); (36, KEY_ENTER); (51, KEY_BACKSPACE); (48, KEY_TAB);
      (53, KEY_ESC); (43, KEY_COMMA); (47, KEY_DOT); (44, KEY_SLASH);
      (41, KEY_SEMICOLON); (39, KEY_APOSTROPHE); (33, KEY_LEFTBRACE);
      (30, KEY_RIGHTBRACE); (42, KEY_BACKSLASH); (50, KEY_GRAVE); (27, KEY_MINUS);
      (24, KEY_EQUAL);
      (56, KEY_LEFTSHIFT); (60, KEY_RIGHTSHIFT); (59, KEY_LEFTCTRL);
      (62, KEY_RIGHTCTRL); (58, KEY_LEFTALT); (61, KEY_RIGHTALT);
      (55, KEY_LEFTMETA); (54, KEY_RIGHTMETA); (57, KEY_CAPSLOCK);
      (122, KEY_F1); (120, KEY_F2); (99, KEY_F3); (118, KEY_F4); (96, KEY_F5);
      (97, KEY_F6); (98, KEY_F7); (100, KEY_F8); (101, KEY_F9); (109, KEY_F10);
      (103, KEY_F11); (111, KEY_F12);
      (123, KEY_LEFT); (124, KEY_RIGHT); (125, KEY_DOWN); (126, KEY_UP);
      (115, KEY_HOME); (119, KEY_END); (116, KEY_PAGEUP); (121, KEY_PAGEDOWN);
      (117, KEY_DELETE); (114, KEY_INSERT);
      (71, KEY_NUMLOCK); (82, KEY_KP0); (83, KEY_KP1); (84, KEY_KP2); (85, KEY_KP3);
      (86, KEY_KP4); (87, KEY_KP5); (88, KEY_KP6); (89, KEY_KP7); (91, KEY_KP8);
      (92, KEY_KP9); (65, KEY_KPDOT); (69, KEY_KPPLUS); (78, KEY_KPMINUS);
      (67, KEY_KPASTERISK); (75, KEY_KPSLASH); (76, KEY_KPENTER) ].

(** The pointer tool [_inject_mouse_move] runs. *)
Inductive mouse_tool := Ydotool | Xdotool.

(** Everything the daemon does to the outside, in order. *)
Inductive action :=
  | Log (lvl : level) (msg : string)
  | DevWrite (t : etype) (c : ecode) (v : Z)
  | DevSyn
  | MouseMove (tool : mouse_tool) (x y : Z)
  | NetConnect
  | NetSend (bs : list byte)
  | Sleep (seconds : spec_float).

(** The daemon keeps no state of its own between events: the state of the
    model is the trace of its actions. *)
Definition state := list action.

Definition emit (a : action) : M state unit := modify (fun tr => tr ++ [a]).

(** [device.write(t, c, v)] and [device.syn()]. *)
Definition device_write (t : etype) (c : ecode) (v : Z) : M state unit := emit (DevWrite t c v).
Definition device_syn : M state unit := emit DevSyn.

Section Daemon.
Context {lib : PyLib}.
Variables (SCREEN_WIDTH SCREEN_HEIGHT : Z) (USE_WAYLAND : bool).

Definition _inject_mouse_move (event : json) : M state (Z * Z) :=
  do nx <- lift (py_get event "normalizedX" (JInt 0));
  do ny <- lift (py_get event "normalizedY" (JInt 0));
  do px <- lift (py_mul_int nx SCREEN_WIDTH);
  do x <- lift (py_int px);
  do py <- lift (py_mul_int ny SCREEN_HEIGHT);
  do y <- lift (py_int py);
  let x := Z.max 0 (Z.min x (SCREEN_WIDTH - 1)) in
  let y := Z.max 0 (Z.min y (SCREEN_HEIGHT - 1)) in
  run emit (MouseMove (if USE_WAYLAND then Ydotool else Xdotool) x y);
  ret (x, y).

(** [y / SCREEN_HEIGHT if SCREEN_HEIGHT else 0]. *)
Definition norm_y_of (y : Z) : res json :=
  if SCREEN_HEIGHT =? 0 then Ok (JInt 0)
  else match int_truediv y SCREEN_HEIGHT with
       | Ok f => Ok (JFloat f)
       | Raise e => Raise e
       end.

Definition inject_event (event : json) : M state (bool * json) :=
  do event_type <- lift (py_get event "type" JNull);
  if is_str event_type "mouseMove" then
    do '(x, y) <- _inject_mouse_move event;
    if x <=? EDGE_THRESHOLD then
      do norm_y <- lift (norm_y_of y);
      ret (true, norm_y)
    else ret (false, JInt 0)
  else if is_str event_type "leftMouseDown" then
    run device_write EV_KEY BTN_LEFT 1; run device_syn; ret (false, JInt 0)
  else if is_str event_type "leftMouseUp" then
    run device_write EV_KEY BTN_LEFT 0; run device_syn; ret (false, JInt 0)
  else if is_str event_type "rightMouseDown" then
    run device_write EV_KEY BTN_RIGHT 1; run device_syn; ret (false, JInt 0)
  else if is_str event_type "rightMouseUp" then
    run device_write EV_KEY BTN_RIGHT 0; run device_syn; ret (false, JInt 0)
  else if is_str event_type "keyDown" || is_str event_type "keyUp" then
    do mac_code <- lift (py_get event "keyCode" JNull);
    match mac_code with
    | JNull => ret (false, JInt 0)
    | _ =>
        do linux_code <- lift (table_get MAC_TO_LINUX_KEYCODE mac_code);
        match linux_code with
        | None =>
            run emit (Log WARNING "Unknown Mac keycode %d — add it to the mapping table");
            ret (false, JInt 0)
        | Some code =>
            let value := if is_str event_type "keyDown" then 1 else 0 in
            run device_write EV_KEY code value; run device_syn; ret (false, JInt 0)
        end
    end
  else if is_str event_type "scrollWheel" then
    do dx <- lift (py_get event "scrollDeltaX" (JInt 0));
    do dy <- lift (py_get event "scrollDeltaY" (JInt 0));
    run (if py_truthy dy
         then do v <- lift (py_int dy); device_write EV_REL REL_WHEEL v
         else ret tt);
    run (if py_truthy dx
         then do v <- lift (py_int dx); device_write EV_REL REL_HWHEEL v
         else ret tt);
    run when (py_truthy dy || py_truthy dx) device_syn;
    ret (false, JInt 0)
  else if is_str event_type "returnControl" then
    run emit (Log INFO "Mac sent returnControl (Escape) — acknowledged");
    ret (false, JInt 0)
  else ret (false, JInt 0).

(** The inner [while True] of [tcp_client]: one frame per pass.  A pass
    that goes on has consumed at least five bytes of the stream. *)
Fixpoint read_loop (fuel : nat) (c : conn) (st : state) : loop_exit * conn * state :=
  match fuel with
  | O => (OutOfFuel, c, st)
  | S fuel' =>
      match _read_exact (rd c) 4 with
      | (Failed e, r) => (Raised e, set_rd c r, st)
      | (Stalled, r) => (Blocked, set_rd c r, st)
      | (Got header, r) =>
          let c := set_rd c r in
          let length := struct_unpack_I header in
          if (length =? 0) || (1000000 <? length) then
            (Broke, c, st ++ [Log WARNING "Invalid message length: %d — dropping connection"])
          else
            match _read_exact (rd c) (Z.to_nat length) with
            | (Failed e, r) => (Raised e, set_rd c r, st)
            | (Stalled, r) => (Blocked, set_rd c r, st)
            | (Got payload, r) =>
                let c := set_rd c r in
                match json_loads payload with
                | None => (Raised JSONDecodeError, c, st)
                | Some event =>
                    match inject_event event st with
                    | (Raise e, st) => (Raised e, c, st)
                    | (Ok (should_return, norm_y), st) =>
                        if should_return then
                          let st := st ++ [Log INFO "Left edge hit — sending returnControl to Mac"] in
                          match frame (json_dumps (return_event norm_y)) with
                          | Raise e => (Raised e, c, st)
                          | Ok bytes =>
                              match writer_write c with
                              | (Got _, c) => read_loop fuel' c (st ++ [NetSend bytes])
                              | (Failed e, c) => (Raised e, c, st)
                              | (Stalled, c) => (Blocked, c, st)
                              end
                          end
                        else read_loop fuel' c st
                    end
                end
            end
      end
  end.

(** One pass of the outer [while True]: connect, stream, handle the
    exception, announce the retry and sleep.  The daemon has no timeout of
    its own, so a silent peer blocks it for good. *)
Definition tcp_session (a : attempt) (st : state) : loop_exit * state :=
  let st := st ++ [Log INFO "Connecting to Mac at %s:%d …"; NetConnect] in
  let '(exit, st) :=
    match a with
    | Refused e => (Raised e, st)
    | NoAnswer => (Blocked, st)
    | Accepted incoming writes =>
        let c := {| rd := incoming; sent := O; wbudget := writes |} in
        let '(exit, _, st) := read_loop (S (reader_bytes incoming)) c (st ++ [Log INFO "Connected to Mac"]) in
        (exit, st)
    end in
  match exit with
  | Blocked | OutOfFuel => (exit, st)
  | Broke =>
      (exit, st ++ [Log INFO "Reconnecting in %.0f seconds …"; Sleep RECONNECT_DELAY])
  | Raised e =>
      let st := st ++ [if is_oserror e then Log WARNING "Connection lost: %s"
                       else Log ERROR "Unexpected error: %s"] in
      (exit, st ++ [Log INFO "Reconnecting in %.0f seconds …"; Sleep RECONNECT_DELAY])
  end.

(** [tcp_client] over the connection attempts the daemon meets, one per
    pass of its endless loop. *)
Fixpoint tcp_client (world : list attempt) (st : state) : state :=
  match world with
  | [] => st
  | a :: world' =>
      match tcp_session a st with
      | (Blocked, st) | (OutOfFuel, st) => st
      | (_, st) => tcp_client world' st
      end
  end.

End Daemon.

End Linux.

(** ** The Windows client ([windows/mouseshare.py]) *)

Module Windows.

Definition EDGE_THRESHOLD : Z := 5.

Definition MOUSEEVENTF_LEFTDOWN : Z := 0x0002.
Definition MOUSEEVENTF_LEFTUP : Z := 0x0004.
Definition MOUSEEVENTF_RIGHTDOWN : Z := 0x0008.
Definition MOUSEEVENTF_RIGHTUP : Z := 0x0010.
Definition MOUSEEVENTF_WHEEL : Z := 0x0800.
Definition MOUSEEVENTF_HWHEEL : Z := 0x1000.
Definition KEYEVENTF_KEYUP : Z := 0x0002.
Definition KEYEVENTF_EXTENDEDKEY : Z := 0x0001.
Definition WHEEL_DELTA : Z := 120.

Definition VK_BACK : Z := 0x08.
Definition VK_TAB : Z := 0x09.
Definition VK_RETURN : Z := 0x0D.
Definition VK_CAPITAL : Z := 0x14.
Definition VK_ESCAPE : Z := 0x1B.
Definition VK_SPACE : Z := 0x20.
Definition VK_PRIOR : Z := 0x21.
Definition VK_NEXT : Z := 0x22.
Definition VK_END : Z := 0x23.
Definition VK_HOME : Z := 0x24.
Definition VK_LEFT : Z := 0x25.
Definition VK_UP : Z := 0x26.
Definition VK_RIGHT : Z := 0x27.
Definition VK_DOWN : Z := 0x28.
Definition VK_INSERT : Z := 0x2D.
Definition VK_DELETE : Z := 0x2E.
Definition VK_LWIN : Z := 0x5B.
Definition VK_RWIN : Z := 0x5C.
Definition VK_NUMPAD0 : Z := 0x60.
Definition VK_NUMPAD1 : Z := 0x61.
Definition VK_NUMPAD2 : Z := 0x62.
Definition VK_NUMPAD3 : Z := 0x63.
Definition VK_NUMPAD4 : Z := 0x64.
Definition VK_NUMPAD5 : Z := 0x65.
Definition VK_NUMPAD6 : Z := 0x66.
Definition VK_NUMPAD7 : Z := 0x67.
Definition VK_NUMPAD8 : Z := 0x68.
Definition VK_NUMPAD9 : Z := 0x69.
Definition VK_MULTIPLY : Z := 0x6A.
Definition VK_ADD : Z := 0x6B.
Definition VK_SUBTRACT : Z := 0x6D.
Definition VK_DECIMAL : Z := 0x6E.
Definition VK_DIVIDE : Z := 0x6F.
Definition VK_F1 : Z := 0x70.
Definition VK_F2 : Z := 0x71.
Definition VK_F3 : Z := 0x72.
Definition VK_F4 : Z := 0x73.
Definition VK_F5 : Z := 0x74.
Definition VK_F6 : Z := 0x75.
Definition VK_F7 : Z := 0x76.
Definition VK_F8 : Z := 0x77.
Definition VK_F9 : Z := 0x78.
Definition VK_F10 : Z := 0x79.
Definition VK_F11 : Z := 0x7A.
Definition VK_F12 : Z := 0x7B.
Definition VK_NUMLOCK : Z := 0x90.
Definition VK_LSHIFT : Z := 0xA0.
Definition VK_RSHIFT : Z := 0xA1.
Definition VK_LCONTROL : Z := 0xA2.
Definition VK_RCONTROL : Z := 0xA3.
Definition VK_LMENU : Z := 0xA4.
Definition VK_RMENU : Z := 0xA5.
Definition VK_OEM_1 : Z := 0xBA.
Definition VK_OEM_PLUS : Z := 0xBB.
Definition VK_OEM_COMMA : Z := 0xBC.
Definition VK_OEM_MINUS : Z := 0xBD.
Definition VK_OEM_PERIOD : Z := 0xBE.
Definition VK_OEM_2 : Z := 0xBF.
Definition VK_OEM_3 : Z := 0xC0.
Definition VK_OEM_4 : Z := 0xDB.
Definition VK_OEM_5 : Z := 0xDC.
Definition VK_OEM_6 : Z := 0xDD.
Definition VK_OEM_7 : Z := 0xDE.

(** [ord('A')] ... [ord('Z')] and [ord('0')] ... [ord('9')]. *)
Definition ord (c : Ascii.ascii) : Z := Z.of_N (Ascii.N_of_ascii c).

Definition MAC_TO_WIN_KEYCODE : gmap Z Z :=
  list_to_map
    [ (0, ord "A"%char); (11, ord "B"%char); (8, ord "C"%char); (2, ord "D"%char); (14, ord "E"%char);
      (3, ord "F"%char); (5, ord "G"%char); (4, ord "H"%char); (34, ord "I"%char); (38, ord "J"%char);
      (40, ord "K"%char); (37, ord "L"%char); (46, ord "M"%char); (45, ord "N"%char); (31, ord "O"%char);
      (35, ord "P"%char); (12, ord "Q"%char); (15, ord "R"%char); (1, ord "S"%char); (17, ord "T"%char);
      (32, ord "U"%char); (9, ord "V"%char); (13, ord "W"%char); (7, ord "X"%char); (16, ord "Y"%char);
      (6, ord "Z"%char);
      (29, ord "0"%char); (18, ord "1"%char); (19, ord "2"%char); (20, ord "3"%char); (21, ord "4"%char);
      (23, ord "5"%char); (22, ord "6"%char); (26, ord "7"%char); (28, ord "8"%char); (25, ord "9"%char);
      (49, VK_SPACE); (36, VK_RETURN); (51, VK_BACK); (48, VK_TAB); (53, VK_ESCAPE);
      (43, VK_OEM_COMMA); (47, VK_OEM_PERIOD); (44, VK_OEM_2); (41, VK_OEM_1);
      (39, VK_OEM_7); (33, VK_OEM_4); (30, VK_OEM_6); (42, VK_OEM_5);
      (50, VK_OEM_3); (27, VK_OEM_MINUS); (24, VK_OEM_PLUS);
      (56, VK_LSHIFT); (60, VK_RSHIFT); (59, VK_LCONTROL); (62, VK_RCONTROL);
      (58, VK_LMENU); (61, VK_RMENU); (55, VK_LWIN); (54, VK_RWIN); (57, VK_CAPITAL);
      (122, VK_F1); (120, VK_F2); (99, VK_F3); (118, VK_F4); (96, VK_F5);
      (97, VK_F6); (98, VK_F7); (100, VK_F8); (101, VK_F9); (109, VK_F10);
      (103, VK_F11); (111, VK_F12);
      (123, VK_LEFT); (124, VK_RIGHT); (125, VK_DOWN); (126, VK_UP);
      (115, VK_HOME); (119, VK_END); (116, VK_PRIOR); (121, VK_NEXT);
      (117, VK_DELETE); (114, VK_INSERT);
      (71, VK_NUMLOCK); (82, VK_NUMPAD0); (83, VK_NUMPAD1); (84, VK_NUMPAD2);
      (85, VK_NUMPAD3); (86, VK_NUMPAD4); (87, VK_NUMPAD5); (88, VK_NUMPAD6);
      (89, VK_NUMPAD7); (91, VK_NUMPAD8); (92, VK_NUMPAD9);
      (65, VK_DECIMAL); (69, VK_ADD); (78, VK_SUBTRACT); (67, VK_MULTIPLY);
      (75, VK_DIVIDE); (76, VK_RETURN) ].

Definition EXTENDED_KEYS : gset Z :=
  list_to_set
    [ VK_INSERT; VK_DELETE; VK_HOME; VK_END; VK_PRIOR; VK_NEXT;
      VK_LEFT; VK_RIGHT; VK_UP; VK_DOWN;
      VK_LWIN; VK_RWIN; VK_RCONTROL; VK_RMENU; VK_DIVIDE ].

(** [_connection_status]. *)
Inductive connection_status := Connecting | Connected | Disconnected.

(** Everything the client does to the outside, in order. *)
Inductive action :=
  | Log (lvl : level) (msg : string)
  | SetCursorPos (x y : Z)
  | SendMouseInput (dx dy mouseData dwFlags : Z)
  | SendKeyInput (wVk dwFlags : Z)
  | NetConnect
  | NetSend (bs : list byte)
  | NetClose
  | Sleep (seconds : spec_float).

(** The module globals [_pressed_keys] and [_connection_status], and the
    trace of actions. *)
Record state := {
  _pressed_keys : gset Z;
  _connection_status : connection_status;
  trace : list action
}.

Definition emit (a : action) : M state unit :=
  modify (fun st => {| _pressed_keys := _pressed_keys st;
                       _connection_status := _connection_status st;
                       trace := trace st ++ [a] |}).

Definition set_pressed (f : gset Z -> gset Z) : M state unit :=
  modify (fun st => {| _pressed_keys := f (_pressed_keys st);
                       _connection_status := _connection_status st;
                       trace := trace st |}).

Definition set_status (s : connection_status) : M state unit :=
  modify (fun st => {| _pressed_keys := _pressed_keys st;
                       _connection_status := s;
                       trace := trace st |}).

Definition get_pressed : M state (gset Z) := fun st => (Ok (_pressed_keys st), st).

(** [mouseData] is [DWORD(data & 0xFFFFFFFF)]. *)
Definition _send_mouse_input (flags dx dy data : Z) : M state unit :=
  emit (SendMouseInput dx dy (Z.land data 0xFFFFFFFF) flags).

Definition key_flags (vk : Z) (down : bool) : Z :=
  let flags := 0 in
  let flags := if negb down then Z.lor flags KEYEVENTF_KEYUP else flags in
  let flags := if bool_decide (vk ∈ EXTENDED_KEYS) then Z.lor flags KEYEVENTF_EXTENDEDKEY else flags in
  flags.

(** [wVk] is [WORD(vk)]: the code modulo [2^16]. *)
Definition _send_key_input (vk : Z) (down : bool) : M state unit :=
  emit (SendKeyInput (vk mod 2 ^ 16) (key_flags vk down)).

(** [for vk in list(_pressed_keys): _send_key_input(vk, down=False)]. *)
Fixpoint release_each (vks : list Z) : M state unit :=
  match vks with
  | [] => ret tt
  | vk :: vks' => run _send_key_input vk false; release_each vks'
  end.

Definition _release_all_keys : M state unit :=
  do pressed <- get_pressed;
  run release_each (elements pressed);
  run when (bool_decide (-1 ∈ pressed)) (_send_mouse_input MOUSEEVENTF_LEFTUP 0 0 0);
  run when (bool_decide (-2 ∈ pressed)) (_send_mouse_input MOUSEEVENTF_RIGHTUP 0 0 0);
  run when (negb (bool_decide (pressed = ∅)))
           (emit (Log INFO "Released %d stuck key(s)/button(s)"));
  set_pressed (fun _ => ∅).

Section Client.
Context {lib : PyLib}.
Variables (SCREEN_WIDTH SCREEN_HEIGHT : Z).

(** [y / SCREEN_HEIGHT if SCREEN_HEIGHT else 0]. *)
Definition norm_y_of (y : Z) : res json :=
  if SCREEN_HEIGHT =? 0 then Ok (JInt 0)
  else match int_truediv y SCREEN_HEIGHT with
       | Ok f => Ok (JFloat f)
       | Raise e => Raise e
       end.

Definition inject_event (event : json) : M state (bool * json) :=
  do event_type <- lift (py_get event "type" JNull);
  if is_str event_type "mouseMove" then
    do nx <- lift (py_get event "normalizedX" (JInt 0));
    do ny <- lift (py_get event "normalizedY" (JInt 0));
    do px <- lift (py_mul_int nx SCREEN_WIDTH);
    do x <- lift (py_int px);
    do py <- lift (py_mul_int ny SCREEN_HEIGHT);
    do y <- lift (py_int py);
    let x := Z.max 0 (Z.min x (SCREEN_WIDTH - 1)) in
    let y := Z.max 0 (Z.min y (SCREEN_HEIGHT - 1)) in
    run emit (SetCursorPos x y);
    if x <=? EDGE_THRESHOLD then
      do norm_y <- lift (norm_y_of y);
      ret (true, norm_y)
    else ret (false, JInt 0)
  else if is_str event_type "leftMouseDown" then
    run set_pressed (fun p => {[ -1 ]} ∪ p);
    run _send_mouse_input MOUSEEVENTF_LEFTDOWN 0 0 0; ret (false, JInt 0)
  else if is_str event_type "leftMouseUp" then
    run set_pressed (fun p => p ∖ {[ -1 ]});
    run _send_mouse_input MOUSEEVENTF_LEFTUP 0 0 0; ret (false, JInt 0)
  else if is_str event_type "rightMouseDown" then
    run set_pressed (fun p => {[ -2 ]} ∪ p);
    run _send_mouse_input MOUSEEVENTF_RIGHTDOWN 0 0 0; ret (false, JInt 0)
  else if is_str event_type "rightMouseUp" then
    run set_pressed (fun p => p ∖ {[ -2 ]});
    run _send_mouse_input MOUSEEVENTF_RIGHTUP 0 0 0; ret (false, JInt 0)
  else if is_str event_type "keyDown" || is_str event_type "keyUp" then
    do mac_code <- lift (py_get event "keyCode" JNull);
    match mac_code with
    | JNull => ret (false, JInt 0)
    | _ =>
        do vk <- lift (table_get MAC_TO_WIN_KEYCODE mac_code);
        match vk with
        | None =>
            run emit (Log WARNING "Unknown Mac keycode %d");
            ret (false, JInt 0)
        | Some vk =>
            let down := is_str event_type "keyDown" in
            run (if down then set_pressed (fun p => {[ vk ]} ∪ p)
                 else set_pressed (fun p => p ∖ {[ vk ]}));
            run _send_key_input vk down; ret (false, JInt 0)
        end
    end
  else if is_str event_type "scrollWheel" then
    do dx <- lift (py_get event "scrollDeltaX" (JInt 0));
    do dy <- lift (py_get event "scrollDeltaY" (JInt 0));
    run (if py_truthy dy
         then do p <- lift (py_mul_int dy WHEEL_DELTA);
              do v <- lift (py_int p);
              _send_mouse_input MOUSEEVENTF_WHEEL 0 0 v
         else ret tt);
    run (if py_truthy dx
         then do p <- lift (py_mul_int dx WHEEL_DELTA);
              do v <- lift (py_int p);
              _send_mouse_input MOUSEEVENTF_HWHEEL 0 0 v
         else ret tt);
    ret (false, JInt 0)
  else if is_str event_type "returnControl" then
    run _release_all_keys;
    run emit (Log INFO "Mac sent returnControl — all keys released");
    ret (false, JInt 0)
  else ret (false, JInt 0).

Definition log (lvl : level) (msg : string) (st : state) : state :=
  snd (emit (Log lvl msg) st).

(** The inner [while True] of [tcp_client]; each read is under
    [asyncio.wait_for], so silence raises [TimeoutError]. *)
Fixpoint read_loop (fuel : nat) (c : conn) (st : state) : loop_exit * conn * state :=
  match fuel with
  | O => (OutOfFuel, c, st)
  | S fuel' =>
      match _read_exact (rd c) 4 with
      | (Failed e, r) => (Raised e, set_rd c r, st)
      | (Stalled, r) => (Raised TimeoutError, set_rd c r, st)
      | (Got header, r) =>
          let c := set_rd c r in
          let length := struct_unpack_I header in
          if (length =? 0) || (1000000 <? length) then
            (Broke, c, log WARNING "Invalid message length: %d" st)
          else
            match _read_exact (rd c) (Z.to_nat length) with
            | (Failed e, r) => (Raised e, set_rd c r, st)
            | (Stalled, r) => (Raised TimeoutError, set_rd c r, st)
            | (Got payload, r) =>
                let c := set_rd c r in
                match json_loads payload with
                | None => (Raised JSONDecodeError, c, st)
                | Some event =>
                    match inject_event event st with
                    | (Raise e, st) => (Raised e, c, st)
                    | (Ok (should_return, norm_y), st) =>
                        if should_return then
                          let st := log INFO "Left edge hit — sending returnControl" st in
                          match frame (json_dumps (return_event norm_y)) with
                          | Raise e => (Raised e, c, st)
                          | Ok bytes =>
                              match writer_write c with
                              | (Got _, c) => read_loop fuel' c (snd (emit (NetSend bytes) st))
                              | (Failed e, c) => (Raised e, c, st)
                              | (Stalled, c) => (Raised TimeoutError, c, st)
                              end
                          end
                        else read_loop fuel' c st
                    end
                end
            end
      end
  end.

(** The [except] clauses of [tcp_client], in their order. *)
Definition handle (exit : loop_exit) (st : state) : state :=
  match exit with
  | Raised TimeoutError => log WARNING "Connection timed out" st
  | Raised e =>
      if is_oserror e then log WARNING "Connection lost: %s" st
      else log ERROR "Unexpected error: %s" st
  | _ => st
  end.

(** The [finally] clause: release, mark disconnected, close the writer if
    the connection had been opened. *)
Definition finally (opened : bool) (st : state) : state :=
  let st := snd (_release_all_keys st) in
  let st := snd (set_status Disconnected st) in
  if opened then snd (emit NetClose st) else st.

(** One pass of the outer [while True], called with [tray_update=None]. *)
Definition tcp_session (a : attempt) (st : state) : loop_exit * state :=
  let st := snd (set_status Connecting st) in
  let st := snd (emit NetConnect (log INFO "Connecting to Mac at %s:%d …" st)) in
  let '(exit, opened, st) :=
    match a with
    | Refused e => (Raised e, false, st)
    | NoAnswer => (Raised TimeoutError, false, st)
    | Accepted incoming writes =>
        let c := {| rd := incoming; sent := O; wbudget := writes |} in
        let st := snd (set_status Connected (log INFO "Connected to Mac" st)) in
        let '(exit, _, st) := read_loop (S (reader_bytes incoming)) c st in
        (exit, true, st)
    end in
  let st := finally opened (handle exit st) in
  (exit, snd (emit (Sleep RECONNECT_DELAY) (log INFO "Reconnecting in %.0f seconds …" st))).

Fixpoint tcp_client (world : list attempt) (st : state) : state :=
  match world with
  | [] => st
  | a :: world' => tcp_client world' (snd (tcp_session a st))
  end.

End Client.

End Windows.

(** ** Concrete inputs for the examples *)

Module Fixture.

(** Binary64 literals. *)
Definition f_half : spec_float := S754_finite false 4503599627370496 (-53).
Definition f_seven_eighths : spec_float := S754_finite false 7881299347898368 (-53).
Definition f_zero : spec_float := S754_zero false.
Definition f_inf : spec_float := S754_infinity false.

(** JSON text is written with ['] where the wire has the double quote. *)
Definition wire_byte (c : Ascii.ascii) : byte :=
  if Ascii.eqb c "'"%char then x22 else byte_of_ascii c.

Definition wire (text : string) : list byte := map wire_byte (String.list_ascii_of_string text).

Definition move_fields (nx ny : json) : gmap string json :=
  list_to_map [("type", JStr "mouseMove"); ("normalizedX", nx); ("normalizedY", ny)].
Definition key_fields (type : string) (code : json) : gmap string json :=
  list_to_map [("type", JStr type); ("keyCode", code)].
Definition plain_fields (type : string) : gmap string json :=
  list_to_map [("type", JStr type)].
Definition scroll_fields (dx dy : json) : gmap string json :=
  list_to_map [("type", JStr "scrollWheel"); ("scrollDeltaX", dx); ("scrollDeltaY", dy)].

Definition ev_move (nx ny : json) : json := JDict (move_fields nx ny).
Definition ev_key (type : string) (code : json) : json := JDict (key_fields type code).
Definition ev_plain (type : string) : json := JDict (plain_fields type).
Definition ev_scroll (dx dy : json) : json := JDict (scroll_fields dx dy).

Definition txt_move_edge : string := "{'type':'mouseMove','normalizedX':0.0,'normalizedY':0.5}".
Definition txt_move_mid : string := "{'type':'mouseMove','normalizedX':0.5,'normalizedY':0.5}".
Definition txt_key_a_down : string := "{'type':'keyDown','keyCode':0}".
Definition txt_left_down : string := "{'type':'leftMouseDown'}".
Definition txt_return : string := "{'type':'returnControl'}".

Definition bytes_eqb (a b : list byte) : bool :=
  bool_decide (map Byte.to_N a = map Byte.to_N b).

(** A decoder that agrees with [json.loads] on the payloads above and
    rejects every other payload. *)
Definition loads (payload : list byte) : option json :=
  if bytes_eqb payload (wire txt_move_edge) then Some (ev_move (JFloat f_zero) (JFloat f_half))
  else if bytes_eqb payload (wire txt_move_mid) then Some (ev_move (JFloat f_half) (JFloat f_half))
  else if bytes_eqb payload (wire txt_key_a_down) then Some (ev_key "keyDown" (JInt 0))
  else if bytes_eqb payload (wire txt_left_down) then Some (ev_plain "leftMouseDown")
  else if bytes_eqb payload (wire txt_return) then Some (ev_plain "returnControl")
  else None.

Definition is_half (v : res json) : bool :=
  match v with
  | Ok (JFloat f) => SFeqb f f_half
  | _ => false
  end.

(** An encoder that agrees with [json.dumps] on the [returnControl]
    messages the examples send. *)
Definition dumps (v : json) : list byte :=
  if is_half (py_get v "normalizedY" JNull)
  then wire "{'type': 'returnControl', 'normalizedX': 0, 'normalizedY': 0.5, 'edge': 'left'}"
  else wire "{'type': 'returnControl', 'normalizedX': 0, 'normalizedY': 0, 'edge': 'left'}".

Definition lib : PyLib :=
  {| int_of_str := fun _ => None; json_loads := loads; json_dumps := dumps |}.

(** A frame as the peer sends it: the payload behind its length. *)
Definition frame_of (text : string) : list byte :=
  match frame (wire text) with
  | Ok bs => bs
  | Raise _ => []
  end.

Definition W : Z := 1920.
Definition H : Z := 1080.

Definition win0 : Windows.state :=
  {| Windows._pressed_keys := ∅;
     Windows._connection_status := Windows.Disconnected;
     Windows.trace := [] |}.

End Fixture.

(** ** Observations on events, traces and states *)

(** [event.get("type") == s]. *)
Definition event_type_is (event : json) (s : string) : bool :=
  match py_get event "type" JNull with
  | Ok t => is_str t s
  | Raise _ => false
  end.

(** [event.get(key, 0)] on a dict. *)
Definition field0 (d : gmap string json) (key : string) : json :=
  match d !! key with Some v => v | None => JInt 0 end.

(** [max(0, min(int(n * size), size - 1))]: the pixel both dispatchers
    compute from a normalized coordinate. *)
Definition pixel {lib : PyLib} (n : json) (size : Z) : res Z :=
  match py_mul_int n size with
  | Ok p => match py_int p with
            | Ok r => Ok (Z.max 0 (Z.min r (size - 1)))
            | Raise e => Raise e
            end
  | Raise e => Raise e
  end.

(** A dispatch that hands nothing back: it raises, or returns [(False, 0)]. *)
Definition quiet {S : Type} (m : M S (bool * json)) : Prop :=
  forall st, match fst (m st) with
             | Ok r => r = (false, JInt 0)
             | Raise _ => True
             end.

(** A computation whose effect on the state respects [R]. *)
Definition keeps {S A : Type} (R : S -> S -> Prop) (m : M S A) : Prop :=
  forall st, R st (snd (m st)).

(** The Windows state with more actions on its trace. *)
Definition add_trace (st : Windows.state) (acts : list Windows.action) : Windows.state :=
  {| Windows._pressed_keys := Windows._pressed_keys st;
     Windows._connection_status := Windows._connection_status st;
     Windows.trace := Windows.trace st ++ acts |}.

(** The key-up call that releases [vk]. *)
Definition key_up (vk : Z) : Windows.action :=
  Windows.SendKeyInput (vk mod 2 ^ 16) (Windows.key_flags vk false).

(** What [_release_all_keys] sends for a set of pressed codes. *)
Definition release_actions (pressed : gset Z) : list Windows.action :=
  map key_up (elements pressed)
  ++ (if bool_decide (-1 ∈ pressed) then [Windows.SendMouseInput 0 0 0 Windows.MOUSEEVENTF_LEFTUP] else [])
  ++ (if bool_decide (-2 ∈ pressed) then [Windows.SendMouseInput 0 0 0 Windows.MOUSEEVENTF_RIGHTUP] else [])
  ++ (if bool_decide (pressed = ∅) then [] else [Windows.Log INFO "Released %d stuck key(s)/button(s)"]).

(** Frames written upstream, counted on a trace. *)
Definition linux_is_send (a : Linux.action) : bool :=
  match a with Linux.NetSend _ => true | _ => false end.
Definition windows_is_send (a : Windows.action) : bool :=
  match a with Windows.NetSend _ => true | _ => false end.
Definition linux_sends (tr : list Linux.action) : nat :=
  length (List.filter linux_is_send tr).
Definition windows_sends (st : Windows.state) : nat :=
  length (List.filter windows_is_send (Windows.trace st)).




(** A payload length the read loop accepts. *)
Definition valid_length (payload : list byte) : Prop :=
  1 <= Z.of_nat (length payload) <= 1000000.

(** Two states with as many frames sent. *)
Definition same_linux_sends (a b : Linux.state) : Prop := linux_sends b = linux_sends a.
Definition same_windows_sends (a b : Windows.state) : Prop := windows_sends b = windows_sends a.


(** ** The phases of one pass of [tcp_client] *)

(** The state once the connection is open and the read loop starts. *)
Definition linux_opened (tr : Linux.state) : Linux.state :=
  tr ++ [Linux.Log INFO "Connecting to Mac at %s:%d …"; Linux.NetConnect;
         Linux.Log INFO "Connected to Mac"].

Definition windows_opened (st : Windows.state) : Windows.state :=
  {| Windows._pressed_keys := Windows._pressed_keys st;
     Windows._connection_status := Windows.Connected;
     Windows.trace := Windows.trace st
       ++ [Windows.Log INFO "Connecting to Mac at %s:%d …"; Windows.NetConnect;
           Windows.Log INFO "Connected to Mac"] |}.

(** The connection the read loop starts with. *)
Definition fresh_conn (incoming : reader) (writes : option nat) : conn :=
  {| rd := incoming; sent := O; wbudget := writes |}.

(** What the [except] clauses log for the way the loop was left. *)
Definition linux_handler_log (exit : loop_exit) : list Linux.action :=
  match exit with
  | Raised e => [if is_oserror e then Linux.Log WARNING "Connection lost: %s"
                 else Linux.Log ERROR "Unexpected error: %s"]
  | _ => []
  end.

Definition windows_handler_log (exit : loop_exit) : list Windows.action :=
  match exit with
  | Raised TimeoutError => [Windows.Log WARNING "Connection timed out"]
  | Raised e => [if is_oserror e then Windows.Log WARNING "Connection lost: %s"
                 else Windows.Log ERROR "Unexpected error: %s"]
  | _ => []
  end.

(** The end of a pass: announce the retry and sleep; on Windows the
    writer is closed first. *)
Definition linux_retry : list Linux.action :=
  [Linux.Log INFO "Reconnecting in %.0f seconds …"; Linux.Sleep RECONNECT_DELAY].

Definition windows_retry : list Windows.action :=
  [Windows.NetClose; Windows.Log INFO "Reconnecting in %.0f seconds …";
   Windows.Sleep RECONNECT_DELAY].

(** The Windows state after the [finally] clause of a pass whose loop
    ended in [st] with [exit]. *)
Definition windows_disconnected (exit : loop_exit) (st : Windows.state) : Windows.state :=
  {| Windows._pressed_keys := ∅;
     Windows._connection_status := Windows.Disconnected;
     Windows.trace := Windows.trace st ++ windows_handler_log exit
                      ++ release_actions (Windows._pressed_keys st) ++ windows_retry |}.

(** ** The formulas of the specification, as it words them *)

Module Spec.

(** [round]: to the nearest integer, ties to even. *)
Definition round_mantissa (m : positive) (e : Z) : Z :=
  if 0 <=? e then Z.shiftl (Zpos m) e
  else
    let q := Z.shiftr (Zpos m) (- e) in
    let r := Z.land (Zpos m) (Z.ones (- e)) in
    match 2 * r ?= 2 ^ (- e) with
    | Lt => q
    | Gt => q + 1
    | Eq => if Z.even q then q else q + 1
    end.

Definition round (v : json) : res Z :=
  match v with
  | JInt z => Ok z
  | JFloat (S754_zero _) => Ok 0
  | JFloat (S754_finite s m e) => Ok (if s then - round_mantissa m e else round_mantissa m e)
  | JFloat (S754_infinity _) => Raise OverflowError
  | JFloat S754_nan => Raise ValueError
  | _ => Raise TypeError
  end.

Definition clamp (v lo hi : Z) : Z := Z.max lo (Z.min v hi).

(** [x = clamp(round(nx*W), 0, W-1)]. *)
Definition pixel (n : json) (size : Z) : res Z :=
  match py_mul_int n size with
  | Ok p => match round p with
            | Ok r => Ok (clamp r 0 (size - 1))
            | Raise e => Raise e
            end
  | Raise e => Raise e
  end.

End Spec.

(** ** The virtual device of the Linux daemon *)

Module LinuxDevice.
Import Linux.

(** The capabilities [create_virtual_device] creates the uinput device
    with.  [key_caps] is a Python set, given by the list of its members. *)
Definition key_caps : list ecode :=
  (map_to_list MAC_TO_LINUX_KEYCODE).*2 ++ [BTN_LEFT; BTN_RIGHT; BTN_MIDDLE].

Definition capabilities (t : etype) : list ecode :=
  match t with
  | EV_KEY => key_caps
  | EV_REL => [REL_X; REL_Y; REL_WHEEL; REL_HWHEEL]
  end.

End LinuxDevice.

(** ** Observations for the further properties *)

(** The state [st'] is [st] with more actions, each of them satisfying [P]. *)
Definition linux_adds (P : Linux.action -> Prop) (st st' : Linux.state) : Prop :=
  exists acts, st' = st ++ acts /\ Forall P acts.

Definition windows_adds (P : Windows.action -> Prop) (st st' : Windows.state) : Prop :=
  exists acts, Windows.trace st' = Windows.trace st ++ acts /\ Forall P acts.

(** A device write whose code the device was created with. *)
Definition declared_write (a : Linux.action) : Prop :=
  match a with
  | Linux.DevWrite t c _ => c ∈ LinuxDevice.capabilities t
  | _ => True
  end.

Definition linux_is_write (a : Linux.action) : bool :=
  match a with Linux.DevWrite _ _ _ => true | _ => false end.

(** Actions that leave no device write without its [syn]: there is no
    write, or the last action is the [syn]. *)
Definition flushed (acts : list Linux.action) : Prop :=
  existsb linux_is_write acts = false \/ last acts = Some Linux.DevSyn.

(** A pointer move that stays on a [W] by [H] screen. *)
Definition linux_on_screen (W H : Z) (a : Linux.action) : Prop :=
  match a with
  | Linux.MouseMove _ x y => 0 <= x < W /\ 0 <= y < H
  | _ => True
  end.

Definition windows_on_screen (W H : Z) (a : Windows.action) : Prop :=
  match a with
  | Windows.SetCursorPos x y => 0 <= x < W /\ 0 <= y < H
  | _ => True
  end.



(** A code [_pressed_keys] is meant to hold: one of the two mouse slots or
    a virtual-key code of the table. *)
Definition windows_known_code (vk : Z) : Prop :=
  vk = -1 \/ vk = -2 \/ exists k, Windows.MAC_TO_WIN_KEYCODE !! k = Some vk.

(** Every code pressed in [st'] was pressed in [st] or is a known one. *)
Definition pressed_known (st st' : Windows.state) : Prop :=
  forall vk, vk ∈ Windows._pressed_keys st' ->
             vk ∈ Windows._pressed_keys st \/ windows_known_code vk.

(** The signed 32-bit reading of a DWORD. *)
Definition signed32 (d : Z) : Z := if d <? 2 ^ 31 then d else d - 2 ^ 32.

(** The connection-level actions of a trace: connecting, closing and the
    reconnect delay. *)
Definition linux_is_link (a : Linux.action) : bool :=
  match a with Linux.NetConnect | Linux.Sleep _ => true | _ => false end.

Definition windows_is_link (a : Windows.action) : bool :=
  match a with Windows.NetConnect | Windows.NetClose | Windows.Sleep _ => true | _ => false end.

Definition linux_links (tr : Linux.state) : list Linux.action := List.filter linux_is_link tr.

Definition windows_links (st : Windows.state) : list Windows.action :=
  List.filter windows_is_link (Windows.trace st).

(** What one pass of the Windows client does to the connection. *)
Definition windows_pass_links (a : attempt) : list Windows.action :=
  match a with
  | Accepted _ _ => [Windows.NetConnect; Windows.NetClose; Windows.Sleep RECONNECT_DELAY]
  | _ => [Windows.NetConnect; Windows.Sleep RECONNECT_DELAY]
  end.

(** Two states with the same connection-level actions. *)
Definition same_linux_links (a b : Linux.state) : Prop := linux_links b = linux_links a.
Definition same_windows_links (a b : Windows.state) : Prop := windows_links b = windows_links a.

(** A stream that delivers [bytes], in chunks of any size, and then ends
    with the peer closing. *)
Definition carries (r : reader) (bytes : list byte) : Prop :=
  exists chunks,
    Forall (fun c : list byte => c <> []) chunks /\ concat chunks = bytes
    /\ (r = map Data chunks \/ exists tail, r = map Data chunks ++ Data [] :: tail).

(** The event types the dispatchers know. *)
Definition known_types : list string :=
  ["mouseMove"; "leftMouseDown"; "leftMouseUp"; "rightMouseDown"; "rightMouseUp";
   "keyDown"; "keyUp"; "scrollWheel"; "returnControl"].

(** ** Library and system calls of the Linux daemon's start-up and polling code *)

Module Os.

(** Pure library functions whose code is outside the repository. *)
Class PyOs := {
  (** [re.search(pattern, text)] for a pattern with two groups: the two
      groups of the match, [None] when there is no match. *)
  re_search : string -> string -> option (string * string);
  (** [text.splitlines()]. *)
  splitlines : string -> list string
}.

(** [with open(path, "rb"): pass]. *)
Inductive opening :=
  | Opened
  | PermissionError
  | OpenError (e : exn).

(** What the start-up code finds on the machine it runs on. *)
Record host := {
  (** [os.path.exists(path)]. *)
  path_exists : string -> bool;
  open_rb : string -> opening;
  (** Whether [shutil.which(name)] finds the program. *)
  which : string -> bool;
  (** [subprocess.run(argv, capture_output=True, text=True, timeout=...)]:
      the standard output of the program, or the exception raised. *)
  subprocess_run : list string -> res string;
  (** [UInput(capabilities, name=...)]. *)
  uinput_new : res unit
}.

End Os.

Export Os.

(** ** Edge detection of the Linux daemon *)

Module LinuxEdge.
Import Linux.

(** [EDGE_POLL_INTERVAL = 0.1]. *)
Definition EDGE_POLL_INTERVAL : spec_float := S754_finite false 7205759403792794 (-56).

(** How [_edge_detection_loop] is left: it returned, an exception escaped
    it, the drain of the writer never completed, or it is still polling
    after the polls observed. *)
Inductive watch_exit :=
  | Returned
  | Escaped (e : exn)
  | Stuck
  | Polling.

Section Watch.
Context {lib : PyLib} {os : PyOs}.
Variable SCREEN_HEIGHT : Z.

(** [located] is what [subprocess.run(["xdotool", "getmouselocation"], ...)]
    gives, the same call under Wayland and X11; every exception, that of
    [int] included, is swallowed. *)
Definition _get_cursor_position (located : res string) : option (Z * Z) :=
  match located with
  | Raise _ => None
  | Ok stdout =>
      match re_search "x:(\d+)\s+y:(\d+)" stdout with
      | Some (g1, g2) =>
          match py_int (JStr g1) with
          | Ok x => match py_int (JStr g2) with
                    | Ok y => Some (x, y)
                    | Raise _ => None
                    end
          | Raise _ => None
          end
      | None => None
      end
  end.

(** The [while not stop_event.is_set()] loop, one poll of the cursor per
    pass; the state also holds [stop_event] and the connection written to. *)
Fixpoint watch (polls : list (res string)) (stop_event : bool) (c : conn) (st : state)
  : watch_exit * bool * conn * state :=
  if stop_event then (Returned, stop_event, c, st)
  else
    match polls with
    | [] => (Polling, stop_event, c, st)
    | located :: polls' =>
        match _get_cursor_position located with
        | Some (x, y) =>
            if x <=? EDGE_THRESHOLD then
              let st := st ++ [Log INFO "Left edge reached at (%d, %d) — returning control to Mac"] in
              match Linux.norm_y_of SCREEN_HEIGHT y with
              | Raise e => (Escaped e, stop_event, c, st)
              | Ok norm_y =>
                  match frame (json_dumps (return_event norm_y)) with
                  | Raise e => (Escaped e, stop_event, c, st)
                  | Ok bytes =>
                      match writer_write c with
                      | (Got _, c) => (Returned, true, c, st ++ [NetSend bytes])
                      | (Failed _, c) =>
                          (Returned, true, c,
                           st ++ [Log WARNING "Failed to send returnControl: %s"])
                      | (Stalled, c) => (Stuck, stop_event, c, st)
                      end
                  end
              end
            else watch polls' stop_event c (st ++ [Sleep EDGE_POLL_INTERVAL])
        | None => watch polls' stop_event c (st ++ [Sleep EDGE_POLL_INTERVAL])
        end
    end.

Definition _edge_detection_loop (polls : list (res string)) (stop_event : bool)
    (c : conn) (st : state) : watch_exit * bool * conn * state :=
  watch polls stop_event c
    (st ++ [Log INFO "Edge detection active — push cursor to left screen edge to return control to Mac"]).

End Watch.

End LinuxEdge.

(** ** Start-up of the Linux daemon *)

Module LinuxSetup.
Import Linux LinuxDevice.

(** The module globals the detection updates, and the log. *)
Record setup := {
  SCREEN_WIDTH : Z;
  SCREEN_HEIGHT : Z;
  logged : list action
}.

Definition log (lvl : level) (msg : string) : M setup unit :=
  modify (fun s => {| SCREEN_WIDTH := SCREEN_WIDTH s; SCREEN_HEIGHT := SCREEN_HEIGHT s;
                      logged := logged s ++ [Log lvl msg] |}).

Definition set_width (w : Z) : M setup unit :=
  modify (fun s => {| SCREEN_WIDTH := w; SCREEN_HEIGHT := SCREEN_HEIGHT s; logged := logged s |}).

Definition set_height (h : Z) : M setup unit :=
  modify (fun s => {| SCREEN_WIDTH := SCREEN_WIDTH s; SCREEN_HEIGHT := h; logged := logged s |}).

(** [try: m  except Exception: log.debug(...)], the debug line being
    below the level the logger is configured with. *)
Definition try_or_false (m : M setup bool) : M setup bool :=
  fun s => match m s with
           | (Raise _, s') => (Ok false, s')
           | r => r
           end.

Section Detection.
Context {lib : PyLib} {os : PyOs}.

(** The two assignments and the log line that follow a match; [true]
    stands for the [return] after them. *)
Definition take_resolution (groups : string * string) (msg : string) : M setup bool :=
  do w <- lift (py_int (JStr (fst groups)));
  run set_width w;
  do h <- lift (py_int (JStr (snd groups)));
  run set_height h;
  run log INFO msg;
  ret true.

(** [for line in result.stdout.splitlines()]: the first line that matches
    decides. *)
Fixpoint scan_modes (lines : list string) : M setup bool :=
  match lines with
  | [] => ret false
  | line :: lines' =>
      match re_search "(\d+)x(\d+)\+\d+\+\d+" line with
      | Some groups => take_resolution groups "Screen resolution (xrandr): %dx%d"
      | None => scan_modes lines'
      end
  end.

Definition detect_screen_resolution (h : host) : M setup unit :=
  do found <-
    (if which h "xrandr" then
       try_or_false (do result <- lift (subprocess_run h ["xrandr"]);
                     scan_modes (splitlines result))
     else ret false);
  if found then ret tt
  else
    do found <-
      (if which h "xdpyinfo" then
         try_or_false (do result <- lift (subprocess_run h ["xdpyinfo"]);
                       match re_search "dimensions:\s+(\d+)x(\d+)\s+pixels" result with
                       | Some groups =>
                           take_resolution groups "Screen resolution (xdpyinfo): %dx%d"
                       | None => ret false
                       end)
       else ret false);
    if found then ret tt
    else log WARNING "Could not detect screen resolution — using default %dx%d".

End Detection.

Definition detect_display_server (USE_WAYLAND : bool) : M setup unit :=
  if USE_WAYLAND then log INFO "Display server: Wayland (will use ydotool)"
  else log INFO "Display server: X11 (will use xdotool)".

(** What the start-up does besides logging. *)
Inductive step :=
  | Does (a : action)
  | PrintLine (line : string)
  | UInputCreate (caps : etype -> list ecode) (name : string)
  | UInputClose.

(** How a call of the start-up code is left: it returned, it called
    [sys.exit], an exception escaped it, or (for [main]) it is still
    running. *)
Inductive ending :=
  | Returns
  | Exits (status : Z)
  | Throws (e : exn)
  | Running.

Definition quote : string := String (Ascii.ascii_of_nat 34) EmptyString.

Definition check_uinput (h : host) (out : list step) : ending * list step :=
  if negb (path_exists h "/dev/uinput") then
    (Exits 1,
     out ++ [PrintLine "❌ /dev/uinput not found.";
             PrintLine "   Run: sudo modprobe uinput";
             PrintLine "   To persist: echo 'uinput' | sudo tee -a /etc/modules"])
  else
    match open_rb h "/dev/uinput" with
    | Opened => (Returns, out)
    | PermissionError =>
        (Exits 1,
         out ++ [PrintLine "❌ Cannot open /dev/uinput — permission denied.";
                 PrintLine "   Run this script with sudo, or set up a udev rule:";
                 PrintLine ("   echo 'KERNEL==" +:+ quote +:+ "uinput" +:+ quote +:+ ", MODE="
                        +:+ quote +:+ "0660" +:+ quote +:+ ", GROUP=" +:+ quote +:+ "input"
                        +:+ quote +:+ "' | sudo tee /etc/udev/rules.d/99-uinput.rules");
                 PrintLine "   sudo udevadm control --reload-rules && sudo udevadm trigger"])
    | OpenError e => (Throws e, out)
    end.

Definition check_mouse_tool (USE_WAYLAND : bool) (h : host) (out : list step)
  : ending * list step :=
  if USE_WAYLAND then
    if negb (which h "ydotool") then
      (Exits 1,
       out ++ [PrintLine "❌ ydotool not found (required for Wayland).";
               PrintLine "   Run: sudo apt install ydotool";
               PrintLine "   Then start the daemon: sudo ydotoold &"])
    else (Returns, out)
  else
    if negb (which h "xdotool") then
      (Exits 1,
       out ++ [PrintLine "❌ xdotool not found (required for X11).";
               PrintLine "   Run: sudo apt install xdotool"])
    else (Returns, out).

(** [create_virtual_device]: the device is made with the capabilities
    above, unless [UInput] raises. *)
Definition create_virtual_device (h : host) (out : list step) : ending * list step :=
  match uinput_new h with
  | Raise e => (Throws e, out)
  | Ok _ =>
      (Returns,
       out ++ [UInputCreate capabilities "MouseShare Virtual Input";
               Does (Log INFO "Virtual input device created: %s")])
  end.

Section Main.
Context {lib : PyLib} {os : PyOs}.

(** [main], on a machine [h], with the connection attempts [world] the
    client meets before Ctrl-C is pressed ([interrupted]) or the
    observation ends.  [1920] and [1080] are the values the module gives
    [SCREEN_WIDTH] and [SCREEN_HEIGHT] before the detection. *)
Definition main (USE_WAYLAND : bool) (h : host) (world : list attempt) (interrupted : bool)
  : ending * list step :=
  let out := [Does (Log INFO "MouseShare Linux Companion starting …")] in
  match check_uinput h out with
  | (Returns, out) =>
      match check_mouse_tool USE_WAYLAND h out with
      | (Returns, out) =>
          let s := {| SCREEN_WIDTH := 1920; SCREEN_HEIGHT := 1080; logged := [] |} in
          let s := snd (detect_display_server USE_WAYLAND s) in
          let s := snd (detect_screen_resolution h s) in
          let out := out ++ map Does (logged s) in
          match create_virtual_device h out with
          | (Returns, out) =>
              let out := out ++ [Does (Log INFO "Will connect to Mac at %s:%d")] in
              let out := out ++ map Does (tcp_client (SCREEN_WIDTH s) (SCREEN_HEIGHT s)
                                            USE_WAYLAND world []) in
              if interrupted then
                (Returns,
                 out ++ [Does (Log INFO "Shutting down …"); UInputClose;
                         Does (Log INFO "Virtual device closed. Goodbye.")])
              else (Running, out)
          | r => r
          end
      | r => r
      end
  | r => r
  end.

End Main.

End LinuxSetup.

(** A stage of the resolution detection: either the resolution was taken
    and logged with [msg], or nothing was logged. *)
Definition taken_or_silent (msg : string) (s : LinuxSetup.setup)
    (r : res bool * LinuxSetup.setup) : Prop :=
  (fst r = Ok true /\ LinuxSetup.logged (snd r) = LinuxSetup.logged s ++ [Linux.Log INFO msg])
  \/ (fst r <> Ok true /\ LinuxSetup.logged (snd r) = LinuxSetup.logged s).

(** The input that presses the code [vk]: the button-down of a mouse slot,
    the key-down of a key. *)
Definition down_of (vk : Z) : Windows.action :=
  if vk =? -1 then Windows.SendMouseInput 0 0 0 Windows.MOUSEEVENTF_LEFTDOWN
  else if vk =? -2 then Windows.SendMouseInput 0 0 0 Windows.MOUSEEVENTF_RIGHTDOWN
  else Windows.SendKeyInput (vk mod 2 ^ 16) (Windows.key_flags vk true).

(** Every code in [_pressed_keys] has had its down input sent. *)
Definition pressed_backed (st : Windows.state) : Prop :=
  forall vk, vk ∈ Windows._pressed_keys st -> down_of vk ∈ Windows.trace st.

(** Nothing new is pressed and the trace only grows. *)
Definition presses_nothing (st st' : Windows.state) : Prop :=
  Windows._pressed_keys st' ⊆ Windows._pressed_keys st
  /\ exists acts, Windows.trace st' = Windows.trace st ++ acts.

(** ** Concrete inputs for the examples of the polling and start-up code *)

Module Desk.

(** [int(s)] on a str of ASCII decimal digits; every other str is
    rejected here. *)
Definition digit (c : Ascii.ascii) : option Z :=
  let n := Z.of_N (Ascii.N_of_ascii c) in
  if (48 <=? n) && (n <=? 57) then Some (n - 48) else None.

Fixpoint digits (s : string) (acc : Z) : option Z :=
  match s with
  | EmptyString => Some acc
  | String c s' =>
      match digit c with
      | Some d => digits s' (acc * 10 + d)
      | None => None
      end
  end.

Definition decimal (s : string) : option Z :=
  match s with
  | EmptyString => None
  | _ => digits s 0
  end.

(** A decoder that also knows the payload [7], which is JSON but no
    object. *)
Definition loads (payload : list byte) : option json :=
  if Fixture.bytes_eqb payload (Fixture.wire "7") then Some (JInt 7)
  else Fixture.loads payload.

Definition lib : PyLib :=
  {| int_of_str := decimal; json_loads := loads; json_dumps := Fixture.dumps |}.

(** What [xdotool getmouselocation] prints with the cursor at the left
    edge and in the middle of a 1920 by 1080 screen. *)
Definition at_edge : string := "x:3 y:540 screen:0 window:41943044".
Definition at_middle : string := "x:960 y:540 screen:0 window:41943044".

(** A matcher that agrees with [re.search] on these two texts. *)
Definition search (pattern text : string) : option (string * string) :=
  if String.eqb pattern "x:(\d+)\s+y:(\d+)" then
    if String.eqb text at_edge then Some ("3", "540")
    else if String.eqb text at_middle then Some ("960", "540")
    else None
  else None.

(** [splitlines] as it is on a text of one line. *)
Definition os : PyOs := {| re_search := search; splitlines := fun text => [text] |}.

End Desk.

(** * Facts *)

(** ** The binary64 model: roundings that stay finite *)

Lemma digits2_pos_size p : digits2_pos p = Pos.size p.
Proof. induction p; simpl; congruence. Qed.

Lemma Zdigits2_log2 p : Zdigits2 (Zpos p) = Z.log2 (Zpos p) + 1.
Proof.
  simpl. rewrite digits2_pos_size. destruct p; simpl; lia.
Qed.

Lemma Zdigits2_nonneg m : 0 <= Zdigits2 m.
Proof. destruct m; simpl; lia. Qed.

Lemma Zdigits2_mono a b : 0 <= a <= b -> Zdigits2 a <= Zdigits2 b.
Proof.
  intros [Ha Hab]. destruct a as [|a|a]; [apply Zdigits2_nonneg| |lia].
  destruct b as [|b|b]; try lia.
  rewrite !Zdigits2_log2. apply Z.add_le_mono_r, Z.log2_le_mono. lia.
Qed.

Lemma Zdigits2_succ m : 0 <= m -> Zdigits2 (m + 1) <= Zdigits2 m + 1.
Proof.
  intros Hm. destruct m as [|m|m]; [simpl; lia| |lia].
  replace (Zpos m + 1) with (Z.succ (Zpos m)) by lia.
  assert (H : 0 < Z.succ (Zpos m)) by lia.
  destruct (Z.succ (Zpos m)) eqn:E; try lia.
  rewrite !Zdigits2_log2, <- E.
  pose proof (Z.log2_succ_le (Zpos m)). lia.
Qed.


Lemma shr_1_bounds mrs : 0 <= shr_m mrs -> 0 <= shr_m (shr_1 mrs) <= shr_m mrs.
Proof.
  destruct mrs as [m r s]. simpl. intros Hm.
  destruct m as [|[p|p|]|p]; simpl; lia.
Qed.

Lemma iter_shr_1_bounds p : forall mrs,
  0 <= shr_m mrs -> 0 <= shr_m (SpecFloat.iter_pos shr_1 p mrs) <= shr_m mrs.
Proof.
  induction p as [p IH|p IH|]; intros mrs Hm; simpl.
  - pose proof (shr_1_bounds mrs Hm) as H1.
    pose proof (IH _ (proj1 H1)) as H2.
    pose proof (IH _ (proj1 H2)) as H3. lia.
  - pose proof (IH _ Hm) as H2.
    pose proof (IH _ (proj1 H2)) as H3. lia.
  - apply shr_1_bounds, Hm.
Qed.

Lemma shr_fexp_bounds m e l :
  0 <= m ->
  0 <= shr_m (fst (shr_fexp prec emax m e l)) <= m /\
  snd (shr_fexp prec emax m e l) = Z.max e (fexp prec emax (Zdigits2 m + e)).
Proof.
  intros Hm. unfold shr_fexp, shr.
  assert (Hr : shr_m (shr_record_of_loc m l) = m) by (destruct l as [|[]]; reflexivity).
  destruct (fexp prec emax (Zdigits2 m + e) - e) as [|p|p] eqn:E; simpl.
  - rewrite Hr. lia.
  - pose proof (iter_shr_1_bounds p (shr_record_of_loc m l)) as H. rewrite Hr in H. lia.
  - rewrite Hr. lia.
Qed.

Lemma round_nearest_even_bounds m l : m <= round_nearest_even m l <= m + 1.
Proof. destruct l as [|[]]; simpl; try lia. destruct (Z.even m); lia. Qed.

Lemma fexp_le x B : x <= B -> fexp prec emax x <= Z.max (B - 53) (-1074).
Proof. unfold fexp, SpecFloat.emin, prec, emax. lia. Qed.

(** A rounding whose exponent bound stays below [emax - prec] is finite. *)
Lemma binary_round_aux_finite s m e l D E :
  0 <= m -> Zdigits2 m <= D -> e <= E ->
  Z.max (Z.max E (Z.max (D + E - 53) (-1074)))
        (Z.max (D + 1 + Z.max E (Z.max (D + E - 53) (-1074)) - 53) (-1074)) <= 971 ->
  match binary_round_aux prec emax s m e l with
  | S754_zero _ => True
  | S754_finite _ m' e' =>
      Zdigits2 (Zpos m') <= D + 1 /\
      e' <= Z.max (Z.max E (Z.max (D + E - 53) (-1074)))
                  (Z.max (D + 1 + Z.max E (Z.max (D + E - 53) (-1074)) - 53) (-1074))
  | _ => False
  end.
Proof.
  intros Hm HD HE Hbound. unfold binary_round_aux.
  pose proof (shr_fexp_bounds m e l Hm) as [Hm1 He1].
  destruct (shr_fexp prec emax m e l) as [mrs1 e1]. simpl in Hm1, He1.
  set (m2 := round_nearest_even (shr_m mrs1) (loc_of_shr_record mrs1)).
  pose proof (round_nearest_even_bounds (shr_m mrs1) (loc_of_shr_record mrs1)) as Hm2.
  fold m2 in Hm2.
  assert (Hm2' : 0 <= m2) by lia.
  pose proof (shr_fexp_bounds m2 e1 loc_Exact Hm2') as [Hm3 He3].
  destruct (shr_fexp prec emax m2 e1 loc_Exact) as [mrs3 e3]. simpl in Hm3, He3.
  assert (Hd2 : Zdigits2 m2 <= D + 1).
  { transitivity (Zdigits2 (m + 1)); [apply Zdigits2_mono; lia|].
    pose proof (Zdigits2_succ m Hm). lia. }
  pose proof (fexp_le (Zdigits2 m + e) (D + E) ltac:(lia)) as Hf1.
  assert (He1' : e1 <= Z.max E (Z.max (D + E - 53) (-1074))) by lia.
  pose proof (fexp_le (Zdigits2 m2 + e1) (D + 1 + Z.max E (Z.max (D + E - 53) (-1074))) ltac:(lia)) as Hf3.
  destruct (shr_m mrs3) as [|m3|m3] eqn:E3; [exact I| |lia].
  assert (Hle : (e3 <=? emax - prec) = true).
  { apply Z.leb_le. unfold emax, prec. lia. }
  rewrite Hle. split; [|lia].
  transitivity (Zdigits2 m2); [apply Zdigits2_mono; lia|lia].
Qed.





Lemma Zdigits2_lt_pow2 q s : 0 <= q < 2 ^ s -> 0 <= s -> Zdigits2 q <= s.
Proof.
  intros [Hq0 Hq] Hs. destruct q as [|q|q]; [simpl; lia| |lia].
  rewrite Zdigits2_log2.
  assert (Z.log2 (Zpos q) < s) by (apply Z.log2_lt_pow2; lia). lia.
Qed.

(** The quotient of a pointer coordinate by the screen height is below
    one, so the division never overflows. *)
Lemma int_truediv_below_one y h :
  0 <= y < h -> exists f, int_truediv y h = Ok f.
Proof.
  intros [Hy Hh]. unfold int_truediv.
  destruct (h =? 0) eqn:Eh; [apply Z.eqb_eq in Eh; lia|].
  destruct (y =? 0) eqn:Ey; [eauto|]. apply Z.eqb_neq in Ey.
  rewrite !Z.abs_eq by lia.
  unfold SFdiv_core_binary.
  set (e' := Z.min (fexp prec emax (Zdigits2 y + 0 - (Zdigits2 h + 0))) (0 - 0)).
  assert (He : -1074 <= e' <= 0).
  { unfold e', fexp, SpecFloat.emin, prec, emax. lia. }
  set (m' := match 0 - 0 - e' with Z0 => y | Zpos _ => Z.shiftl y (0 - 0 - e') | Zneg _ => 0 end).
  assert (Hm : m' = y * 2 ^ (- e')).
  { unfold m'. replace (0 - 0 - e') with (- e') by lia.
    destruct (- e') as [|p|p] eqn:E; try lia.
    rewrite Z.shiftl_mul_pow2; lia. }
  pose proof (Z.div_eucl_eq m' h ltac:(lia)) as Hdiv.
  pose proof (Z.mod_pos_bound m' h ltac:(lia)) as Hmod.
  unfold Z.modulo in Hmod.
  destruct (Z.div_eucl m' h) as [q r].
  assert (Hp : 0 < 2 ^ (- e')) by (apply Z.pow_pos_nonneg; lia).
  assert (Hq : 0 <= q < 2 ^ (- e')) by nia.
  pose proof (binary_round_aux_finite (xorb (y <? 0) (h <? 0)) q e' (new_location h r) (- e') e'
                ltac:(lia) (Zdigits2_lt_pow2 q (- e') Hq ltac:(lia)) ltac:(lia) ltac:(lia)) as B.
  destruct (binary_round_aux prec emax (xorb (y <? 0) (h <? 0)) q e' (new_location h r));
    try contradiction; eauto.
Qed.

(** ** Frames and the byte stream *)

Lemma byte_of_Z_to_N z : Z.of_N (Byte.to_N (byte_of_Z z)) = z mod 256.
Proof.
  unfold byte_of_Z.
  pose proof (Z.mod_pos_bound z 256 ltac:(lia)) as Hb.
  destruct (Byte.of_N (Z.to_N (z mod 256))) as [b|] eqn:E.
  - apply Byte.to_of_N in E. rewrite E. lia.
  - apply Byte.of_N_None_iff in E. lia.
Qed.

Lemma struct_unpack_pack n :
  0 <= n < 2 ^ 32 ->
  exists header, struct_pack_I n = Ok header /\ length header = 4%nat /\ struct_unpack_I header = n.
Proof.
  intros Hn. unfold struct_pack_I.
  replace ((0 <=? n) && (n <? 2 ^ 32)) with true
    by (symmetry; apply andb_true_intro; split; [apply Z.leb_le|apply Z.ltb_lt]; lia).
  eexists. split; [reflexivity|]. split; [reflexivity|].
  unfold struct_unpack_I. cbn [fold_left]. rewrite !byte_of_Z_to_N.
  change (2 ^ 24) with 16777216. change (2 ^ 16) with 65536. change (2 ^ 8) with 256.
  change (2 ^ 32) with 4294967296 in Hn.
  pose proof (Z.div_mod n 256 ltac:(lia)).
  pose proof (Z.div_mod (n / 256) 256 ltac:(lia)).
  pose proof (Z.div_mod (n / 256 / 256) 256 ltac:(lia)).
  rewrite !Z.div_div in * by lia.
  change (256 * 256 * 256) with 16777216 in *. change (256 * 256) with 65536 in *.
  assert (n / 16777216 < 256) by (apply Z.div_lt_upper_bound; lia).
  assert (0 <= n / 16777216) by (apply Z.div_pos; lia).
  rewrite (Z.mod_small (n / 16777216) 256) by lia. lia.
Qed.

Lemma available_data b bs r :
  available (Data (b :: bs) :: r) = (b :: bs) ++ available r.
Proof. reflexivity. Qed.

Lemma read_exact_loop_enough fuel n data r :
  (n <= length data)%nat -> read_exact_loop fuel n data r = (Got data, r).
Proof.
  intros Hn. apply Nat.leb_le in Hn. destruct fuel; simpl; rewrite Hn; reflexivity.
Qed.

(** The byte count asked for is fuel enough: with at least that much, the
    result of the loop does not depend on the fuel. *)
Lemma read_exact_loop_fuel fuel1 : forall fuel2 n data r,
  (n - length data <= fuel1)%nat -> (n - length data <= fuel2)%nat ->
  read_exact_loop fuel1 n data r = read_exact_loop fuel2 n data r.
Proof.
  induction fuel1 as [|fuel1 IH]; intros fuel2 n data r H1 H2.
  - rewrite !read_exact_loop_enough by lia. reflexivity.
  - destruct (Nat.le_gt_cases n (length data)) as [Hle|Hgt].
    { rewrite !read_exact_loop_enough by lia. reflexivity. }
    destruct fuel2 as [|fuel2]; [lia|].
    cbn [read_exact_loop].
    replace (n <=? length data)%nat with false by (symmetry; apply Nat.leb_gt; lia).
    destruct (reader_read (n - length data) r) as [[[|b chunk]|e|] r']; try reflexivity.
    apply IH; rewrite length_app; simpl; lia.
Qed.

Lemma read_exact_loop_step fuel n data c r :
  (length data < n)%nat -> c <> [] ->
  read_exact_loop (S fuel) n data (Data c :: r)
  = if (length c <=? n - length data)%nat
    then read_exact_loop fuel n (data ++ c) r
    else read_exact_loop fuel n (data ++ take (n - length data) c)
           (Data (drop (n - length data) c) :: r).
Proof.
  intros Hlt Hc. cbn [read_exact_loop reader_read].
  replace (n <=? length data)%nat with false by (symmetry; apply Nat.leb_gt; lia).
  destruct (length c <=? n - length data)%nat.
  - destruct c; [congruence|reflexivity].
  - destruct (n - length data)%nat as [|k] eqn:Ek; [lia|].
    destruct c; [congruence|reflexivity].
Qed.

Lemma read_exact_loop_got fuel : forall n data r,
  (n <= length data + length (available r))%nat ->
  (n - length data <= fuel)%nat ->
  exists r', read_exact_loop fuel n data r
             = (Got (data ++ take (n - length data) (available r)), r')
          /\ available r' = drop (n - length data) (available r).
Proof.
  induction fuel as [|fuel IH]; intros n data r Hav Hfuel.
  - rewrite read_exact_loop_enough by lia.
    replace (n - length data)%nat with O by lia.
    rewrite take_0, drop_0, app_nil_r. eauto.
  - destruct (Nat.le_gt_cases n (length data)) as [Hle|Hgt].
    { rewrite read_exact_loop_enough by lia.
      replace (n - length data)%nat with O by lia.
      rewrite take_0, drop_0, app_nil_r. eauto. }
    destruct r as [|[[|b bs]|e|] r]; cbn [available length] in Hav; try lia.
    rewrite available_data in *. rewrite length_app in Hav.
    rewrite read_exact_loop_step by (lia || discriminate).
    remember (b :: bs) as c eqn:Hc.
    assert (Hlen : (0 < length c)%nat) by (subst c; simpl; lia).
    set (k := (n - length data)%nat) in *.
    destruct (length c <=? k)%nat eqn:Ek.
    + apply Nat.leb_le in Ek.
      destruct (IH n (data ++ c) r) as (r' & Hr & Ha).
      { rewrite length_app. lia. }
      { rewrite length_app. lia. }
      rewrite length_app in Hr, Ha.
      replace (n - (length data + length c))%nat with (k - length c)%nat in Hr, Ha by lia.
      exists r'. split.
      * rewrite Hr, <- app_assoc, take_app_ge by lia. reflexivity.
      * rewrite Ha, drop_app_ge by lia. reflexivity.
    + apply Nat.leb_gt in Ek.
      rewrite read_exact_loop_enough by (rewrite length_app, length_take; lia).
      eexists. split.
      * rewrite take_app_le by lia. reflexivity.
      * rewrite drop_app_le by lia.
        destruct (drop k c) as [|x xs] eqn:Ed.
        { apply (f_equal length) in Ed. rewrite length_drop in Ed. simpl in Ed. lia. }
        reflexivity.
Qed.


(** Reading moves bytes from the stream to the result. *)
Lemma read_exact_loop_bytes fuel : forall n data r bs r',
  read_exact_loop fuel n data r = (Got bs, r') ->
  (n <= length bs /\ length bs + reader_bytes r' = length data + reader_bytes r)%nat.
Proof.
  induction fuel as [|fuel IH]; intros n data r bs r' Hrd.
  - simpl in Hrd. destruct (n <=? length data)%nat eqn:E; [|discriminate].
    apply Nat.leb_le in E. inversion Hrd; subst. lia.
  - destruct (Nat.le_gt_cases n (length data)) as [Hle|Hgt].
    { rewrite read_exact_loop_enough in Hrd by lia. inversion Hrd; subst. lia. }
    destruct r as [|[[|b bs0]|e|] r];
      try (cbn [read_exact_loop reader_read] in Hrd;
           replace (n <=? length data)%nat with false in Hrd
             by (symmetry; apply Nat.leb_gt; lia);
           discriminate).
    rewrite read_exact_loop_step in Hrd by (lia || discriminate).
    cbn [reader_bytes].
    remember (b :: bs0) as c eqn:Hc.
    destruct (length c <=? n - length data)%nat eqn:Ek.
    + apply IH in Hrd. rewrite length_app in Hrd. lia.
    + apply Nat.leb_gt in Ek. apply IH in Hrd.
      rewrite length_app, length_take in Hrd. cbn [reader_bytes] in Hrd.
      rewrite length_drop in Hrd. lia.
Qed.

(** ** The dispatchers *)

Ltac eval_is_str :=
  repeat match goal with
    | |- context [is_str (JStr ?a) ?b] =>
        let v := eval vm_compute in (is_str (JStr a) b) in
        change (is_str (JStr a) b) with v
    end.

Section Dispatch.
Context {lib : PyLib}.
Variables (W H0 : Z) (uw : bool).

Lemma pixel_inv n size x :
  pixel n size = Ok x ->
  exists p r, py_mul_int n size = Ok p /\ py_int p = Ok r /\ x = Z.max 0 (Z.min r (size - 1)).
Proof.
  unfold pixel. destruct (py_mul_int n size) as [p|] eqn:Ep; [|discriminate].
  destruct (py_int p) as [r|] eqn:Er; [|discriminate]. intros [= <-].
  exists p, r. auto.
Qed.

Lemma linux_mouse_move d x y st :
  pixel (field0 d "normalizedX") W = Ok x ->
  pixel (field0 d "normalizedY") H0 = Ok y ->
  Linux._inject_mouse_move W H0 uw (JDict d) st
  = (Ok (x, y), st ++ [Linux.MouseMove (if uw then Linux.Ydotool else Linux.Xdotool) x y]).
Proof.
  intros Hx Hy.
  apply pixel_inv in Hx as (px & rx & Hpx & Hrx & ->).
  apply pixel_inv in Hy as (py & ry & Hpy & Hry & ->).
  unfold field0 in *.
  unfold Linux._inject_mouse_move, bind, lift, ret, Linux.emit, modify, py_get.
  rewrite Hpx, Hrx, Hpy, Hry. reflexivity.
Qed.

Lemma linux_move_dispatch d x y st :
  d !! "type" = Some (JStr "mouseMove") ->
  pixel (field0 d "normalizedX") W = Ok x ->
  pixel (field0 d "normalizedY") H0 = Ok y ->
  Linux.inject_event W H0 uw (JDict d) st
  = (if x <=? 5
     then match Linux.norm_y_of H0 y with
          | Ok v => Ok (true, v)
          | Raise e => Raise e
          end
     else Ok (false, JInt 0),
     st ++ [Linux.MouseMove (if uw then Linux.Ydotool else Linux.Xdotool) x y]).
Proof.
  intros Hty Hx Hy.
  unfold Linux.inject_event. unfold bind at 1. unfold lift at 1. unfold py_get at 1.
  rewrite Hty. eval_is_str. cbv beta iota.
  unfold bind at 1. rewrite (linux_mouse_move d x y st Hx Hy).
  unfold Linux.EDGE_THRESHOLD.
  destruct (x <=? 5); [|reflexivity].
  unfold bind, lift, ret. destruct (Linux.norm_y_of H0 y); reflexivity.
Qed.

Lemma windows_move_dispatch d x y st :
  d !! "type" = Some (JStr "mouseMove") ->
  pixel (field0 d "normalizedX") W = Ok x ->
  pixel (field0 d "normalizedY") H0 = Ok y ->
  Windows.inject_event W H0 (JDict d) st
  = (if x <=? 5
     then match Windows.norm_y_of H0 y with
          | Ok v => Ok (true, v)
          | Raise e => Raise e
          end
     else Ok (false, JInt 0),
     add_trace st [Windows.SetCursorPos x y]).
Proof.
  intros Hty Hx Hy.
  apply pixel_inv in Hx as (px & rx & Hpx & Hrx & ->).
  apply pixel_inv in Hy as (py & ry & Hpy & Hry & ->).
  unfold field0 in *.
  unfold Windows.inject_event. unfold bind at 1. unfold lift at 1. unfold py_get at 1.
  rewrite Hty. eval_is_str. cbv beta iota.
  unfold bind, lift, ret, Windows.emit, modify, py_get.
  rewrite Hpx, Hrx, Hpy, Hry. cbv beta iota zeta.
  unfold Windows.EDGE_THRESHOLD, add_trace.
  destruct (_ <=? 5); [|reflexivity].
  destruct (Windows.norm_y_of H0 _); reflexivity.
Qed.


Lemma norm_y_linux_total r :
  exists v, Linux.norm_y_of H0 (Z.max 0 (Z.min r (H0 - 1))) = Ok v
    /\ (H0 = 0 -> v = JInt 0)
    /\ (H0 <> 0 -> exists f, int_truediv (Z.max 0 (Z.min r (H0 - 1))) H0 = Ok f /\ v = JFloat f).
Proof.
  unfold Linux.norm_y_of. destruct (H0 =? 0) eqn:E.
  - apply Z.eqb_eq in E. exists (JInt 0). split; [reflexivity|]. split; [reflexivity|lia].
  - apply Z.eqb_neq in E.
    assert (Hdiv : exists f, int_truediv (Z.max 0 (Z.min r (H0 - 1))) H0 = Ok f).
    { destruct (Z_lt_le_dec 0 H0).
      - apply int_truediv_below_one. lia.
      - replace (Z.max 0 (Z.min r (H0 - 1))) with 0 by lia.
        unfold int_truediv. apply Z.eqb_neq in E. rewrite E. simpl. eauto. }
    destruct Hdiv as [f Hf]. rewrite Hf. exists (JFloat f).
    split; [reflexivity|]. split; [lia|]. intros _. eauto.
Qed.

Lemma norm_y_same y : Windows.norm_y_of H0 y = Linux.norm_y_of H0 y.
Proof. reflexivity. Qed.




(** *** Key events the table does not map *)





(** *** [returnControl] *)


Lemma release_each_spec vks : forall st,
  Windows.release_each vks st = (Ok tt, add_trace st (map key_up vks)).
Proof.
  induction vks as [|vk vks IH]; intros st.
  - unfold add_trace. simpl. rewrite app_nil_r. destruct st; reflexivity.
  - cbn [Windows.release_each]. unfold bind at 1.
    unfold Windows._send_key_input, Windows.emit, modify.
    rewrite IH. unfold add_trace. cbn. rewrite <- app_assoc. reflexivity.
Qed.

Lemma release_all_spec st :
  Windows._release_all_keys st
  = (Ok tt, {| Windows._pressed_keys := ∅;
               Windows._connection_status := Windows._connection_status st;
               Windows.trace := Windows.trace st ++ release_actions (Windows._pressed_keys st) |}).
Proof.
  unfold Windows._release_all_keys. unfold bind at 1. unfold Windows.get_pressed.
  unfold bind at 1. rewrite release_each_spec.
  unfold release_actions, bind, when, ret, Windows._send_mouse_input, Windows.emit,
    Windows.set_pressed, modify, add_trace.
  destruct st as [p s tr]. cbn [Windows._pressed_keys Windows._connection_status Windows.trace].
  destruct (bool_decide (-1 ∈ p)), (bool_decide (-2 ∈ p)), (bool_decide (p = ∅));
    cbn; rewrite <- ?app_assoc; cbn; rewrite ?app_nil_r; reflexivity.
Qed.


End Dispatch.

Lemma release_actions_key pressed vk :
  vk ∈ pressed -> key_up vk ∈ release_actions pressed.
Proof.
  intros Hin. unfold release_actions. apply elem_of_app. left.
  apply list_elem_of_fmap. exists vk. split; [reflexivity|]. apply elem_of_elements, Hin.
Qed.



Lemma release_actions_empty : release_actions ∅ = [].
Proof. reflexivity. Qed.

(** *** Dispatches that hand nothing back *)

Lemma quiet_ret {S : Type} : quiet (S := S) (ret (false, JInt 0)).
Proof. intros st. reflexivity. Qed.

Lemma quiet_bind {S A : Type} (m : M S A) (k : A -> M S (bool * json)) :
  (forall a, quiet (k a)) -> quiet (bind m k).
Proof.
  intros Hk st. unfold bind. destruct (m st) as [[a|e] st']; [apply Hk|exact I].
Qed.

Lemma quiet_bind_lift {S A : Type} (r : res A) (k : A -> M S (bool * json)) :
  (forall a, r = Ok a -> quiet (k a)) -> quiet (bind (lift r) k).
Proof.
  intros Hk st. unfold bind, lift. destruct r as [a|e]; [apply Hk; reflexivity|exact I].
Qed.

Ltac quiet_step :=
  first
    [ apply quiet_ret
    | apply quiet_bind; intros ?
    | match goal with
      | |- quiet (if ?c then _ else _) => destruct c
      | |- quiet (match ?x with _ => _ end) => destruct x
      | |- quiet (let _ := _ in _) => cbv zeta
      end ].

Section Quiet.
Context {lib : PyLib}.
Variables (W H0 : Z) (uw : bool).

Lemma linux_quiet ev :
  event_type_is ev "mouseMove" = false -> quiet (Linux.inject_event W H0 uw ev).
Proof.
  intros Hty. unfold Linux.inject_event.
  apply quiet_bind_lift. intros t Ht.
  unfold event_type_is in Hty. rewrite Ht in Hty. rewrite Hty.
  repeat quiet_step.
Qed.

Lemma windows_quiet ev :
  event_type_is ev "mouseMove" = false -> quiet (Windows.inject_event W H0 ev).
Proof.
  intros Hty. unfold Windows.inject_event.
  apply quiet_bind_lift. intros t Ht.
  unfold event_type_is in Hty. rewrite Ht in Hty. rewrite Hty.
  repeat quiet_step.
Qed.
End Quiet.

(** *** Effects that add no frame to the socket *)

Section Keeps.
Context {S : Type} (R : S -> S -> Prop).
Hypothesis R_refl : forall s, R s s.
Hypothesis R_trans : forall a b c, R a b -> R b c -> R a c.

Lemma keeps_ret {A : Type} (a : A) : keeps R (ret a).
Proof. intros st. apply R_refl. Qed.

Lemma keeps_lift {A : Type} (r : res A) : keeps R (lift r).
Proof. intros st. apply R_refl. Qed.

Lemma keeps_bind {A B : Type} (m : M S A) (k : A -> M S B) :
  keeps R m -> (forall a, keeps R (k a)) -> keeps R (bind m k).
Proof.
  intros Hm Hk st. unfold bind. specialize (Hm st).
  destruct (m st) as [[a|e] st']; simpl in *; [|exact Hm].
  eapply R_trans; [exact Hm|apply Hk].
Qed.

Lemma keeps_modify (f : S -> S) : (forall s, R s (f s)) -> keeps R (modify f).
Proof. intros Hf st. apply Hf. Qed.

Lemma keeps_when (b : bool) (m : M S unit) : keeps R m -> keeps R (when b m).
Proof. intros Hm. destruct b; [exact Hm|apply keeps_ret]. Qed.

End Keeps.

Lemma linux_sends_app tr acts :
  linux_sends (tr ++ acts) = (linux_sends tr + linux_sends acts)%nat.
Proof. unfold linux_sends. rewrite List.filter_app, length_app. reflexivity. Qed.


Lemma keeps_linux_emit a :
  linux_is_send a = false -> keeps same_linux_sends (Linux.emit a).
Proof.
  intros Ha. apply keeps_modify. intros tr. unfold same_linux_sends.
  rewrite linux_sends_app. unfold linux_sends at 2. simpl. rewrite Ha. simpl. lia.
Qed.

Lemma keeps_windows_emit a :
  windows_is_send a = false -> keeps same_windows_sends (Windows.emit a).
Proof.
  intros Ha. apply keeps_modify. intros st. unfold same_windows_sends, windows_sends. cbn.
  rewrite List.filter_app, length_app. simpl. rewrite Ha. simpl. lia.
Qed.

Ltac keeps_step refl trans :=
  first
    [ apply (keeps_ret _ refl)
    | apply (keeps_lift _ refl)
    | apply (keeps_when _ refl)
    | apply keeps_linux_emit; reflexivity
    | apply keeps_windows_emit; reflexivity
    | apply (keeps_modify); intros ?; reflexivity
    | apply (keeps_bind _ trans); [|intros ?]
    | match goal with
      | |- keeps _ (if ?c then _ else _) => destruct c
      | |- keeps _ (match ?x with _ => _ end) => destruct x
      | |- keeps _ (let _ := _ in _) => cbv zeta
      end ].

Lemma same_linux_refl s : same_linux_sends s s.
Proof. reflexivity. Qed.
Lemma same_linux_trans a b c : same_linux_sends a b -> same_linux_sends b c -> same_linux_sends a c.
Proof. unfold same_linux_sends. congruence. Qed.
Lemma same_windows_refl s : same_windows_sends s s.
Proof. reflexivity. Qed.
Lemma same_windows_trans a b c : same_windows_sends a b -> same_windows_sends b c -> same_windows_sends a c.
Proof. unfold same_windows_sends. congruence. Qed.

Section NoSend.
Context {lib : PyLib}.
Variables (W H0 : Z) (uw : bool).

Lemma linux_dispatch_sends ev : keeps same_linux_sends (Linux.inject_event W H0 uw ev).
Proof.
  unfold Linux.inject_event, Linux._inject_mouse_move, Linux.device_write, Linux.device_syn.
  repeat keeps_step same_linux_refl same_linux_trans.
Qed.

Lemma keeps_release_each vks : keeps same_windows_sends (Windows.release_each vks).
Proof.
  induction vks as [|vk vks IH]; cbn [Windows.release_each].
  - apply (keeps_ret _ same_windows_refl).
  - apply (keeps_bind _ same_windows_trans); [|intros _; exact IH].
    apply keeps_windows_emit. reflexivity.
Qed.

Lemma windows_dispatch_sends ev : keeps same_windows_sends (Windows.inject_event W H0 ev).
Proof.
  unfold Windows.inject_event, Windows._release_all_keys, Windows._send_mouse_input,
    Windows._send_key_input, Windows.set_pressed, Windows.get_pressed.
  repeat first [ apply keeps_release_each
               | (intros st; reflexivity)
               | keeps_step same_windows_refl same_windows_trans ].
Qed.
End NoSend.

(** ** The read loop *)

Lemma read_exact_prefix r n bs rest :
  available r = bs ++ rest -> length bs = n ->
  exists r', _read_exact r n = (Got bs, r') /\ available r' = rest.
Proof.
  intros Hav Hn. unfold _read_exact.
  destruct (read_exact_loop_got n n [] r) as (r' & Hr & Ha).
  { rewrite Hav, length_app. simpl. lia. }
  { simpl. lia. }
  exists r'. simpl in Hr, Ha. rewrite Nat.sub_0_r in Hr, Ha.
  rewrite Hav in Hr, Ha. subst n.
  rewrite take_app_length in Hr. rewrite drop_app_length in Ha. auto.
Qed.


Lemma read_exact_consumes r n bs r' :
  _read_exact r n = (Got bs, r') -> (reader_bytes r' + n <= reader_bytes r)%nat.
Proof.
  intros Hrd. apply read_exact_loop_bytes in Hrd. simpl in Hrd. lia.
Qed.

Lemma frame_inv payload f :
  frame payload = Ok f ->
  exists header, f = header ++ payload /\ length header = 4%nat
                 /\ struct_unpack_I header = Z.of_nat (length payload).
Proof.
  unfold frame. intros Hf.
  destruct (struct_pack_I (Z.of_nat (length payload))) as [header|] eqn:Ep; [|discriminate].
  injection Hf as <-. exists header. split; [reflexivity|].
  unfold struct_pack_I in Ep.
  destruct ((0 <=? Z.of_nat (length payload)) && (Z.of_nat (length payload) <? 2 ^ 32)) eqn:Eb;
    [|discriminate].
  apply andb_prop in Eb as [E1 E2]. apply Z.leb_le in E1. apply Z.ltb_lt in E2.
  destruct (struct_unpack_pack (Z.of_nat (length payload)) ltac:(lia)) as (h & Hh & Hl & Hu).
  unfold struct_pack_I in Hh.
  replace ((0 <=? Z.of_nat (length payload)) && (Z.of_nat (length payload) <? 2 ^ 32)) with true in Hh
    by (symmetry; apply andb_true_intro; split; [apply Z.leb_le|apply Z.ltb_lt]; lia).
  rewrite Ep in Hh. injection Hh as <-. auto.
Qed.


(** Reading one well-formed frame off the stream. *)
Lemma read_frame r payload f rest :
  frame payload = Ok f -> available r = f ++ rest ->
  exists header r1 r2,
    _read_exact r 4 = (Got header, r1)
    /\ struct_unpack_I header = Z.of_nat (length payload)
    /\ _read_exact r1 (length payload) = (Got payload, r2)
    /\ available r2 = rest
    /\ (reader_bytes r2 < reader_bytes r)%nat.
Proof.
  intros Hf Hav. apply frame_inv in Hf as (header & -> & Hlen & Hun).
  rewrite <- app_assoc in Hav.
  destruct (read_exact_prefix r 4 header (payload ++ rest) Hav Hlen) as (r1 & Hr1 & Ha1).
  destruct (read_exact_prefix r1 (length payload) payload rest Ha1 eq_refl) as (r2 & Hr2 & Ha2).
  exists header, r1, r2.
  pose proof (read_exact_consumes _ _ _ _ Hr1). pose proof (read_exact_consumes _ _ _ _ Hr2).
  repeat split; auto. lia.
Qed.

Ltac read_frame_in c Hf Hav Hv :=
  let header := fresh "header" in
  let r1 := fresh "r1" in
  let r2 := fresh "r2" in
  let Hr1 := fresh "Hr1" in
  let Hun := fresh "Hun" in
  let Hr2 := fresh "Hr2" in
  let Ha2 := fresh "Ha2" in
  let Hlt := fresh "Hlt" in
  destruct (read_frame (rd c) _ _ _ Hf Hav) as (header & r1 & r2 & Hr1 & Hun & Hr2 & Ha2 & Hlt);
  exists r2; split; [exact Ha2|]; split; [exact Hlt|];
  rewrite Hr1; cbv zeta; rewrite Hun;
  replace ((Z.of_nat (length _) =? 0) || (1000000 <? Z.of_nat (length _))) with false
    by (symmetry; apply orb_false_intro; [apply Z.eqb_neq|apply Z.ltb_ge]; unfold valid_length in Hv; lia);
  rewrite Nat2Z.id; cbn [rd set_rd]; rewrite Hr2.

Section LinuxLoop.
Context {lib : PyLib}.
Variables (W H0 : Z) (uw : bool).



Lemma linux_loop_raise fuel c st payload f rest event e st' :
  frame payload = Ok f -> valid_length payload -> available (rd c) = f ++ rest ->
  json_loads payload = Some event ->
  Linux.inject_event W H0 uw event st = (Raise e, st') ->
  exists r2, available r2 = rest /\ (reader_bytes r2 < reader_bytes (rd c))%nat
    /\ Linux.read_loop W H0 uw (S fuel) c st = (Raised e, set_rd c r2, st').
Proof.
  intros Hf Hv Hav Hj Hi. cbn [Linux.read_loop].
  read_frame_in c Hf Hav Hv. rewrite Hj, Hi. reflexivity.
Qed.

Lemma linux_loop_plain fuel c st payload f rest event v st' :
  frame payload = Ok f -> valid_length payload -> available (rd c) = f ++ rest ->
  json_loads payload = Some event ->
  Linux.inject_event W H0 uw event st = (Ok (false, v), st') ->
  exists r2, available r2 = rest /\ (reader_bytes r2 < reader_bytes (rd c))%nat
    /\ Linux.read_loop W H0 uw (S fuel) c st = Linux.read_loop W H0 uw fuel (set_rd c r2) st'.
Proof.
  intros Hf Hv Hav Hj Hi. cbn [Linux.read_loop].
  read_frame_in c Hf Hav Hv. rewrite Hj, Hi. reflexivity.
Qed.



End LinuxLoop.

Section WindowsLoop.
Context {lib : PyLib}.
Variables (W H0 : Z).

Lemma windows_log lvl msg st : Windows.log lvl msg st = add_trace st [Windows.Log lvl msg].
Proof. reflexivity. Qed.



Lemma windows_loop_raise fuel c st payload f rest event e st' :
  frame payload = Ok f -> valid_length payload -> available (rd c) = f ++ rest ->
  json_loads payload = Some event ->
  Windows.inject_event W H0 event st = (Raise e, st') ->
  exists r2, available r2 = rest /\ (reader_bytes r2 < reader_bytes (rd c))%nat
    /\ Windows.read_loop W H0 (S fuel) c st = (Raised e, set_rd c r2, st').
Proof.
  intros Hf Hv Hav Hj Hi. cbn [Windows.read_loop].
  read_frame_in c Hf Hav Hv. rewrite Hj, Hi. reflexivity.
Qed.

Lemma windows_loop_plain fuel c st payload f rest event v st' :
  frame payload = Ok f -> valid_length payload -> available (rd c) = f ++ rest ->
  json_loads payload = Some event ->
  Windows.inject_event W H0 event st = (Ok (false, v), st') ->
  exists r2, available r2 = rest /\ (reader_bytes r2 < reader_bytes (rd c))%nat
    /\ Windows.read_loop W H0 (S fuel) c st = Windows.read_loop W H0 fuel (set_rd c r2) st'.
Proof.
  intros Hf Hv Hav Hj Hi. cbn [Windows.read_loop].
  read_frame_in c Hf Hav Hv. rewrite Hj, Hi. reflexivity.
Qed.



End WindowsLoop.

(** ** One pass of the client *)

Section Session.
Context {lib : PyLib}.
Variables (W H0 : Z) (uw : bool).

Lemma linux_session_accepted incoming writes tr exit c_f tr_f :
  Linux.read_loop W H0 uw (S (reader_bytes incoming)) (fresh_conn incoming writes) (linux_opened tr)
  = (exit, c_f, tr_f) ->
  Linux.tcp_session W H0 uw (Accepted incoming writes) tr
  = (exit, match exit with
           | Blocked | OutOfFuel => tr_f
           | _ => tr_f ++ linux_handler_log exit ++ linux_retry
           end).
Proof.
  intros Hloop. unfold Linux.tcp_session.
  replace ((tr ++ [Linux.Log INFO "Connecting to Mac at %s:%d …"; Linux.NetConnect])
           ++ [Linux.Log INFO "Connected to Mac"]) with (linux_opened tr)
    by (unfold linux_opened; rewrite <- app_assoc; reflexivity).
  fold (fresh_conn incoming writes). rewrite Hloop.
  destruct exit as [|e| |]; try reflexivity.
  unfold linux_handler_log, linux_retry. rewrite <- app_assoc. reflexivity.
Qed.

Lemma windows_session_accepted incoming writes st exit c_f st_f :
  Windows.read_loop W H0 (S (reader_bytes incoming)) (fresh_conn incoming writes) (windows_opened st)
  = (exit, c_f, st_f) ->
  Windows.tcp_session W H0 (Accepted incoming writes) st = (exit, windows_disconnected exit st_f).
Proof.
  intros Hloop. unfold Windows.tcp_session.
  replace (snd (Windows.set_status Windows.Connected
                  (Windows.log INFO "Connected to Mac"
                     (snd (Windows.emit Windows.NetConnect
                             (Windows.log INFO "Connecting to Mac at %s:%d …"
                                (snd (Windows.set_status Windows.Connecting st))))))))
    with (windows_opened st)
    by (unfold windows_opened; cbn; rewrite <- !app_assoc; reflexivity).
  fold (fresh_conn incoming writes). rewrite Hloop.
  unfold Windows.finally. rewrite release_all_spec.
  unfold windows_disconnected, windows_retry. cbn.
  f_equal. f_equal.
  assert (Hh : Windows.handle exit st_f = add_trace st_f (windows_handler_log exit)).
  { unfold Windows.handle, windows_handler_log.
    destruct exit as [|e| |]; try (unfold add_trace; rewrite app_nil_r; destruct st_f; reflexivity).
    destruct e; try reflexivity; destruct (is_oserror _); reflexivity. }
  rewrite Hh. cbn. rewrite <- !app_assoc. reflexivity.
Qed.

End Session.

(** ** Conversions and dispatch totals used by the claims *)

(** [int] of a finite float is the quotient towards zero of its signed
    mantissa by the power of two of its exponent. *)
Lemma int_of_float_quot s m e :
  int_of_float (S754_finite s m e)
  = Ok (Z.quot ((if s then -1 else 1) * Zpos m * 2 ^ Z.max e 0) (2 ^ Z.max (- e) 0)).
Proof.
  unfold int_of_float, trunc_mantissa. f_equal.
  destruct (0 <=? e) eqn:E.
  - apply Z.leb_le in E. rewrite Z.max_l, Z.max_r by lia.
    rewrite Z.shiftl_mul_pow2 by lia. change (2 ^ 0) with 1. rewrite Z.quot_1_r.
    destruct s; lia.
  - apply Z.leb_gt in E. rewrite Z.max_r, Z.max_l by lia.
    change (2 ^ 0) with 1. rewrite Z.shiftr_div_pow2 by lia.
    assert (Hp : 0 < 2 ^ (- e)) by (apply Z.pow_pos_nonneg; lia).
    destruct s.
    + replace (-1 * Zpos m * 1) with (- Zpos m) by lia.
      rewrite Z.quot_opp_l by lia. rewrite Z.quot_div_nonneg by lia. reflexivity.
    + replace (1 * Zpos m * 1) with (Zpos m) by lia.
      rewrite Z.quot_div_nonneg by lia. reflexivity.
Qed.

(** The handback value for a pixel row: [0] when the height is 0, the
    quotient [y / H] otherwise; the division never raises. *)
Lemma norm_y_of_pixel {lib : PyLib} (H0 : Z) n y :
  pixel n H0 = Ok y ->
  exists v, Linux.norm_y_of H0 y = Ok v
    /\ (H0 = 0 -> v = JInt 0)
    /\ (H0 <> 0 -> exists f, int_truediv y H0 = Ok f /\ v = JFloat f).
Proof.
  intros Hp. apply pixel_inv in Hp as (p & r & _ & _ & ->). apply norm_y_linux_total.
Qed.

(** Events that are dispatched without any conversion: the buttons,
    [returnControl], unknown types and a missing type. *)
Lemma linux_plain_total {lib : PyLib} (W H0 : Z) (uw : bool) d tr :
  event_type_is (JDict d) "mouseMove" = false ->
  event_type_is (JDict d) "keyDown" = false ->
  event_type_is (JDict d) "keyUp" = false ->
  event_type_is (JDict d) "scrollWheel" = false ->
  fst (Linux.inject_event W H0 uw (JDict d) tr) = Ok (false, JInt 0).
Proof.
  unfold event_type_is, Linux.inject_event. cbn [py_get].
  intros Hm Hd Hu Hs. unfold bind at 1. unfold lift at 1.
  rewrite Hm, Hd, Hu, Hs. cbn [orb].
  repeat match goal with
         | |- context [if is_str ?t ?s then _ else _] => destruct (is_str t s)
         end; reflexivity.
Qed.

Lemma windows_plain_total {lib : PyLib} (W H0 : Z) d st :
  event_type_is (JDict d) "mouseMove" = false ->
  event_type_is (JDict d) "keyDown" = false ->
  event_type_is (JDict d) "keyUp" = false ->
  event_type_is (JDict d) "scrollWheel" = false ->
  fst (Windows.inject_event W H0 (JDict d) st) = Ok (false, JInt 0).
Proof.
  unfold event_type_is, Windows.inject_event. cbn [py_get].
  intros Hm Hd Hu Hs. unfold bind at 1. unfold lift at 1.
  rewrite Hm, Hd, Hu, Hs. cbn [orb].
  repeat match goal with
         | |- context [if is_str ?t ?s then _ else _] => destruct (is_str t s)
         end; try reflexivity.
  unfold bind at 1. rewrite release_all_spec. reflexivity.
Qed.


(** ** Sessions of edge-hitting moves *)

Section EdgeFrames.
Context {lib : PyLib}.
Variables (W H0 : Z) (uw : bool).
Hypothesis dumps_fits : forall v, Z.of_nat (length (json_dumps v)) < 2 ^ 32.






End EdgeFrames.


(** * The claims *)











(** C5, as amended.  For a [mouseMove] event the cursor-move call gets
    [x = clamp(int(nx*W), 0, W-1)] and [y = clamp(int(ny*H), 0, H-1)],
    where [int] cuts the product towards zero; it does not round it. *)
Theorem C5_pixel_truncates {lib : PyLib} (W H0 : Z) (uw : bool)
    (d : gmap string json) (x y : Z) (tr : Linux.state) (st : Windows.state) :
  d !! "type" = Some (JStr "mouseMove") ->
  pixel (field0 d "normalizedX") W = Ok x ->
  pixel (field0 d "normalizedY") H0 = Ok y ->
  snd (Linux.inject_event W H0 uw (JDict d) tr)
  = tr ++ [Linux.MouseMove (if uw then Linux.Ydotool else Linux.Xdotool) x y]
  /\ snd (Windows.inject_event W H0 (JDict d) st) = add_trace st [Windows.SetCursorPos x y]
  /\ (forall n size r, pixel n size = Ok r ->
        exists p t, py_mul_int n size = Ok p /\ py_int p = Ok t
                    /\ r = Z.max 0 (Z.min t (size - 1)))
  /\ (forall s m e,
        py_int (JFloat (S754_finite s m e))
        = Ok (Z.quot ((if s then -1 else 1) * Zpos m * 2 ^ Z.max e 0) (2 ^ Z.max (- e) 0))).
Proof.
  intros Hty Hx Hy. split; [|split; [|split]].
  - rewrite (linux_move_dispatch W H0 uw d x y tr Hty Hx Hy). reflexivity.
  - rewrite (windows_move_dispatch W H0 d x y st Hty Hx Hy). reflexivity.
  - intros n size r. apply pixel_inv.
  - intros s m e. apply int_of_float_quot.
Qed.

(** C5 at [mouseMove{0.875, 0.5}] on a 10 by 10 screen: 8.75 is cut to 8. *)
Lemma C5_pixel_truncates_witness :
  snd (Linux.inject_event (lib := Fixture.lib) 10 10 false
         (Fixture.ev_move (JFloat Fixture.f_seven_eighths) (JFloat Fixture.f_half)) [])
  = [Linux.MouseMove Linux.Xdotool 8 5]
  /\ snd (Windows.inject_event (lib := Fixture.lib) 10 10
            (Fixture.ev_move (JFloat Fixture.f_seven_eighths) (JFloat Fixture.f_half)) Fixture.win0)
     = add_trace Fixture.win0 [Windows.SetCursorPos 8 5].
Proof.
  destruct (C5_pixel_truncates (lib := Fixture.lib) 10 10 false
              (Fixture.move_fields (JFloat Fixture.f_seven_eighths) (JFloat Fixture.f_half))
              8 5 [] Fixture.win0 ltac:(reflexivity) ltac:(reflexivity) ltac:(reflexivity)) as (Hl & Hw & _).
  split; [exact Hl|exact Hw].
Defined.

(** C5 fails as stated: where the product is 8.75 the specification's
    [clamp(round(nx*W), 0, W-1)] is 9 and both dispatchers move to 8. *)
Lemma C5_round_differs :
  Spec.pixel (JFloat Fixture.f_seven_eighths) 10 = Ok 9
  /\ snd (Linux.inject_event (lib := Fixture.lib) 10 10 false
            (Fixture.ev_move (JFloat Fixture.f_seven_eighths) (JFloat Fixture.f_half)) [])
     = [Linux.MouseMove Linux.Xdotool 8 5]
  /\ Windows.trace (snd (Windows.inject_event (lib := Fixture.lib) 10 10
            (Fixture.ev_move (JFloat Fixture.f_seven_eighths) (JFloat Fixture.f_half)) Fixture.win0))
     = [Windows.SetCursorPos 8 5].
Proof. repeat split. Qed.

(** C6.  A [mouseMove] hands back exactly when its pixel column [x] is at
    most the edge threshold 5, and then with [normalizedY = y / H], or 0
    when [H] is 0.  On a 1920 by 1080 screen [mouseMove{0.0, 0.5}] moves
    to [x = 0] and hands back with 0.5; [mouseMove{0.5, 0.5}] moves to
    [x = 960] and does not hand back. *)
Theorem C6_edge_handback :
  (forall (lib : PyLib) (W H0 : Z) (uw : bool) (d : gmap string json) (x y : Z)
          (tr : Linux.state) (st : Windows.state),
      d !! "type" = Some (JStr "mouseMove") ->
      pixel (field0 d "normalizedX") W = Ok x ->
      pixel (field0 d "normalizedY") H0 = Ok y ->
      exists v,
        Linux.inject_event W H0 uw (JDict d) tr
        = (Ok (x <=? Linux.EDGE_THRESHOLD, v),
           tr ++ [Linux.MouseMove (if uw then Linux.Ydotool else Linux.Xdotool) x y])
        /\ Windows.inject_event W H0 (JDict d) st
           = (Ok (x <=? Windows.EDGE_THRESHOLD, v), add_trace st [Windows.SetCursorPos x y])
        /\ (x <= 5 -> H0 = 0 -> v = JInt 0)
        /\ (x <= 5 -> H0 <> 0 -> exists f, int_truediv y H0 = Ok f /\ v = JFloat f)
        /\ (5 < x -> v = JInt 0))
  /\ Linux.inject_event (lib := Fixture.lib) 1920 1080 false
       (Fixture.ev_move (JFloat Fixture.f_zero) (JFloat Fixture.f_half)) []
     = (Ok (true, JFloat Fixture.f_half), [Linux.MouseMove Linux.Xdotool 0 540])
  /\ Windows.inject_event (lib := Fixture.lib) 1920 1080
       (Fixture.ev_move (JFloat Fixture.f_zero) (JFloat Fixture.f_half)) Fixture.win0
     = (Ok (true, JFloat Fixture.f_half), add_trace Fixture.win0 [Windows.SetCursorPos 0 540])
  /\ Linux.inject_event (lib := Fixture.lib) 1920 1080 false
       (Fixture.ev_move (JFloat Fixture.f_half) (JFloat Fixture.f_half)) []
     = (Ok (false, JInt 0), [Linux.MouseMove Linux.Xdotool 960 540])
  /\ Windows.inject_event (lib := Fixture.lib) 1920 1080
       (Fixture.ev_move (JFloat Fixture.f_half) (JFloat Fixture.f_half)) Fixture.win0
     = (Ok (false, JInt 0), add_trace Fixture.win0 [Windows.SetCursorPos 960 540]).
Proof.
  split; [|repeat split].
  intros lib W H0 uw d x y tr st Hty Hx Hy.
  destruct (norm_y_of_pixel H0 _ y Hy) as (v & Hv & Hz & Hnz).
  destruct (Z.leb_spec x 5) as [Hle|Hgt].
  - exists v. split; [|split; [|split; [|split]]].
    + rewrite (linux_move_dispatch W H0 uw d x y tr Hty Hx Hy).
      unfold Linux.EDGE_THRESHOLD.
      replace (x <=? 5) with true by (symmetry; apply Z.leb_le; lia). rewrite Hv. reflexivity.
    + rewrite (windows_move_dispatch W H0 d x y st Hty Hx Hy).
      unfold Windows.EDGE_THRESHOLD.
      replace (x <=? 5) with true by (symmetry; apply Z.leb_le; lia).
      rewrite norm_y_same, Hv. reflexivity.
    + intros _. exact Hz.
    + intros _. exact Hnz.
    + lia.
  - exists (JInt 0). split; [|split; [|split; [|split]]].
    + rewrite (linux_move_dispatch W H0 uw d x y tr Hty Hx Hy).
      unfold Linux.EDGE_THRESHOLD.
      replace (x <=? 5) with false by (symmetry; apply Z.leb_gt; lia). reflexivity.
    + rewrite (windows_move_dispatch W H0 d x y st Hty Hx Hy).
      unfold Windows.EDGE_THRESHOLD.
      replace (x <=? 5) with false by (symmetry; apply Z.leb_gt; lia). reflexivity.
    + lia.
    + lia.
    + reflexivity.
Qed.

(** C6 at [mouseMove{0.0, 0.5}] on a screen of height 1080: the handback
    carries [540 / 1080]. *)
Lemma C6_edge_handback_witness :
  exists v,
    Linux.inject_event (lib := Fixture.lib) 1920 1080 false
      (Fixture.ev_move (JFloat Fixture.f_zero) (JFloat Fixture.f_half)) []
    = (Ok (true, v), [Linux.MouseMove Linux.Xdotool 0 540])
    /\ exists f, int_truediv 540 1080 = Ok f /\ v = JFloat f.
Proof.
  destruct (proj1 C6_edge_handback Fixture.lib 1920 1080 false
              (Fixture.move_fields (JFloat Fixture.f_zero) (JFloat Fixture.f_half))
              0 540 [] Fixture.win0 ltac:(reflexivity) ltac:(reflexivity) ltac:(reflexivity))
    as (v & Hl & _ & _ & Hf & _).
  exists v. split; [exact Hl|]. apply Hf; lia.
Defined.








(** C10, as amended.  [inject_event] returns [shouldReturn = True] only
    for an event whose type is [mouseMove].  For every other event it
    either returns [(False, 0)] or raises, and it returns [(False, 0)]
    whenever the event is a button event, a [returnControl], or has an
    unknown or no type: so only a [mouseMove] can make the read loop send
    a [returnControl] frame. *)
Theorem C10_handback_only_from_mouse_move {lib : PyLib} (W H0 : Z) (uw : bool)
    (event : json) (tr : Linux.state) (st : Windows.state) :
  (forall v tr', Linux.inject_event W H0 uw event tr = (Ok (true, v), tr') ->
                 event_type_is event "mouseMove" = true)
  /\ (forall v st', Windows.inject_event W H0 event st = (Ok (true, v), st') ->
                    event_type_is event "mouseMove" = true)
  /\ (event_type_is event "mouseMove" = false ->
        (fst (Linux.inject_event W H0 uw event tr) = Ok (false, JInt 0)
         \/ exists e, fst (Linux.inject_event W H0 uw event tr) = Raise e)
        /\ (fst (Windows.inject_event W H0 event st) = Ok (false, JInt 0)
            \/ exists e, fst (Windows.inject_event W H0 event st) = Raise e))
  /\ (forall d, event = JDict d ->
        event_type_is event "mouseMove" = false ->
        event_type_is event "keyDown" = false ->
        event_type_is event "keyUp" = false ->
        event_type_is event "scrollWheel" = false ->
        fst (Linux.inject_event W H0 uw event tr) = Ok (false, JInt 0)
        /\ fst (Windows.inject_event W H0 event st) = Ok (false, JInt 0)).
Proof.
  split; [|split; [|split]].
  - intros v tr' Hret. destruct (event_type_is event "mouseMove") eqn:E; [reflexivity|].
    pose proof (linux_quiet W H0 uw event E tr) as Hq. rewrite Hret in Hq. discriminate.
  - intros v st' Hret. destruct (event_type_is event "mouseMove") eqn:E; [reflexivity|].
    pose proof (windows_quiet W H0 event E st) as Hq. rewrite Hret in Hq. discriminate.
  - intros E. split.
    + pose proof (linux_quiet W H0 uw event E tr) as Hq.
      destruct (fst (Linux.inject_event W H0 uw event tr)) as [r|e]; [left; congruence|right; eauto].
    + pose proof (windows_quiet W H0 event E st) as Hq.
      destruct (fst (Windows.inject_event W H0 event st)) as [r|e]; [left; congruence|right; eauto].
  - intros d -> Hm Hd Hu Hs. split.
    + apply linux_plain_total; assumption.
    + apply windows_plain_total; assumption.
Qed.

(** C10 at a [leftMouseDown] event. *)
Lemma C10_handback_witness :
  fst (Linux.inject_event (lib := Fixture.lib) 1920 1080 false (Fixture.ev_plain "leftMouseDown") [])
  = Ok (false, JInt 0)
  /\ fst (Windows.inject_event (lib := Fixture.lib) 1920 1080 (Fixture.ev_plain "leftMouseDown") Fixture.win0)
     = Ok (false, JInt 0).
Proof.
  destruct (C10_handback_only_from_mouse_move (lib := Fixture.lib) 1920 1080 false
              (Fixture.ev_plain "leftMouseDown") [] Fixture.win0) as (_ & _ & _ & Ht).
  apply (Ht _ eq_refl); reflexivity.
Defined.

(** C10 fails where it says that every other event returns: a
    [scrollWheel] event whose delta is the float infinity (as
    [json.loads] reads [1e999]) makes both dispatchers raise. *)
Lemma C10_scroll_infinity_raises :
  fst (Linux.inject_event (lib := Fixture.lib) 1920 1080 false
         (Fixture.ev_scroll (JInt 0) (JFloat Fixture.f_inf)) [])
  = Raise OverflowError
  /\ fst (Windows.inject_event (lib := Fixture.lib) 1920 1080
            (Fixture.ev_scroll (JInt 0) (JFloat Fixture.f_inf)) Fixture.win0)
     = Raise OverflowError.
Proof. split; reflexivity. Qed.

(** * Further properties of the code *)

(** ** Reading exactly [n] bytes *)

(** What a successful [read_exact_loop] returns: [data] followed by the next
    bytes of the stream, [n] bytes in all. *)
Lemma read_exact_loop_inv fuel : forall n data r bs r',
  (length data <= n)%nat ->
  read_exact_loop fuel n data r = (Got bs, r') ->
  exists got, bs = data ++ got /\ length bs = n /\ available r = got ++ available r'.
Proof.
  induction fuel as [|fuel IH]; intros n data r bs r' Hle Hrd.
  - simpl in Hrd. destruct (n <=? length data)%nat eqn:E; [|discriminate].
    apply Nat.leb_le in E. inversion Hrd; subst. exists []. rewrite app_nil_r.
    repeat split; lia.
  - destruct (Nat.le_gt_cases n (length data)) as [Hge|Hgt].
    { rewrite read_exact_loop_enough in Hrd by lia. inversion Hrd; subst.
      exists []. rewrite app_nil_r. repeat split; lia. }
    destruct r as [|[[|b bs0]|e|] r];
      try (cbn [read_exact_loop reader_read] in Hrd;
           replace (n <=? length data)%nat with false in Hrd
             by (symmetry; apply Nat.leb_gt; lia);
           discriminate).
    rewrite read_exact_loop_step in Hrd by (lia || discriminate).
    rewrite available_data.
    remember (b :: bs0) as c eqn:Hc.
    destruct (length c <=? n - length data)%nat eqn:Ek.
    + apply Nat.leb_le in Ek.
      apply IH in Hrd as (got & -> & Hlen & Hav); [|rewrite length_app; lia].
      exists (c ++ got). rewrite <- !app_assoc in *. rewrite Hav. auto.
    + apply Nat.leb_gt in Ek.
      rewrite read_exact_loop_enough in Hrd by (rewrite length_app, length_take; lia).
      inversion Hrd; subst bs r'.
      exists (take (n - length data) c). split; [reflexivity|].
      split; [rewrite length_app, length_take; lia|].
      destruct (drop (n - length data) c) as [|x xs] eqn:Ed.
      { apply (f_equal length) in Ed. rewrite length_drop in Ed. simpl in Ed. lia. }
      rewrite available_data, <- Ed, app_assoc, take_drop. reflexivity.
Qed.

(** X1. [_read_exact(reader, n)] returns [bs] and leaves [rest] readable exactly
    when [bs] is [n] bytes long and the stream holds [bs] followed by [rest]
    before it ends, fails or stalls: the call returns the next [n] bytes
    however they are cut into chunks, and takes nothing behind them. *)
Theorem X1_read_exact_returns_next_bytes (r : reader) (n : nat) (bs rest : list byte) :
  (exists r', _read_exact r n = (Got bs, r') /\ available r' = rest)
  <-> (length bs = n /\ available r = bs ++ rest).
Proof.
  split.
  - intros (r' & Hrd & <-). unfold _read_exact in Hrd.
    apply read_exact_loop_inv in Hrd as (got & -> & Hlen & Hav); [|simpl; lia].
    auto.
  - intros [Hlen Hav]. apply read_exact_prefix; assumption.
Qed.

(** The loop over a stream that holds fewer bytes than asked for: every
    chunk is taken whole. *)
Lemma read_exact_loop_chunks chunks : forall fuel n data tail,
  Forall (fun c : list byte => c <> []) chunks ->
  (length data + length (concat chunks) < n)%nat ->
  (n - length data <= fuel)%nat ->
  read_exact_loop fuel n data (map Data chunks ++ tail)
  = read_exact_loop (fuel - length chunks) n (data ++ concat chunks) tail
    /\ (length chunks < fuel)%nat.
Proof.
  induction chunks as [|c chunks IH]; intros fuel n data tail Hne Hlt Hfuel.
  - simpl in *. rewrite app_nil_r, Nat.sub_0_r. split; [reflexivity|lia].
  - inversion Hne as [|? ? Hc Hcs]; subst. cbn [concat map app length] in *.
    rewrite length_app in Hlt.
    assert (Hcl : (0 < length c)%nat) by (destruct c; [congruence|simpl; lia]).
    destruct fuel as [|fuel]; [lia|].
    rewrite read_exact_loop_step by (lia || assumption).
    replace (length c <=? n - length data)%nat with true
      by (symmetry; apply Nat.leb_le; lia).
    destruct (IH fuel n (data ++ c) tail Hcs) as [Heq Hf].
    { rewrite length_app. lia. }
    { rewrite length_app. lia. }
    rewrite Heq, <- app_assoc. split; [reflexivity|lia].
Qed.

(** Reading more than a stream of data chunks holds: the outcome is that
    of the read that follows the last chunk. *)
Lemma read_exact_short chunks n tail :
  Forall (fun c : list byte => c <> []) chunks ->
  (length (concat chunks) < n)%nat ->
  _read_exact (map Data chunks ++ tail) n
  = match reader_read (n - length (concat chunks)) tail with
    | (Got [], r') => (Failed ConnectionError, r')
    | (Got chunk, r') => read_exact_loop (n - length chunks - 1) n (concat chunks ++ chunk) r'
    | (Failed e, r') => (Failed e, r')
    | (Stalled, r') => (Stalled, r')
    end.
Proof.
  intros Hne Hlt. unfold _read_exact.
  destruct (read_exact_loop_chunks chunks n n [] tail Hne) as [Heq Hf]; [simpl; lia..|].
  rewrite Heq. simpl app.
  destruct (n - length chunks)%nat as [|k] eqn:Ek; [lia|].
  cbn [read_exact_loop].
  replace (n <=? length (concat chunks))%nat with false by (symmetry; apply Nat.leb_gt; lia).
  replace (S k - 1)%nat with k by lia. reflexivity.
Qed.

(** X2. On a stream that delivers fewer than [n] bytes, [_read_exact] fails the
    way the stream ends: with [ConnectionError] when the peer closes, with
    the socket's exception when a read raises, and with no completion at
    all while the peer stays silent. *)
Theorem X2_read_exact_short_stream (chunks : list (list byte)) (n : nat) :
  Forall (fun c : list byte => c <> []) chunks ->
  (length (concat chunks) < n)%nat ->
  _read_exact (map Data chunks) n = (Failed ConnectionError, [])
  /\ (forall tail, _read_exact (map Data chunks ++ Data [] :: tail) n
                   = (Failed ConnectionError, tail))
  /\ (forall e tail, _read_exact (map Data chunks ++ Fault e :: tail) n = (Failed e, tail))
  /\ (forall tail, _read_exact (map Data chunks ++ Stall :: tail) n = (Stalled, Stall :: tail)).
Proof.
  intros Hne Hlt. repeat split.
  - rewrite <- (app_nil_r (map Data chunks)), read_exact_short by assumption. reflexivity.
  - intros tail. rewrite read_exact_short by assumption. reflexivity.
  - intros e tail. rewrite read_exact_short by assumption. reflexivity.
  - intros tail. rewrite read_exact_short by assumption. reflexivity.
Qed.

Lemma X2_read_exact_short_stream_witness :
  _read_exact [Data [x01]; Data [x02; x03]] 4 = (Failed ConnectionError, [])
  /\ _read_exact [Data [x01]; Data [x02; x03]; Data []; Data [x04]] 4
     = (Failed ConnectionError, [Data [x04]])
  /\ _read_exact [Data [x01]; Data [x02; x03]; Fault TimeoutError] 4 = (Failed TimeoutError, [])
  /\ _read_exact [Data [x01]; Data [x02; x03]; Stall] 4 = (Stalled, [Stall]).
Proof.
  destruct (X2_read_exact_short_stream [[x01]; [x02; x03]] 4
              ltac:(repeat constructor; discriminate) ltac:(simpl; lia)) as (A & B & C & D).
  split; [exact A|]. split; [exact (B [Data [x04]])|]. split; [exact (C TimeoutError [])|exact (D [])].
Defined.

(** ** Framing *)



(** ** Chunking of the stream *)

(** The loop over a stream of data chunks that holds enough bytes: it
    returns the next bytes and leaves the chunks behind them. *)
Lemma read_exact_loop_data chunks : forall fuel n data,
  Forall (fun c : list byte => c <> []) chunks ->
  (length data <= n)%nat ->
  (n <= length data + length (concat chunks))%nat ->
  (n - length data <= fuel)%nat ->
  exists chunks',
    Forall (fun c : list byte => c <> []) chunks'
    /\ concat chunks' = drop (n - length data) (concat chunks)
    /\ forall tail,
         read_exact_loop fuel n data (map Data chunks ++ tail)
         = (Got (data ++ take (n - length data) (concat chunks)), map Data chunks' ++ tail).
Proof.
  induction chunks as [|c chunks IH]; intros fuel n data Hne Hle Hav Hfuel.
  - simpl in Hav. exists []. split; [constructor|]. cbn [concat]. split; [rewrite drop_nil; reflexivity|].
    intros tail. rewrite read_exact_loop_enough by lia.
    rewrite take_nil, app_nil_r. reflexivity.
  - inversion Hne as [|? ? Hc Hcs]; subst. cbn [concat] in *.
    destruct (Nat.eq_dec n (length data)) as [Heq|Hneq].
    { exists (c :: chunks). split; [exact Hne|].
      replace (n - length data)%nat with O by lia. split; [reflexivity|].
      intros tail. rewrite read_exact_loop_enough by lia.
      rewrite take_0, app_nil_r. reflexivity. }
    destruct fuel as [|fuel]; [lia|].
    rewrite length_app in Hav.
    assert (Hcl : (0 < length c)%nat) by (destruct c; [congruence|simpl; lia]).
    set (k := (n - length data)%nat) in *.
    destruct (Nat.le_gt_cases (length c) k) as [Hck|Hck].
    + destruct (IH fuel n (data ++ c) Hcs) as (chunks' & Hne' & Hcat & Hrd).
      { rewrite length_app. lia. }
      { rewrite length_app. lia. }
      { rewrite length_app. lia. }
      exists chunks'. split; [exact Hne'|]. rewrite length_app in Hcat, Hrd.
      replace (n - (length data + length c))%nat with (k - length c)%nat in Hcat, Hrd by lia.
      split; [rewrite drop_app_ge by lia; exact Hcat|].
      intros tail. cbn [map app].
      rewrite read_exact_loop_step by (lia || assumption). fold k.
      replace (length c <=? k)%nat with true by (symmetry; apply Nat.leb_le; lia).
      rewrite Hrd, <- app_assoc, take_app_ge by lia. reflexivity.
    + exists (drop k c :: chunks). split.
      { constructor; [|exact Hcs]. intros Hd. apply (f_equal length) in Hd.
        rewrite length_drop in Hd. simpl in Hd. lia. }
      split; [cbn [concat]; rewrite drop_app_le by lia; reflexivity|].
      intros tail. cbn [map app].
      rewrite read_exact_loop_step by (lia || assumption). fold k.
      replace (length c <=? k)%nat with false by (symmetry; apply Nat.leb_gt; lia).
      rewrite read_exact_loop_enough by (rewrite length_app, length_take; lia).
      rewrite take_app_le by lia. reflexivity.
Qed.

(** Reading from a stream that carries [bytes] depends on the bytes only,
    not on the chunks they come in. *)
Lemma read_exact_carries r bytes n :
  carries r bytes ->
  if (n <=? length bytes)%nat
  then exists r', _read_exact r n = (Got (take n bytes), r') /\ carries r' (drop n bytes)
  else exists r', _read_exact r n = (Failed ConnectionError, r').
Proof.
  intros (chunks & Hne & <- & Hr). destruct (n <=? length (concat chunks))%nat eqn:E.
  - apply Nat.leb_le in E.
    destruct (read_exact_loop_data chunks n n [] Hne) as (chunks' & Hne' & Hcat & Hrd);
      [simpl; lia..|].
    simpl in Hcat, Hrd. rewrite Nat.sub_0_r in Hcat, Hrd.
    destruct Hr as [-> | (tail & ->)].
    + exists (map Data chunks'). split.
      * specialize (Hrd []). rewrite !app_nil_r in Hrd. exact Hrd.
      * exists chunks'. auto.
    + exists (map Data chunks' ++ Data [] :: tail). split; [apply Hrd|].
      exists chunks'. eauto.
  - apply Nat.leb_gt in E.
    destruct Hr as [-> | (tail & ->)].
    + rewrite <- (app_nil_r (map Data chunks)), read_exact_short by assumption. eauto.
    + rewrite read_exact_short by assumption. eauto.
Qed.

Section Chunking.
Context {lib : PyLib}.
Variables (W H0 : Z) (uw : bool).

Lemma linux_loop_chunking fuel : forall c c' st bytes,
  carries (rd c) bytes -> carries (rd c') bytes ->
  sent c = sent c' -> wbudget c = wbudget c' ->
  fst (fst (Linux.read_loop W H0 uw fuel c st)) = fst (fst (Linux.read_loop W H0 uw fuel c' st))
  /\ snd (Linux.read_loop W H0 uw fuel c st) = snd (Linux.read_loop W H0 uw fuel c' st).
Proof.
  induction fuel as [|fuel IH]; intros c c' st bytes Hc Hc' Hs Hw; [split; reflexivity|].
  cbn [Linux.read_loop].
  pose proof (read_exact_carries _ _ 4 Hc) as R1.
  pose proof (read_exact_carries _ _ 4 Hc') as R1'.
  destruct (4 <=? length bytes)%nat;
    [|destruct R1 as (r1 & ->), R1' as (r1' & ->); split; reflexivity].
  destruct R1 as (r1 & -> & Hc1), R1' as (r1' & -> & Hc1'). cbv zeta.
  destruct ((struct_unpack_I (take 4 bytes) =? 0) || (1000000 <? struct_unpack_I (take 4 bytes)));
    [split; reflexivity|].
  cbn [rd set_rd].
  pose proof (read_exact_carries _ _ (Z.to_nat (struct_unpack_I (take 4 bytes))) Hc1) as R2.
  pose proof (read_exact_carries _ _ (Z.to_nat (struct_unpack_I (take 4 bytes))) Hc1') as R2'.
  destruct (Z.to_nat (struct_unpack_I (take 4 bytes)) <=? length (drop 4 bytes))%nat;
    [|destruct R2 as (r2 & ->), R2' as (r2' & ->); split; reflexivity].
  destruct R2 as (r2 & -> & Hc2), R2' as (r2' & -> & Hc2').
  destruct (json_loads _) as [event|]; [|split; reflexivity].
  destruct (Linux.inject_event W H0 uw event st) as [[[b v]|e] st']; [|split; reflexivity].
  destruct b; [|eapply IH; [exact Hc2|exact Hc2'|exact Hs|exact Hw]].
  destruct (frame (json_dumps (return_event v))); [|split; reflexivity].
  unfold writer_write. cbn [wbudget set_rd sent rd]. rewrite <- Hs, <- Hw.
  destruct (wbudget c) as [k|].
  - destruct (sent c <? k)%nat; [|split; reflexivity].
    eapply IH; [exact Hc2|exact Hc2'|cbn [sent]; congruence|cbn [wbudget]; congruence].
  - eapply IH; [exact Hc2|exact Hc2'|cbn [sent]; congruence|cbn [wbudget]; congruence].
Qed.

Lemma windows_loop_chunking fuel : forall c c' st bytes,
  carries (rd c) bytes -> carries (rd c') bytes ->
  sent c = sent c' -> wbudget c = wbudget c' ->
  fst (fst (Windows.read_loop W H0 fuel c st)) = fst (fst (Windows.read_loop W H0 fuel c' st))
  /\ snd (Windows.read_loop W H0 fuel c st) = snd (Windows.read_loop W H0 fuel c' st).
Proof.
  induction fuel as [|fuel IH]; intros c c' st bytes Hc Hc' Hs Hw; [split; reflexivity|].
  cbn [Windows.read_loop].
  pose proof (read_exact_carries _ _ 4 Hc) as R1.
  pose proof (read_exact_carries _ _ 4 Hc') as R1'.
  destruct (4 <=? length bytes)%nat;
    [|destruct R1 as (r1 & ->), R1' as (r1' & ->); split; reflexivity].
  destruct R1 as (r1 & -> & Hc1), R1' as (r1' & -> & Hc1'). cbv zeta.
  destruct ((struct_unpack_I (take 4 bytes) =? 0) || (1000000 <? struct_unpack_I (take 4 bytes)));
    [split; reflexivity|].
  cbn [rd set_rd].
  pose proof (read_exact_carries _ _ (Z.to_nat (struct_unpack_I (take 4 bytes))) Hc1) as R2.
  pose proof (read_exact_carries _ _ (Z.to_nat (struct_unpack_I (take 4 bytes))) Hc1') as R2'.
  destruct (Z.to_nat (struct_unpack_I (take 4 bytes)) <=? length (drop 4 bytes))%nat;
    [|destruct R2 as (r2 & ->), R2' as (r2' & ->); split; reflexivity].
  destruct R2 as (r2 & -> & Hc2), R2' as (r2' & -> & Hc2').
  destruct (json_loads _) as [event|]; [|split; reflexivity].
  destruct (Windows.inject_event W H0 event st) as [[[b v]|e] st']; [|split; reflexivity].
  destruct b; [|eapply IH; [exact Hc2|exact Hc2'|exact Hs|exact Hw]].
  destruct (frame (json_dumps (return_event v))); [|split; reflexivity].
  unfold writer_write. cbn [wbudget set_rd sent rd]. rewrite <- Hs, <- Hw.
  destruct (wbudget c) as [k|].
  - destruct (sent c <? k)%nat; [|split; reflexivity].
    eapply IH; [exact Hc2|exact Hc2'|cbn [sent]; congruence|cbn [wbudget]; congruence].
  - eapply IH; [exact Hc2|exact Hc2'|cbn [sent]; congruence|cbn [wbudget]; congruence].
Qed.

End Chunking.

Lemma reader_bytes_data chunks : reader_bytes (map Data chunks) = length (concat chunks).
Proof.
  induction chunks as [|c cs IH]; [reflexivity|].
  cbn [map reader_bytes concat]. rewrite IH, length_app. reflexivity.
Qed.

Lemma carries_chunks chunks :
  Forall (fun c : list byte => c <> []) chunks -> carries (map Data chunks) (concat chunks).
Proof. intros Hne. exists chunks. auto. Qed.

Lemma carries_whole bytes : carries [Data bytes] bytes.
Proof.
  destruct bytes as [|b bs].
  - exists []. split; [constructor|]. split; [reflexivity|]. right. exists []. reflexivity.
  - exists [b :: bs]. split; [repeat constructor; discriminate|].
    split; [simpl; rewrite app_nil_r; reflexivity|]. left. reflexivity.
Qed.

(** X4. A session does not depend on how the peer's bytes are cut into chunks:
    on a stream of non-empty chunks that then closes, both clients end the
    same way and with the same trace as on the one chunk that holds all the
    bytes. *)
Theorem X4_session_ignores_chunking {lib : PyLib} (W H0 : Z) (uw : bool)
    (chunks : list (list byte)) (writes : option nat)
    (tr : Linux.state) (st : Windows.state) :
  Forall (fun c : list byte => c <> []) chunks ->
  Linux.tcp_session W H0 uw (Accepted (map Data chunks) writes) tr
  = Linux.tcp_session W H0 uw (Accepted [Data (concat chunks)] writes) tr
  /\ Windows.tcp_session W H0 (Accepted (map Data chunks) writes) st
     = Windows.tcp_session W H0 (Accepted [Data (concat chunks)] writes) st.
Proof.
  intros Hne.
  assert (Hb : reader_bytes (map Data chunks) = reader_bytes [Data (concat chunks)]).
  { rewrite reader_bytes_data. simpl. lia. }
  split.
  - unfold Linux.tcp_session. rewrite Hb.
    match goal with
    | |- context [Linux.read_loop W H0 uw ?f {| rd := map Data chunks; sent := ?s; wbudget := ?w |} ?t] =>
        destruct (linux_loop_chunking W H0 uw f
                    {| rd := map Data chunks; sent := s; wbudget := w |}
                    {| rd := [Data (concat chunks)]; sent := s; wbudget := w |}
                    t (concat chunks) (carries_chunks _ Hne) (carries_whole _) eq_refl eq_refl)
          as [He Hs]
    end.
    destruct (Linux.read_loop W H0 uw _ {| rd := map Data chunks |} _) as [[e1 c1] s1].
    destruct (Linux.read_loop W H0 uw _ {| rd := [Data (concat chunks)] |} _) as [[e2 c2] s2].
    simpl in He, Hs. subst. reflexivity.
  - unfold Windows.tcp_session. rewrite Hb.
    match goal with
    | |- context [Windows.read_loop W H0 ?f {| rd := map Data chunks; sent := ?s; wbudget := ?w |} ?t] =>
        destruct (windows_loop_chunking W H0 f
                    {| rd := map Data chunks; sent := s; wbudget := w |}
                    {| rd := [Data (concat chunks)]; sent := s; wbudget := w |}
                    t (concat chunks) (carries_chunks _ Hne) (carries_whole _) eq_refl eq_refl)
          as [He Hs]
    end.
    destruct (Windows.read_loop W H0 _ {| rd := map Data chunks |} _) as [[e1 c1] s1].
    destruct (Windows.read_loop W H0 _ {| rd := [Data (concat chunks)] |} _) as [[e2 c2] s2].
    simpl in He, Hs. subst. reflexivity.
Qed.

Lemma X4_session_ignores_chunking_witness :
  let f := Fixture.frame_of Fixture.txt_key_a_down in
  Linux.tcp_session (lib := Fixture.lib) 1920 1080 false
    (Accepted (map Data [take 3 f; drop 3 f]) None) []
  = Linux.tcp_session (lib := Fixture.lib) 1920 1080 false (Accepted [Data f] None) []
  /\ Windows.tcp_session (lib := Fixture.lib) 1920 1080
       (Accepted (map Data [take 3 f; drop 3 f]) None) Fixture.win0
     = Windows.tcp_session (lib := Fixture.lib) 1920 1080 (Accepted [Data f] None) Fixture.win0.
Proof.
  intros f.
  replace f with (concat [take 3 f; drop 3 f]) at 3 6
    by (cbn [concat]; rewrite app_nil_r; apply take_drop).
  apply (X4_session_ignores_chunking (lib := Fixture.lib) 1920 1080 false
           [take 3 f; drop 3 f] None [] Fixture.win0).
  repeat constructor; intros E; vm_compute in E; discriminate.
Defined.

(** ** Frames dispatched in order *)



Section Replay.
Context {lib : PyLib}.
Variables (W H0 : Z) (uw : bool).



End Replay.



(** ** What a dispatch adds to the trace *)

Lemma linux_adds_refl P st : linux_adds P st st.
Proof. exists []. rewrite app_nil_r. auto. Qed.

Lemma linux_adds_trans P a b c : linux_adds P a b -> linux_adds P b c -> linux_adds P a c.
Proof.
  intros (x & -> & Hx) (y & -> & Hy). exists (x ++ y).
  rewrite app_assoc. split; [reflexivity|]. apply Forall_app; auto.
Qed.

Lemma windows_adds_refl P st : windows_adds P st st.
Proof. exists []. rewrite app_nil_r. auto. Qed.

Lemma windows_adds_trans P a b c : windows_adds P a b -> windows_adds P b c -> windows_adds P a c.
Proof.
  intros (x & Hb & Hx) (y & Hc & Hy). exists (x ++ y).
  rewrite Hc, Hb, app_assoc. split; [reflexivity|]. apply Forall_app; auto.
Qed.

Lemma keeps_bind_lift {S A B : Type} (R : S -> S -> Prop) (r : res A) (k : A -> M S B) :
  (forall s, R s s) ->
  (forall a, r = Ok a -> keeps R (k a)) -> keeps R (bind (lift r) k).
Proof.
  intros Hrefl Hk st. unfold bind, lift. destruct r as [a|e]; [apply Hk; reflexivity|apply Hrefl].
Qed.

Lemma keeps_linux_adds_emit (P : Linux.action -> Prop) a :
  P a -> keeps (linux_adds P) (Linux.emit a).
Proof. intros Ha st. exists [a]. split; [reflexivity|]. repeat constructor. exact Ha. Qed.

Lemma keeps_windows_adds_emit (P : Windows.action -> Prop) a :
  P a -> keeps (windows_adds P) (Windows.emit a).
Proof. intros Ha st. exists [a]. split; [reflexivity|]. repeat constructor. exact Ha. Qed.

Lemma keeps_windows_adds_pressed (P : Windows.action -> Prop) f :
  keeps (windows_adds P) (Windows.set_pressed f).
Proof. intros st. exists []. cbn. rewrite app_nil_r. auto. Qed.

Lemma table_get_some {V : Type} (table : gmap Z V) k v :
  table_get table k = Ok (Some v) -> exists z, table !! z = Some v.
Proof.
  destruct k as [|b|z|f|s|l|d]; simpl; try discriminate.
  - intros [= H]. eauto.
  - intros [= H]. eauto.
  - destruct (float_integral f) as [z|]; intros [= H]; eauto.
Qed.

Ltac adds_step refl trans :=
  first
    [ apply (keeps_ret _ refl)
    | apply (keeps_lift _ refl)
    | apply (keeps_when _ refl)
    | apply (keeps_bind_lift _ _ _ refl); intros ? ?
    | apply (keeps_bind _ trans); [|intros ?]
    | match goal with
      | |- keeps _ (if ?c then _ else _) => destruct c
      | |- keeps _ (match ?x with _ => _ end) => destruct x
      | |- keeps _ (let _ := _ in _) => cbv zeta
      end ].

Section DispatchAdds.
Context {lib : PyLib}.
Variables (W H0 : Z) (uw : bool).

(** Every action of the Linux dispatcher is of one of these kinds. *)
Lemma linux_dispatch_adds (P : Linux.action -> Prop) :
  (forall lvl msg, P (Linux.Log lvl msg)) ->
  P Linux.DevSyn ->
  (forall x y, P (Linux.MouseMove (if uw then Linux.Ydotool else Linux.Xdotool)
                    (Z.max 0 (Z.min x (W - 1))) (Z.max 0 (Z.min y (H0 - 1))))) ->
  (forall v, v = 0 \/ v = 1 -> P (Linux.DevWrite Linux.EV_KEY Linux.BTN_LEFT v)) ->
  (forall v, v = 0 \/ v = 1 -> P (Linux.DevWrite Linux.EV_KEY Linux.BTN_RIGHT v)) ->
  (forall k code v, Linux.MAC_TO_LINUX_KEYCODE !! k = Some code -> v = 0 \/ v = 1 ->
                    P (Linux.DevWrite Linux.EV_KEY code v)) ->
  (forall v, P (Linux.DevWrite Linux.EV_REL Linux.REL_WHEEL v)) ->
  (forall v, P (Linux.DevWrite Linux.EV_REL Linux.REL_HWHEEL v)) ->
  forall ev, keeps (linux_adds P) (Linux.inject_event W H0 uw ev).
Proof.
  intros Hlog Hsyn Hmove Hl Hr Hkey Hw Hh ev.
  unfold Linux.inject_event, Linux._inject_mouse_move, Linux.device_write, Linux.device_syn.
  repeat first
    [ apply keeps_linux_adds_emit;
      first [ apply Hlog | exact Hsyn | apply Hmove | apply Hl; auto | apply Hr; auto
            | apply Hw | apply Hh ]
    | adds_step (linux_adds_refl P) (linux_adds_trans P) ].
  all: match goal with
       | Ht : table_get _ _ = Ok (Some _) |- _ => apply table_get_some in Ht as [? ?]
       end.
  all: apply keeps_linux_adds_emit; eapply Hkey; [eassumption|].
  all: match goal with |- context [if ?b then _ else _] => destruct b end; auto.
Qed.

Lemma keeps_adds_release_each (P : Windows.action -> Prop) vks :
  (forall vk down, P (Windows.SendKeyInput (vk mod 2 ^ 16) (Windows.key_flags vk down))) ->
  keeps (windows_adds P) (Windows.release_each vks).
Proof.
  intros Hkey. induction vks as [|vk vks IH]; cbn [Windows.release_each].
  - apply (keeps_ret _ (windows_adds_refl P)).
  - apply (keeps_bind _ (windows_adds_trans P)); [|intros _; exact IH].
    apply keeps_windows_adds_emit, Hkey.
Qed.

(** Every action of the Windows dispatcher is of one of these kinds. *)
Lemma windows_dispatch_adds (P : Windows.action -> Prop) :
  (forall lvl msg, P (Windows.Log lvl msg)) ->
  (forall x y, P (Windows.SetCursorPos (Z.max 0 (Z.min x (W - 1))) (Z.max 0 (Z.min y (H0 - 1))))) ->
  (forall data flags, P (Windows.SendMouseInput 0 0 (Z.land data 0xFFFFFFFF) flags)) ->
  (forall vk down, P (Windows.SendKeyInput (vk mod 2 ^ 16) (Windows.key_flags vk down))) ->
  forall ev, keeps (windows_adds P) (Windows.inject_event W H0 ev).
Proof.
  intros Hlog Hpos Hmouse Hkey ev.
  unfold Windows.inject_event, Windows._release_all_keys, Windows._send_mouse_input,
    Windows._send_key_input, Windows.get_pressed.
  repeat first
    [ apply keeps_windows_adds_emit; first [ apply Hlog | apply Hpos | apply Hmouse | apply Hkey ]
    | apply keeps_windows_adds_pressed
    | apply keeps_adds_release_each; exact Hkey
    | adds_step (windows_adds_refl P) (windows_adds_trans P)
    | (intros st; apply windows_adds_refl) ].
Qed.

End DispatchAdds.

(** ** Device writes and [syn] *)

Lemma flushed_no_write acts :
  Forall (fun a => linux_is_write a = false) acts -> flushed acts.
Proof.
  intros Hall. left. induction Hall as [|a acts Ha _ IH]; [reflexivity|].
  simpl. rewrite Ha, IH. reflexivity.
Qed.

Section Flush.
Context {lib : PyLib}.
Variables (W H0 : Z) (uw : bool).

Lemma linux_move_adds ev :
  keeps (linux_adds (fun a => linux_is_write a = false))
    (do '(x, y) <- Linux._inject_mouse_move W H0 uw ev;
     if x <=? Linux.EDGE_THRESHOLD then
       do norm_y <- lift (Linux.norm_y_of H0 y);
       ret (true, norm_y)
     else ret (false, JInt 0)).
Proof.
  unfold Linux._inject_mouse_move.
  repeat first
    [ apply keeps_linux_adds_emit; reflexivity
    | adds_step (linux_adds_refl (fun a => linux_is_write a = false))
                (linux_adds_trans (fun a => linux_is_write a = false)) ].
Qed.

End Flush.

(** X6. A Linux dispatch that returns leaves no device write pending: it wrote
    nothing to the device, or its last action is [device.syn()]. *)
Theorem X6_linux_dispatch_flushes {lib : PyLib} (W H0 : Z) (uw : bool)
    (ev : json) (st : Linux.state) (r : bool * json) (st' : Linux.state) :
  Linux.inject_event W H0 uw ev st = (Ok r, st') ->
  exists acts, st' = st ++ acts /\ flushed acts.
Proof.
  intros Hret. unfold Linux.inject_event in Hret.
  unfold bind at 1 in Hret. unfold lift at 1 in Hret.
  destruct (py_get ev "type" JNull) as [t|] eqn:Ht; [|discriminate].
  destruct (is_str t "mouseMove").
  { pose proof (linux_move_adds W H0 uw ev st) as (acts & Hs & Hall). rewrite Hret in Hs.
    exists acts. split; [exact Hs|]. apply flushed_no_write, Hall. }
  assert (Hbtn : forall c v,
    (run Linux.device_write Linux.EV_KEY c v; run Linux.device_syn; ret (false, JInt 0)) st
    = (Ok r, st') ->
    exists acts, st' = st ++ acts /\ flushed acts).
  { intros c v [= <- <-]. exists [Linux.DevWrite Linux.EV_KEY c v; Linux.DevSyn].
    split; [rewrite <- app_assoc; reflexivity|]. right. reflexivity. }
  destruct (is_str t "leftMouseDown"); [eapply Hbtn; exact Hret|].
  destruct (is_str t "leftMouseUp"); [eapply Hbtn; exact Hret|].
  destruct (is_str t "rightMouseDown"); [eapply Hbtn; exact Hret|].
  destruct (is_str t "rightMouseUp"); [eapply Hbtn; exact Hret|].
  destruct (is_str t "keyDown" || is_str t "keyUp").
  { unfold bind at 1 in Hret. unfold lift at 1 in Hret.
    destruct (py_get ev "keyCode" JNull) as [mac_code|]; [|discriminate].
    assert (Hkey :
      (do linux_code <- lift (table_get Linux.MAC_TO_LINUX_KEYCODE mac_code);
       match linux_code with
       | None =>
           run Linux.emit (Linux.Log WARNING "Unknown Mac keycode %d — add it to the mapping table");
           ret (false, JInt 0)
       | Some code =>
           let value := if is_str t "keyDown" then 1 else 0 in
           run Linux.device_write Linux.EV_KEY code value; run Linux.device_syn; ret (false, JInt 0)
       end) st = (Ok r, st') ->
      exists acts, st' = st ++ acts /\ flushed acts).
    { unfold bind at 1. unfold lift at 1.
      destruct (table_get Linux.MAC_TO_LINUX_KEYCODE mac_code) as [[code|]|]; [| |discriminate].
      - apply Hbtn.
      - intros [= <- <-]. exists [Linux.Log WARNING "Unknown Mac keycode %d — add it to the mapping table"].
        split; [reflexivity|]. left. reflexivity. }
    destruct mac_code; try (apply Hkey; exact Hret).
    injection Hret as <- <-. exists []. rewrite app_nil_r. split; [reflexivity|left; reflexivity]. }
  destruct (is_str t "scrollWheel").
  { unfold bind at 1 in Hret. unfold lift at 1 in Hret.
    destruct (py_get ev "scrollDeltaX" (JInt 0)) as [dx|]; [|discriminate].
    unfold bind at 1 in Hret. unfold lift at 1 in Hret.
    destruct (py_get ev "scrollDeltaY" (JInt 0)) as [dy|]; [|discriminate].
    unfold bind, lift, ret, when, Linux.device_write, Linux.device_syn, Linux.emit, modify in Hret.
    destruct (py_truthy dy), (py_truthy dx); cbn [orb] in Hret;
      repeat match type of Hret with
             | context [py_int ?v] => destruct (py_int v)
             end;
      try discriminate; injection Hret as <- <-; rewrite <- ?app_assoc; cbn [app];
      try (eexists; split; [reflexivity|right; reflexivity]).
    exists []. rewrite app_nil_r. split; [reflexivity|left; reflexivity]. }
  destruct (is_str t "returnControl").
  { injection Hret as <- <-. eexists. split; [reflexivity|left; reflexivity]. }
  injection Hret as <- <-. exists []. rewrite app_nil_r. split; [reflexivity|left; reflexivity].
Qed.

Lemma X6_linux_dispatch_flushes_witness :
  exists acts,
    Linux.inject_event (lib := Fixture.lib) 1920 1080 false
      (Fixture.ev_scroll (JInt 1) (JInt 2)) []
    = (Ok (false, JInt 0), [] ++ acts)
    /\ flushed acts /\ length acts = 3%nat.
Proof.
  destruct (X6_linux_dispatch_flushes (lib := Fixture.lib) 1920 1080 false
              (Fixture.ev_scroll (JInt 1) (JInt 2)) [] (false, JInt 0)
              [Linux.DevWrite Linux.EV_REL Linux.REL_WHEEL 2;
               Linux.DevWrite Linux.EV_REL Linux.REL_HWHEEL 1; Linux.DevSyn]
              ltac:(vm_compute; reflexivity)) as (acts & Hs & Hf).
  exists acts. split; [|split; [exact Hf|]].
  - rewrite <- Hs. vm_compute. reflexivity.
  - simpl in Hs. subst acts. reflexivity.
Defined.

(** ** The two key tables *)

Lemma tables_same_domain :
  dom Linux.MAC_TO_LINUX_KEYCODE = dom Windows.MAC_TO_WIN_KEYCODE.
Proof. apply (bool_decide_unpack _). vm_compute. reflexivity. Qed.

Lemma tables_same_keys (k : Z) :
  is_Some (Linux.MAC_TO_LINUX_KEYCODE !! k) <-> is_Some (Windows.MAC_TO_WIN_KEYCODE !! k).
Proof. rewrite <- !elem_of_dom, tables_same_domain. reflexivity. Qed.

Lemma win_table_range :
  map_Forall (fun _ vk => 1 <= vk <= 254) Windows.MAC_TO_WIN_KEYCODE.
Proof. apply (bool_decide_unpack _). vm_compute. reflexivity. Qed.

Lemma tables_same_size :
  size Linux.MAC_TO_LINUX_KEYCODE = 100%nat /\ size Windows.MAC_TO_WIN_KEYCODE = 100%nat.
Proof. split; vm_compute; reflexivity. Qed.

Section Keys.
Context {lib : PyLib}.
Variables (W H0 : Z) (uw : bool).

(** A key event the table maps, on Windows: the set is updated, then the
    key input is sent. *)
Lemma windows_key_mapped d k vk st :
  d !! "type" = Some (JStr "keyDown") \/ d !! "type" = Some (JStr "keyUp") ->
  d !! "keyCode" = Some k -> k <> JNull ->
  table_get Windows.MAC_TO_WIN_KEYCODE k = Ok (Some vk) ->
  Windows.inject_event W H0 (JDict d) st
  = (Ok (false, JInt 0),
     let down := event_type_is (JDict d) "keyDown" in
     {| Windows._pressed_keys :=
          if down then {[ vk ]} ∪ Windows._pressed_keys st
          else Windows._pressed_keys st ∖ {[ vk ]};
        Windows._connection_status := Windows._connection_status st;
        Windows.trace := Windows.trace st
          ++ [Windows.SendKeyInput (vk mod 2 ^ 16) (Windows.key_flags vk down)] |}).
Proof.
  intros Hty Hk Hnull Htab. unfold event_type_is. cbn [py_get].
  unfold Windows.inject_event.
  unfold bind at 1. unfold lift at 1. unfold py_get at 1.
  destruct Hty as [Hty | Hty]; rewrite Hty; eval_is_str; cbv beta iota zeta delta [orb];
    unfold bind, lift, py_get; rewrite Hk;
    destruct k; try congruence; rewrite Htab; reflexivity.
Qed.

Lemma linux_key_mapped d k code st :
  d !! "type" = Some (JStr "keyDown") \/ d !! "type" = Some (JStr "keyUp") ->
  d !! "keyCode" = Some k -> k <> JNull ->
  table_get Linux.MAC_TO_LINUX_KEYCODE k = Ok (Some code) ->
  Linux.inject_event W H0 uw (JDict d) st
  = (Ok (false, JInt 0),
     st ++ [Linux.DevWrite Linux.EV_KEY code
              (if event_type_is (JDict d) "keyDown" then 1 else 0);
            Linux.DevSyn]).
Proof.
  intros Hty Hk Hnull Htab. unfold event_type_is. cbn [py_get].
  unfold Linux.inject_event.
  unfold bind at 1. unfold lift at 1. unfold py_get at 1.
  destruct Hty as [Hty | Hty]; rewrite Hty; eval_is_str; cbv beta iota zeta delta [orb];
    unfold bind, lift, py_get; rewrite Hk;
    destruct k; try congruence; rewrite Htab; cbn; rewrite <- app_assoc; reflexivity.
Qed.

End Keys.

(** X7. The two key tables map the same Mac key codes: a key code, of any JSON
    value, that one table maps the other maps too, and a lookup that finds
    nothing in one finds nothing in the other. Every Windows virtual-key
    code of the table lies in 1..254. *)
Theorem X7_clients_map_same_keys :
  dom Linux.MAC_TO_LINUX_KEYCODE = dom Windows.MAC_TO_WIN_KEYCODE
  /\ (forall k : json,
        (exists code, table_get Linux.MAC_TO_LINUX_KEYCODE k = Ok (Some code))
        <-> (exists vk, table_get Windows.MAC_TO_WIN_KEYCODE k = Ok (Some vk)))
  /\ (forall k : json,
        table_get Linux.MAC_TO_LINUX_KEYCODE k = Ok None
        <-> table_get Windows.MAC_TO_WIN_KEYCODE k = Ok None)
  /\ (forall k vk, Windows.MAC_TO_WIN_KEYCODE !! k = Some vk -> 1 <= vk <= 254).
Proof.
  assert (Hz : forall z : Z,
            (exists code, Linux.MAC_TO_LINUX_KEYCODE !! z = Some code)
            <-> (exists vk, Windows.MAC_TO_WIN_KEYCODE !! z = Some vk)).
  { intros z. apply tables_same_keys. }
  assert (Hn : forall z : Z,
            Linux.MAC_TO_LINUX_KEYCODE !! z = None <-> Windows.MAC_TO_WIN_KEYCODE !! z = None).
  { intros z. rewrite !eq_None_not_Some. rewrite tables_same_keys. reflexivity. }
  split; [exact tables_same_domain|]. split; [|split].
  - intros k. destruct k as [|b|z|f|s|l|d]; cbn [table_get];
      try (split; intros [x Hx]; discriminate).
    + destruct (Hz (Z.b2z b)) as [A B].
      split; intros [x [= Hx]]; [destruct A as [y Hy]|destruct B as [y Hy]]; eauto;
        rewrite Hy; eauto.
    + destruct (Hz z) as [A B].
      split; intros [x [= Hx]]; [destruct A as [y Hy]|destruct B as [y Hy]]; eauto;
        rewrite Hy; eauto.
    + destruct (float_integral f) as [z|]; [|split; intros [x Hx]; discriminate].
      destruct (Hz z) as [A B].
      split; intros [x [= Hx]]; [destruct A as [y Hy]|destruct B as [y Hy]]; eauto;
        rewrite Hy; eauto.
  - intros k. destruct k as [|b|z|f|s|l|d]; cbn [table_get];
      try (split; intros; (reflexivity || discriminate)).
    + destruct (Hn (Z.b2z b)) as [A B]. split; intros [= Hx]; f_equal; auto.
    + destruct (Hn z) as [A B]. split; intros [= Hx]; f_equal; auto.
    + destruct (float_integral f) as [z|]; [|split; reflexivity].
      destruct (Hn z) as [A B]. split; intros [= Hx]; f_equal; auto.
  - intros k vk Hk. exact (win_table_range k vk Hk).
Qed.

(** ** A key pressed and released *)

Lemma win_table_word k vk :
  Windows.MAC_TO_WIN_KEYCODE !! k = Some vk -> 1 <= vk <= 254 /\ vk mod 2 ^ 16 = vk.
Proof.
  intros Hk. pose proof (win_table_range k vk Hk) as Hr. simpl in Hr.
  split; [exact Hr|]. apply Z.mod_small. lia.
Qed.

Lemma key_flags_up vk :
  Windows.key_flags vk false = Z.lor (Windows.key_flags vk true) Windows.KEYEVENTF_KEYUP.
Proof. unfold Windows.key_flags. cbn [negb]. destruct (bool_decide _); reflexivity. Qed.

Lemma gset_press_release (p : gset Z) (vk : Z) :
  vk ∈ {[ vk ]} ∪ p
  /\ ({[ vk ]} ∪ p) ∖ {[ vk ]} = p ∖ {[ vk ]}
  /\ (vk ∉ p -> ({[ vk ]} ∪ p) ∖ {[ vk ]} = p).
Proof.
  split; [apply elem_of_union_l, elem_of_singleton; reflexivity|].
  split.
  - apply set_eq. intros x. rewrite !elem_of_difference, elem_of_union. tauto.
  - intros Hn. apply set_eq. intros x.
    rewrite elem_of_difference, elem_of_union, elem_of_singleton.
    split; [tauto|]. intros Hx. split; [auto|]. intros ->. auto.
Qed.

(** X8. A [keyDown] followed by the [keyUp] of the same mapped key. On Windows
    the code is in [_pressed_keys] in between and out of it afterwards
    (the set is as before when the key was not held), and the key-down then
    the key-up input are sent, with the same flags but for
    [KEYEVENTF_KEYUP]. On Linux the key's code is written with 1, then with
    0, each write followed by [syn]. *)
Theorem X8_key_press_release_round_trip {lib : PyLib} (W H0 : Z) (uw : bool)
    (d_down d_up : gmap string json) (k : Z) (code : Linux.ecode) (vk : Z)
    (tr : Linux.state) (st : Windows.state) :
  d_down !! "type" = Some (JStr "keyDown") -> d_down !! "keyCode" = Some (JInt k) ->
  d_up !! "type" = Some (JStr "keyUp") -> d_up !! "keyCode" = Some (JInt k) ->
  Linux.MAC_TO_LINUX_KEYCODE !! k = Some code ->
  Windows.MAC_TO_WIN_KEYCODE !! k = Some vk ->
  (exists st1 st2,
      Windows.inject_event W H0 (JDict d_down) st = (Ok (false, JInt 0), st1)
      /\ Windows.inject_event W H0 (JDict d_up) st1 = (Ok (false, JInt 0), st2)
      /\ vk ∈ Windows._pressed_keys st1
      /\ Windows._pressed_keys st2 = Windows._pressed_keys st ∖ {[ vk ]}
      /\ (vk ∉ Windows._pressed_keys st -> Windows._pressed_keys st2 = Windows._pressed_keys st)
      /\ Windows.trace st2
         = Windows.trace st
           ++ [Windows.SendKeyInput vk (Windows.key_flags vk true);
               Windows.SendKeyInput vk (Z.lor (Windows.key_flags vk true) Windows.KEYEVENTF_KEYUP)])
  /\ (exists tr1,
        Linux.inject_event W H0 uw (JDict d_down) tr = (Ok (false, JInt 0), tr1)
        /\ Linux.inject_event W H0 uw (JDict d_up) tr1
           = (Ok (false, JInt 0),
              tr ++ [Linux.DevWrite Linux.EV_KEY code 1; Linux.DevSyn;
                     Linux.DevWrite Linux.EV_KEY code 0; Linux.DevSyn])).
Proof.
  intros Htd Hkd Htu Hku Hl Hw. split.
  - destruct (win_table_word k vk Hw) as [_ Hmod].
    eexists _, _.
    split; [apply (windows_key_mapped W H0 d_down (JInt k) vk st (or_introl Htd) Hkd);
            [discriminate|simpl; rewrite Hw; reflexivity]|].
    split; [apply (windows_key_mapped W H0 d_up (JInt k) vk _ (or_intror Htu) Hku);
            [discriminate|simpl; rewrite Hw; reflexivity]|].
    unfold event_type_is. cbn [py_get]. rewrite Htd, Htu. eval_is_str. cbv zeta.
    cbn [Windows._pressed_keys Windows.trace Windows._connection_status].
    destruct (gset_press_release (Windows._pressed_keys st) vk) as (P1 & P2 & P3).
    split; [exact P1|]. split; [exact P2|]. split; [exact P3|].
    rewrite Hmod, key_flags_up, <- app_assoc. reflexivity.
  - eexists. split; [apply (linux_key_mapped W H0 uw d_down (JInt k) code tr (or_introl Htd) Hkd);
                     [discriminate|simpl; rewrite Hl; reflexivity]|].
    rewrite (linux_key_mapped W H0 uw d_up (JInt k) code _ (or_intror Htu) Hku ltac:(discriminate)
               ltac:(simpl; rewrite Hl; reflexivity)).
    unfold event_type_is. cbn [py_get]. rewrite Htd, Htu. eval_is_str.
    rewrite <- app_assoc. reflexivity.
Qed.

Lemma X8_key_press_release_round_trip_witness :
  exists st1 st2,
    Windows.inject_event (lib := Fixture.lib) 1920 1080 (Fixture.ev_key "keyDown" (JInt 123))
      Fixture.win0 = (Ok (false, JInt 0), st1)
    /\ Windows.inject_event (lib := Fixture.lib) 1920 1080 (Fixture.ev_key "keyUp" (JInt 123)) st1
       = (Ok (false, JInt 0), st2)
    /\ Windows._pressed_keys st2 = ∅
    /\ Windows.trace st2 = [Windows.SendKeyInput 37 1; Windows.SendKeyInput 37 3].
Proof.
  destruct (X8_key_press_release_round_trip (lib := Fixture.lib) 1920 1080 false
              (Fixture.key_fields "keyDown" (JInt 123)) (Fixture.key_fields "keyUp" (JInt 123))
              123 Linux.KEY_LEFT 37 [] Fixture.win0
              ltac:(reflexivity) ltac:(reflexivity) ltac:(reflexivity) ltac:(reflexivity)
              ltac:(reflexivity) ltac:(reflexivity))
    as [(st1 & st2 & H1 & H2 & _ & _ & Hp & Ht) _].
  exists st1, st2. split; [exact H1|]. split; [exact H2|].
  split; [apply Hp; apply not_elem_of_empty|exact Ht].
Defined.

(** ** The codes [_pressed_keys] holds *)

Lemma pressed_known_refl st : pressed_known st st.
Proof. intros vk Hvk. auto. Qed.

Lemma pressed_known_trans a b c : pressed_known a b -> pressed_known b c -> pressed_known a c.
Proof.
  intros Hab Hbc vk Hvk. destruct (Hbc vk Hvk) as [Hb|Hk]; [|auto]. apply Hab, Hb.
Qed.

Lemma keeps_known_emit a : keeps pressed_known (Windows.emit a).
Proof. intros st vk Hvk. left. exact Hvk. Qed.

Lemma keeps_known_add vk : windows_known_code vk ->
  keeps pressed_known (Windows.set_pressed (fun p => {[ vk ]} ∪ p)).
Proof.
  intros Hk st x Hx. cbn in Hx. apply elem_of_union in Hx as [Hx|Hx]; [|auto].
  apply elem_of_singleton in Hx as ->. auto.
Qed.

Lemma keeps_known_discard vk :
  keeps pressed_known (Windows.set_pressed (fun p => p ∖ {[ vk ]})).
Proof. intros st x Hx. cbn in Hx. apply elem_of_difference in Hx as [Hx _]. auto. Qed.

Lemma keeps_known_clear : keeps pressed_known (Windows.set_pressed (fun _ => ∅)).
Proof. intros st x Hx. cbn in Hx. apply not_elem_of_empty in Hx. contradiction. Qed.

Lemma keeps_known_release_each vks : keeps pressed_known (Windows.release_each vks).
Proof.
  induction vks as [|vk vks IH]; cbn [Windows.release_each].
  - apply (keeps_ret _ pressed_known_refl).
  - apply (keeps_bind _ pressed_known_trans); [|intros _; exact IH]. apply keeps_known_emit.
Qed.

Lemma windows_dispatch_known {lib : PyLib} (W H0 : Z) ev :
  keeps pressed_known (Windows.inject_event W H0 ev).
Proof.
  unfold Windows.inject_event, Windows._release_all_keys, Windows._send_mouse_input,
    Windows._send_key_input, Windows.get_pressed.
  repeat first
    [ match goal with
      | |- keeps _ (Windows.emit _) => apply keeps_known_emit
      | |- keeps _ (Windows.release_each _) => apply keeps_known_release_each
      | |- keeps _ (Windows.set_pressed (fun p => p ∖ _)) => apply keeps_known_discard
      | |- keeps _ (Windows.set_pressed (fun _ => ∅)) => apply keeps_known_clear
      | |- keeps _ (Windows.set_pressed (fun p => {[ -1 ]} ∪ p)) =>
          apply keeps_known_add; left; reflexivity
      | |- keeps _ (Windows.set_pressed (fun p => {[ -2 ]} ∪ p)) =>
          apply keeps_known_add; right; left; reflexivity
      | |- keeps _ (fun st => (Ok _, st)) => intros st; apply pressed_known_refl
      end
    | adds_step pressed_known_refl pressed_known_trans ].
  all: match goal with
       | Ht : table_get _ _ = Ok (Some _) |- _ => apply table_get_some in Ht as [? ?]
       end.
  all: apply keeps_known_add; right; right; eauto.
Qed.

(** X9. [_pressed_keys] only ever holds the mouse slots -1 and -2 and
    virtual-key codes of the table: if that is so before a dispatch it is
    so after it, whatever the event and whether the dispatch returns or
    raises. Such codes lie between -2 and 254. *)
Theorem X9_pressed_keys_stay_known {lib : PyLib} (W H0 : Z) (event : json) (st : Windows.state) :
  (forall vk, vk ∈ Windows._pressed_keys st -> windows_known_code vk) ->
  forall vk, vk ∈ Windows._pressed_keys (snd (Windows.inject_event W H0 event st)) ->
             windows_known_code vk /\ -2 <= vk <= 254.
Proof.
  intros Hst vk Hvk.
  assert (Hk : windows_known_code vk).
  { destruct (windows_dispatch_known W H0 event st vk Hvk) as [Hin|Hk]; auto. }
  split; [exact Hk|].
  destruct Hk as [-> | [-> | (k & Hk)]]; try lia.
  apply win_table_word in Hk. lia.
Qed.

Lemma X9_pressed_keys_stay_known_witness :
  windows_known_code 65 /\ -2 <= 65 <= 254.
Proof.
  apply (X9_pressed_keys_stay_known (lib := Fixture.lib) 1920 1080
           (Fixture.ev_key "keyDown" (JInt 0)) Fixture.win0).
  - intros vk Hvk. apply not_elem_of_empty in Hvk. destruct Hvk.
  - apply (bool_decide_unpack _). vm_compute. reflexivity.
Defined.

(** ** Releasing the mouse slots *)

Lemma windows_button_down {lib : PyLib} (W H0 : Z) d st :
  d !! "type" = Some (JStr "leftMouseDown") \/ d !! "type" = Some (JStr "rightMouseDown") ->
  let left := event_type_is (JDict d) "leftMouseDown" in
  Windows.inject_event W H0 (JDict d) st
  = (Ok (false, JInt 0),
     {| Windows._pressed_keys := {[ if left then -1 else -2 ]} ∪ Windows._pressed_keys st;
        Windows._connection_status := Windows._connection_status st;
        Windows.trace := Windows.trace st
          ++ [Windows.SendMouseInput 0 0 0
                (if left then Windows.MOUSEEVENTF_LEFTDOWN else Windows.MOUSEEVENTF_RIGHTDOWN)] |}).
Proof.
  intros Hty. unfold event_type_is. cbn [py_get]. unfold Windows.inject_event.
  unfold bind at 1. unfold lift at 1. unfold py_get at 1.
  destruct Hty as [Hty | Hty]; rewrite Hty; eval_is_str; reflexivity.
Qed.

(** X10. After a left or right button-down, [_release_all_keys] passes the
    button's slot (-1 or -2) to [_send_key_input] like a key: it sends a
    key-up for the virtual-key code 65535 or 65534, the slot as a WORD, a
    code that no key of the table maps to. *)
Theorem X10_release_sends_key_up_for_mouse_slot {lib : PyLib} (W H0 : Z)
    (d : gmap string json) (st : Windows.state) :
  d !! "type" = Some (JStr "leftMouseDown") \/ d !! "type" = Some (JStr "rightMouseDown") ->
  let slot := if event_type_is (JDict d) "leftMouseDown" then -1 else -2 in
  exists st1 acts,
    Windows.inject_event W H0 (JDict d) st = (Ok (false, JInt 0), st1)
    /\ slot ∈ Windows._pressed_keys st1
    /\ Windows.trace (snd (Windows._release_all_keys st1)) = Windows.trace st1 ++ acts
    /\ Windows.SendKeyInput (2 ^ 16 + slot) Windows.KEYEVENTF_KEYUP ∈ acts
    /\ (forall k, Windows.MAC_TO_WIN_KEYCODE !! k <> Some (2 ^ 16 + slot)).
Proof.
  intros Hty slot. eexists _, _.
  split; [apply (windows_button_down W H0 d st Hty)|].
  fold slot. cbn [Windows._pressed_keys].
  split; [apply elem_of_union_l, elem_of_singleton; reflexivity|].
  rewrite release_all_spec. cbn [snd Windows.trace Windows._pressed_keys].
  split; [reflexivity|]. split.
  - assert (Hk : key_up slot = Windows.SendKeyInput (2 ^ 16 + slot) Windows.KEYEVENTF_KEYUP).
    { unfold slot. destruct (event_type_is _ _); vm_compute; reflexivity. }
    rewrite <- Hk. apply release_actions_key, elem_of_union_l, elem_of_singleton. reflexivity.
  - intros k Hk. apply win_table_word in Hk as [Hr _].
    unfold slot in Hr. destruct (event_type_is _ _); simpl in Hr; lia.
Qed.

Lemma X10_release_sends_key_up_for_mouse_slot_witness :
  exists st1 acts,
    Windows.inject_event (lib := Fixture.lib) 1920 1080 (Fixture.ev_plain "leftMouseDown")
      Fixture.win0 = (Ok (false, JInt 0), st1)
    /\ Windows.trace (snd (Windows._release_all_keys st1)) = Windows.trace st1 ++ acts
    /\ Windows.SendKeyInput 65535 2 ∈ acts.
Proof.
  destruct (X10_release_sends_key_up_for_mouse_slot (lib := Fixture.lib) 1920 1080
              (Fixture.plain_fields "leftMouseDown") Fixture.win0 (or_introl eq_refl))
    as (st1 & acts & H1 & _ & H2 & H3 & _).
  exists st1, acts. split; [exact H1|]. split; [exact H2|exact H3].
Defined.

(** ** The wheel delta as a DWORD *)

Lemma land_dword data : Z.land data 0xFFFFFFFF = data mod 2 ^ 32.
Proof. change 0xFFFFFFFF with (Z.ones 32). apply Z.land_ones. lia. Qed.

(** X11. A Windows scroll with integer deltas, both non-zero, sends the vertical
    wheel input and then the horizontal one, each delta times
    [WHEEL_DELTA] reduced modulo 2^32 (the DWORD of [data & 0xFFFFFFFF]);
    read back as a signed 32-bit number the vertical value is the product
    whenever the product fits. *)
Theorem X11_windows_scroll_wraps {lib : PyLib} (W H0 : Z)
    (d : gmap string json) (dx dy : Z) (st : Windows.state) :
  d !! "type" = Some (JStr "scrollWheel") ->
  d !! "scrollDeltaY" = Some (JInt dy) -> dy <> 0 ->
  d !! "scrollDeltaX" = Some (JInt dx) -> dx <> 0 ->
  let vert := (dy * Windows.WHEEL_DELTA) mod 2 ^ 32 in
  let horiz := (dx * Windows.WHEEL_DELTA) mod 2 ^ 32 in
  Windows.inject_event W H0 (JDict d) st
  = (Ok (false, JInt 0),
     add_trace st [Windows.SendMouseInput 0 0 vert Windows.MOUSEEVENTF_WHEEL;
                   Windows.SendMouseInput 0 0 horiz Windows.MOUSEEVENTF_HWHEEL])
  /\ 0 <= vert < 2 ^ 32
  /\ (- 2 ^ 31 <= dy * Windows.WHEEL_DELTA < 2 ^ 31 -> signed32 vert = dy * Windows.WHEEL_DELTA).
Proof.
  intros Hty Hdy Hny Hdx Hnx vert horiz. split; [|split].
  - unfold Windows.inject_event.
    unfold bind at 1. unfold lift at 1. unfold py_get at 1.
    rewrite Hty. eval_is_str. cbv beta iota delta [orb].
    unfold bind, lift, ret, py_get, Windows._send_mouse_input, Windows.emit, modify.
    rewrite Hdx, Hdy. cbn [py_truthy py_mul_int py_int].
    replace (dy =? 0) with false by (symmetry; apply Z.eqb_neq; exact Hny).
    replace (dx =? 0) with false by (symmetry; apply Z.eqb_neq; exact Hnx).
    cbn [negb]. rewrite !land_dword. unfold add_trace. cbn.
    rewrite <- app_assoc. reflexivity.
  - apply Z.mod_pos_bound. lia.
  - intros Hr. unfold signed32, vert.
    set (v := dy * Windows.WHEEL_DELTA) in *.
    change (2 ^ 31) with 2147483648 in *. change (2 ^ 32) with 4294967296 in *.
    destruct (Z_lt_le_dec v 0) as [Hneg|Hpos].
    + replace (v mod 4294967296) with (v + 4294967296)
        by (apply Z.mod_unique with (q := -1); lia).
      destruct (Z.ltb_spec (v + 4294967296) 2147483648); lia.
    + rewrite Z.mod_small by lia. destruct (Z.ltb_spec v 2147483648); lia.
Qed.

Lemma X11_windows_scroll_wraps_witness :
  Windows.inject_event (lib := Fixture.lib) 1920 1080 (Fixture.ev_scroll (JInt 2) (JInt (-1)))
    Fixture.win0
  = (Ok (false, JInt 0),
     add_trace Fixture.win0
       [Windows.SendMouseInput 0 0 4294967176 Windows.MOUSEEVENTF_WHEEL;
        Windows.SendMouseInput 0 0 240 Windows.MOUSEEVENTF_HWHEEL])
  /\ signed32 4294967176 = -120.
Proof.
  destruct (X11_windows_scroll_wraps (lib := Fixture.lib) 1920 1080
              (Fixture.scroll_fields (JInt 2) (JInt (-1))) 2 (-1) Fixture.win0
              ltac:(reflexivity) ltac:(reflexivity) ltac:(lia) ltac:(reflexivity) ltac:(lia))
    as (A & _ & C).
  split; [exact A|]. apply C. unfold Windows.WHEEL_DELTA. lia.
Defined.

(** ** Edge cases of the dispatchers *)

(** X12. Every code the Linux dispatcher writes to the uinput device is one the
    device was created with: for [EV_KEY] a key of the table or one of the
    three buttons, for [EV_REL] one of the declared axes. This holds for
    every event, whether the dispatch returns or raises. *)
Theorem X12_linux_writes_within_capabilities {lib : PyLib} (W H0 : Z) (uw : bool)
    (event : json) (st : Linux.state) :
  exists acts,
    snd (Linux.inject_event W H0 uw event st) = st ++ acts
    /\ Forall declared_write acts.
Proof.
  assert (Hbtn : forall c, c ∈ [Linux.BTN_LEFT; Linux.BTN_RIGHT; Linux.BTN_MIDDLE] ->
                           c ∈ LinuxDevice.key_caps).
  { intros c Hc. unfold LinuxDevice.key_caps. apply elem_of_app. right. exact Hc. }
  apply (linux_dispatch_adds W H0 uw declared_write); simpl; auto.
  - intros _ _. apply Hbtn. repeat constructor.
  - intros _ _. apply Hbtn. repeat constructor.
  - intros k code _ Hk _. unfold LinuxDevice.key_caps. apply elem_of_app. left.
    apply list_elem_of_fmap. exists (k, code). split; [reflexivity|].
    apply elem_of_map_to_list, Hk.
  - intros _. repeat constructor.
  - intros _. repeat constructor.
Qed.

(** X13. On a screen of at least one pixel each way, every pointer position a
    dispatch sets (through xdotool or ydotool on Linux, through
    [SetCursorPos] on Windows) lies on the screen: 0 <= x < SCREEN_WIDTH
    and 0 <= y < SCREEN_HEIGHT. *)
Theorem X13_pointer_stays_on_screen {lib : PyLib} (W H0 : Z) (uw : bool)
    (event : json) (tr : Linux.state) (st : Windows.state) :
  1 <= W -> 1 <= H0 ->
  (exists acts, snd (Linux.inject_event W H0 uw event tr) = tr ++ acts
                /\ Forall (linux_on_screen W H0) acts)
  /\ (exists acts, Windows.trace (snd (Windows.inject_event W H0 event st))
                   = Windows.trace st ++ acts
                   /\ Forall (windows_on_screen W H0) acts).
Proof.
  intros HW HH. split.
  - apply (linux_dispatch_adds W H0 uw (linux_on_screen W H0)); simpl; auto.
    intros x y. lia.
  - apply (windows_dispatch_adds W H0 (windows_on_screen W H0)); simpl; auto.
    intros x y. lia.
Qed.

Lemma X13_pointer_stays_on_screen_witness :
  (exists acts,
      snd (Linux.inject_event (lib := Fixture.lib) 1920 1080 false
             (Fixture.ev_move (JFloat Fixture.f_half) (JFloat Fixture.f_half)) [])
      = [] ++ acts
      /\ Forall (linux_on_screen 1920 1080) acts)
  /\ (exists acts,
        Windows.trace (snd (Windows.inject_event (lib := Fixture.lib) 1920 1080
                              (Fixture.ev_move (JFloat Fixture.f_half) (JFloat Fixture.f_half))
                              Fixture.win0))
        = Windows.trace Fixture.win0 ++ acts
        /\ Forall (windows_on_screen 1920 1080) acts).
Proof.
  apply (X13_pointer_stays_on_screen (lib := Fixture.lib) 1920 1080 false
           (Fixture.ev_move (JFloat Fixture.f_half) (JFloat Fixture.f_half)) [] Fixture.win0);
    lia.
Defined.

(** X14. An event whose type is none of the nine the dispatchers know is ignored
    by both: they return (False, 0) and do nothing, not even log. *)
Theorem X14_unknown_event_type_ignored {lib : PyLib} (W H0 : Z) (uw : bool)
    (d : gmap string json) (tr : Linux.state) (st : Windows.state) :
  (forall s, s ∈ known_types -> event_type_is (JDict d) s = false) ->
  Linux.inject_event W H0 uw (JDict d) tr = (Ok (false, JInt 0), tr)
  /\ Windows.inject_event W H0 (JDict d) st = (Ok (false, JInt 0), st).
Proof.
  intros Hun.
  assert (Ht : forall s, s ∈ known_types ->
                 is_str (match d !! "type" with Some v => v | None => JNull end) s = false).
  { intros s Hs. apply Hun in Hs. exact Hs. }
  unfold known_types in Ht.
  split.
  - unfold Linux.inject_event. unfold bind at 1. unfold lift at 1. unfold py_get at 1.
    rewrite !Ht by (repeat constructor). reflexivity.
  - unfold Windows.inject_event. unfold bind at 1. unfold lift at 1. unfold py_get at 1.
    rewrite !Ht by (repeat constructor). reflexivity.
Qed.

Lemma X14_unknown_event_type_ignored_witness :
  Linux.inject_event (lib := Fixture.lib) 1920 1080 false (Fixture.ev_plain "otherMouseDown") []
  = (Ok (false, JInt 0), [])
  /\ Windows.inject_event (lib := Fixture.lib) 1920 1080 (Fixture.ev_plain "otherMouseDown")
       Fixture.win0
     = (Ok (false, JInt 0), Fixture.win0).
Proof.
  apply (X14_unknown_event_type_ignored (lib := Fixture.lib) 1920 1080 false
           (Fixture.plain_fields "otherMouseDown") [] Fixture.win0).
  intros s Hs. unfold known_types in Hs.
  repeat (apply elem_of_cons in Hs as [-> | Hs]; [vm_compute; reflexivity|]).
  apply elem_of_nil in Hs. destruct Hs.
Defined.

(** X15. A frame whose payload is JSON but no object (a number, a list, a
    string) makes [event.get] raise [AttributeError] in both dispatchers;
    as the first frame of a connection it ends the session in the
    [except Exception] handler, and the client goes on to reconnect. *)
Theorem X15_non_object_event_ends_session {lib : PyLib} (W H0 : Z) (uw : bool)
    (incoming : reader) (writes : option nat) (payload f rest : list byte) (event : json)
    (tr : Linux.state) (st : Windows.state) :
  frame payload = Ok f -> valid_length payload ->
  available incoming = f ++ rest ->
  json_loads payload = Some event ->
  (forall d, event <> JDict d) ->
  Linux.inject_event W H0 uw event (linux_opened tr) = (Raise AttributeError, linux_opened tr)
  /\ Windows.inject_event W H0 event (windows_opened st) = (Raise AttributeError, windows_opened st)
  /\ Linux.tcp_session W H0 uw (Accepted incoming writes) tr
     = (Raised AttributeError,
        linux_opened tr ++ [Linux.Log ERROR "Unexpected error: %s"] ++ linux_retry)
  /\ Windows.tcp_session W H0 (Accepted incoming writes) st
     = (Raised AttributeError, windows_disconnected (Raised AttributeError) (windows_opened st)).
Proof.
  intros Hf Hv Hav Hj Hnd.
  assert (Hl : forall tr0, Linux.inject_event W H0 uw event tr0 = (Raise AttributeError, tr0)).
  { intros tr0. destruct event; try reflexivity. exfalso. eapply Hnd. reflexivity. }
  assert (Hw : forall st0, Windows.inject_event W H0 event st0 = (Raise AttributeError, st0)).
  { intros st0. destruct event; try reflexivity. exfalso. eapply Hnd. reflexivity. }
  split; [apply Hl|]. split; [apply Hw|].
  destruct (linux_loop_raise W H0 uw (reader_bytes incoming) (fresh_conn incoming writes)
              (linux_opened tr) payload f rest event _ _ Hf Hv Hav Hj (Hl _)) as (r2 & _ & _ & Hll).
  destruct (windows_loop_raise W H0 (reader_bytes incoming) (fresh_conn incoming writes)
              (windows_opened st) payload f rest event _ _ Hf Hv Hav Hj (Hw _)) as (r2' & _ & _ & Hlw).
  split.
  - rewrite (linux_session_accepted W H0 uw _ _ _ _ _ _ Hll). reflexivity.
  - rewrite (windows_session_accepted W H0 _ _ _ _ _ _ Hlw). reflexivity.
Qed.

Lemma X15_non_object_event_ends_session_witness :
  Linux.inject_event (lib := Desk.lib) 1920 1080 false (JInt 7) (linux_opened [])
  = (Raise AttributeError, linux_opened [])
  /\ Windows.inject_event (lib := Desk.lib) 1920 1080 (JInt 7) (windows_opened Fixture.win0)
     = (Raise AttributeError, windows_opened Fixture.win0)
  /\ Linux.tcp_session (lib := Desk.lib) 1920 1080 false
       (Accepted [Data (Fixture.frame_of "7")] None) []
     = (Raised AttributeError,
        linux_opened [] ++ [Linux.Log ERROR "Unexpected error: %s"] ++ linux_retry)
  /\ Windows.tcp_session (lib := Desk.lib) 1920 1080
       (Accepted [Data (Fixture.frame_of "7")] None) Fixture.win0
     = (Raised AttributeError,
        windows_disconnected (Raised AttributeError) (windows_opened Fixture.win0)).
Proof.
  apply (X15_non_object_event_ends_session (lib := Desk.lib) 1920 1080 false
           [Data (Fixture.frame_of "7")] None (Fixture.wire "7") (Fixture.frame_of "7") []
           (JInt 7) [] Fixture.win0).
  - reflexivity.
  - unfold valid_length. simpl. lia.
  - vm_compute. reflexivity.
  - reflexivity.
  - intros d. discriminate.
Defined.

(** X16. A [mouseMove] without coordinates is a move to the corner: both
    dispatchers take the missing [normalizedX] and [normalizedY] as 0,
    move the pointer to (0, 0) and hand control back with the normalized
    height 0 / SCREEN_HEIGHT (the integer 0 when the height is 0). *)
Theorem X16_bare_mouse_move_hands_back {lib : PyLib} (W H0 : Z) (uw : bool)
    (d : gmap string json) (tr : Linux.state) (st : Windows.state) :
  d !! "type" = Some (JStr "mouseMove") ->
  d !! "normalizedX" = None -> d !! "normalizedY" = None ->
  let norm_y := if H0 =? 0 then JInt 0 else JFloat (S754_zero (H0 <? 0)) in
  Linux.inject_event W H0 uw (JDict d) tr
  = (Ok (true, norm_y),
     tr ++ [Linux.MouseMove (if uw then Linux.Ydotool else Linux.Xdotool) 0 0])
  /\ Windows.inject_event W H0 (JDict d) st
     = (Ok (true, norm_y), add_trace st [Windows.SetCursorPos 0 0]).
Proof.
  intros Hty Hx Hy norm_y.
  assert (Hp : forall size, pixel (JInt 0) size = Ok 0).
  { intros size. unfold pixel. cbn [py_mul_int py_int]. f_equal. lia. }
  assert (Hpx : pixel (field0 d "normalizedX") W = Ok 0) by (unfold field0; rewrite Hx; apply Hp).
  assert (Hpy : pixel (field0 d "normalizedY") H0 = Ok 0) by (unfold field0; rewrite Hy; apply Hp).
  assert (Hn : Linux.norm_y_of H0 0 = Ok norm_y).
  { unfold Linux.norm_y_of, norm_y, int_truediv. destruct (H0 =? 0); reflexivity. }
  split.
  - rewrite (linux_move_dispatch W H0 uw d 0 0 tr Hty Hpx Hpy), Hn. reflexivity.
  - rewrite (windows_move_dispatch W H0 d 0 0 st Hty Hpx Hpy), norm_y_same, Hn. reflexivity.
Qed.

Lemma X16_bare_mouse_move_hands_back_witness :
  Linux.inject_event (lib := Fixture.lib) 1920 1080 false (Fixture.ev_plain "mouseMove") []
  = (Ok (true, JFloat (S754_zero false)), [Linux.MouseMove Linux.Xdotool 0 0])
  /\ Windows.inject_event (lib := Fixture.lib) 1920 1080 (Fixture.ev_plain "mouseMove")
       Fixture.win0
     = (Ok (true, JFloat (S754_zero false)),
        add_trace Fixture.win0 [Windows.SetCursorPos 0 0]).
Proof.
  apply (X16_bare_mouse_move_hands_back (lib := Fixture.lib) 1920 1080 false
           (Fixture.plain_fields "mouseMove") [] Fixture.win0); reflexivity.
Defined.

Lemma trunc_below_one m e :
  e < 0 -> Zpos m < 2 ^ (- e) -> trunc_mantissa m e = 0.
Proof.
  intros He Hm. unfold trunc_mantissa.
  replace (0 <=? e) with false by (symmetry; apply Z.leb_gt; lia).
  rewrite Z.shiftr_div_pow2 by lia. apply Z.div_small. lia.
Qed.

(** X17. On Linux a vertical scroll by a fraction (a float delta that is not
    zero and below one in magnitude) still writes to the device, and the
    value written is [int(dy)] = 0: a [REL_WHEEL] event of 0, then
    [syn]. *)
Theorem X17_linux_small_scroll_writes_zero {lib : PyLib} (W H0 : Z) (uw : bool)
    (d : gmap string json) (s : bool) (m : positive) (e : Z) (tr : Linux.state) :
  d !! "type" = Some (JStr "scrollWheel") ->
  d !! "scrollDeltaY" = Some (JFloat (S754_finite s m e)) ->
  e < 0 -> Zpos m < 2 ^ (- e) ->
  d !! "scrollDeltaX" = None \/ d !! "scrollDeltaX" = Some (JInt 0) ->
  Linux.inject_event W H0 uw (JDict d) tr
  = (Ok (false, JInt 0),
     tr ++ [Linux.DevWrite Linux.EV_REL Linux.REL_WHEEL 0; Linux.DevSyn]).
Proof.
  intros Hty Hdy He Hm Hdx. unfold Linux.inject_event.
  unfold bind at 1. unfold lift at 1. unfold py_get at 1.
  rewrite Hty. eval_is_str. cbv beta iota delta [orb].
  unfold bind, lift, ret, when, py_get, Linux.device_write, Linux.device_syn, Linux.emit, modify.
  rewrite Hdy. cbn [py_truthy py_int int_of_float].
  rewrite (trunc_below_one m e He Hm).
  destruct Hdx as [-> | ->]; cbn; destruct s; rewrite <- app_assoc; reflexivity.
Qed.

Lemma X17_linux_small_scroll_writes_zero_witness :
  Linux.inject_event (lib := Fixture.lib) 1920 1080 false
    (Fixture.ev_scroll (JInt 0) (JFloat Fixture.f_half)) []
  = (Ok (false, JInt 0), [Linux.DevWrite Linux.EV_REL Linux.REL_WHEEL 0; Linux.DevSyn]).
Proof.
  apply (X17_linux_small_scroll_writes_zero (lib := Fixture.lib) 1920 1080 false
           (Fixture.scroll_fields (JInt 0) (JFloat Fixture.f_half))
           false 4503599627370496 (-53) []).
  - reflexivity.
  - reflexivity.
  - lia.
  - simpl. lia.
  - right. reflexivity.
Defined.

(** ** Connecting, closing and sleeping *)

Lemma filter_none {A : Type} (p : A -> bool) (l : list A) :
  Forall (fun a => p a = false) l -> List.filter p l = [].
Proof. induction 1 as [|a l Ha _ IH]; [reflexivity|]. simpl. rewrite Ha. exact IH. Qed.

Lemma linux_adds_links st st' :
  linux_adds (fun a => linux_is_link a = false) st st' -> linux_links st' = linux_links st.
Proof.
  intros (acts & -> & Hall). unfold linux_links.
  rewrite List.filter_app, (filter_none _ _ Hall), app_nil_r. reflexivity.
Qed.

Lemma windows_adds_links st st' :
  windows_adds (fun a => windows_is_link a = false) st st' -> windows_links st' = windows_links st.
Proof.
  intros (acts & Ht & Hall). unfold windows_links.
  rewrite Ht, List.filter_app, (filter_none _ _ Hall), app_nil_r. reflexivity.
Qed.

Lemma windows_links_add st acts :
  windows_links (add_trace st acts) = windows_links st ++ List.filter windows_is_link acts.
Proof. unfold windows_links, add_trace. cbn. apply List.filter_app. Qed.

Lemma linux_links_app tr acts :
  linux_links (tr ++ acts) = linux_links tr ++ List.filter linux_is_link acts.
Proof. apply List.filter_app. Qed.

Section Links.
Context {lib : PyLib}.
Variables (W H0 : Z) (uw : bool).

Lemma linux_dispatch_links ev st :
  linux_links (snd (Linux.inject_event W H0 uw ev st)) = linux_links st.
Proof.
  apply linux_adds_links.
  apply (linux_dispatch_adds W H0 uw (fun a => linux_is_link a = false)); reflexivity.
Qed.

Lemma windows_dispatch_links ev st :
  windows_links (snd (Windows.inject_event W H0 ev st)) = windows_links st.
Proof.
  apply windows_adds_links.
  apply (windows_dispatch_adds W H0 (fun a => windows_is_link a = false)); reflexivity.
Qed.

Lemma linux_loop_links fuel : forall c st,
  linux_links (snd (Linux.read_loop W H0 uw fuel c st)) = linux_links st.
Proof.
  induction fuel as [|fuel IH]; intros c st; [reflexivity|].
  cbn [Linux.read_loop].
  destruct (_read_exact (rd c) 4) as [[header| |] r1]; try reflexivity. cbv zeta.
  destruct ((struct_unpack_I header =? 0) || (1000000 <? struct_unpack_I header)).
  { cbn [snd]. rewrite linux_links_app. simpl. apply app_nil_r. }
  destruct (_read_exact _ _) as [[payload| |] r2]; try reflexivity.
  destruct (json_loads payload) as [event|]; [|reflexivity].
  pose proof (linux_dispatch_links event st) as Hd.
  destruct (Linux.inject_event W H0 uw event st) as [[[b v]|e] st']; cbn [snd] in *; [|exact Hd].
  destruct b; [|rewrite IH; exact Hd]. cbv zeta.
  assert (Hlog : linux_links (st' ++ [Linux.Log INFO "Left edge hit — sending returnControl to Mac"])
                 = linux_links st).
  { rewrite linux_links_app. simpl. rewrite app_nil_r. exact Hd. }
  destruct (frame _); cbn [snd]; [|exact Hlog].
  destruct (writer_write _) as [[u| |] c']; cbn [snd]; try exact Hlog.
  rewrite IH, linux_links_app. simpl. rewrite app_nil_r. exact Hlog.
Qed.

Lemma windows_loop_links fuel : forall c st,
  windows_links (snd (Windows.read_loop W H0 fuel c st)) = windows_links st.
Proof.
  induction fuel as [|fuel IH]; intros c st; [reflexivity|].
  cbn [Windows.read_loop].
  destruct (_read_exact (rd c) 4) as [[header| |] r1]; try reflexivity. cbv zeta.
  destruct ((struct_unpack_I header =? 0) || (1000000 <? struct_unpack_I header)).
  { cbn [snd]. rewrite windows_log, windows_links_add. simpl. apply app_nil_r. }
  destruct (_read_exact _ _) as [[payload| |] r2]; try reflexivity.
  destruct (json_loads payload) as [event|]; [|reflexivity].
  pose proof (windows_dispatch_links event st) as Hd.
  destruct (Windows.inject_event W H0 event st) as [[[b v]|e] st']; cbn [snd] in *; [|exact Hd].
  destruct b; [|rewrite IH; exact Hd]. cbv zeta.
  assert (Hlog : windows_links (Windows.log INFO "Left edge hit — sending returnControl" st')
                 = windows_links st).
  { rewrite windows_log, windows_links_add. simpl. rewrite app_nil_r. exact Hd. }
  destruct (frame _) as [bytes|]; cbn [snd]; [|exact Hlog].
  destruct (writer_write _) as [[u| |] c']; cbn [snd]; try exact Hlog.
  rewrite IH.
  change (snd (Windows.emit (Windows.NetSend bytes) (Windows.log INFO "Left edge hit — sending returnControl" st')))
    with (add_trace (Windows.log INFO "Left edge hit — sending returnControl" st') [Windows.NetSend bytes]).
  rewrite windows_links_add. simpl. rewrite app_nil_r. exact Hlog.
Qed.

End Links.

Section ClientLinks.
Context {lib : PyLib}.
Variables (W H0 : Z) (uw : bool).

Lemma release_no_links pressed :
  List.filter windows_is_link (release_actions pressed) = [].
Proof.
  unfold release_actions. rewrite !List.filter_app.
  assert (Hk : forall l, List.filter windows_is_link (map key_up l) = []).
  { induction l; simpl; auto. }
  rewrite Hk. destruct (bool_decide _), (bool_decide _), (bool_decide _); reflexivity.
Qed.

Lemma handler_no_links exit :
  List.filter windows_is_link (windows_handler_log exit) = [].
Proof. destruct exit as [|e| |]; try reflexivity. destruct e; simpl; try reflexivity. Qed.

Lemma windows_handle_log exit s :
  Windows.handle exit s = add_trace s (windows_handler_log exit).
Proof.
  unfold Windows.handle, windows_handler_log.
  destruct exit as [|e| |]; try (unfold add_trace; rewrite app_nil_r; destruct s; reflexivity).
  destruct e; try reflexivity; destruct (is_oserror _); reflexivity.
Qed.

Lemma windows_session_links a st :
  windows_links (snd (Windows.tcp_session W H0 a st)) = windows_links st ++ windows_pass_links a.
Proof.
  destruct a as [e| |incoming writes].
  - unfold Windows.tcp_session, Windows.finally.
    rewrite windows_handle_log, release_all_spec.
    unfold windows_links. cbn -[windows_handler_log release_actions].
    rewrite <- !app_assoc, !List.filter_app, release_no_links, handler_no_links.
    cbn. reflexivity.
  - unfold Windows.tcp_session, Windows.finally.
    rewrite windows_handle_log, release_all_spec.
    unfold windows_links. cbn -[windows_handler_log release_actions].
    rewrite <- !app_assoc, !List.filter_app, release_no_links, handler_no_links.
    cbn. reflexivity.
  - destruct (Windows.read_loop W H0 (S (reader_bytes incoming)) (fresh_conn incoming writes)
                (windows_opened st)) as [[exit c_f] st_f] eqn:Hloop.
    rewrite (windows_session_accepted W H0 _ _ _ _ _ _ Hloop). cbn [snd].
    pose proof (windows_loop_links W H0 (S (reader_bytes incoming)) (fresh_conn incoming writes)
                  (windows_opened st)) as Hl.
    rewrite Hloop in Hl. cbn [snd] in Hl.
    unfold windows_links in *. cbn [windows_disconnected Windows.trace] in *.
    rewrite !List.filter_app, Hl, release_no_links, handler_no_links.
    unfold windows_opened. cbn. rewrite List.filter_app. cbn. rewrite <- app_assoc. reflexivity.
Qed.

Lemma linux_session_links a tr :
  linux_links (snd (Linux.tcp_session W H0 uw a tr))
  = linux_links tr
    ++ match fst (Linux.tcp_session W H0 uw a tr) with
       | Blocked | OutOfFuel => [Linux.NetConnect]
       | _ => [Linux.NetConnect; Linux.Sleep RECONNECT_DELAY]
       end.
Proof.
  destruct a as [e| |incoming writes].
  - unfold Linux.tcp_session. cbn. rewrite !linux_links_app. cbn.
    rewrite <- !app_assoc. destruct (is_oserror e); reflexivity.
  - unfold Linux.tcp_session. cbn. rewrite !linux_links_app. reflexivity.
  - destruct (Linux.read_loop W H0 uw (S (reader_bytes incoming)) (fresh_conn incoming writes)
                (linux_opened tr)) as [[exit c_f] tr_f] eqn:Hloop.
    rewrite (linux_session_accepted W H0 uw _ _ _ _ _ _ Hloop). cbn [fst snd].
    pose proof (linux_loop_links W H0 uw (S (reader_bytes incoming)) (fresh_conn incoming writes)
                  (linux_opened tr)) as Hl.
    rewrite Hloop in Hl. cbn [snd] in Hl.
    assert (Ho : linux_links (linux_opened tr) = linux_links tr ++ [Linux.NetConnect]).
    { unfold linux_opened. rewrite linux_links_app. reflexivity. }
    rewrite Ho in Hl.
    destruct exit as [|e| |]; rewrite ?linux_links_app, Hl; try reflexivity.
    + rewrite <- app_assoc. reflexivity.
    + rewrite <- app_assoc. cbn. destruct (is_oserror e); reflexivity.
Qed.

End ClientLinks.

(** X18. The connection-level actions of the two reconnect loops. The Windows
    client connects, closes the writer when the connection was made, and
    sleeps [RECONNECT_DELAY], once per pass in this order. The Linux
    client connects and sleeps in turn, for the passes it leaves, followed
    by at most one more connect: the pass it never leaves. *)
Theorem X18_client_connects_closes_sleeps {lib : PyLib} (W H0 : Z) (uw : bool)
    (world : list attempt) (tr : Linux.state) (st : Windows.state) :
  windows_links (Windows.tcp_client W H0 world st)
  = windows_links st ++ concat (map windows_pass_links world)
  /\ exists n, (n <= length world)%nat
       /\ linux_links (Linux.tcp_client W H0 uw world tr)
          = linux_links tr
            ++ concat (replicate n [Linux.NetConnect; Linux.Sleep RECONNECT_DELAY])
            ++ (if (n <? length world)%nat then [Linux.NetConnect] else []).
Proof.
  split.
  - revert st. induction world as [|a world IH]; intros st.
    + simpl. rewrite app_nil_r. reflexivity.
    + cbn [Windows.tcp_client map concat]. rewrite IH, windows_session_links, <- app_assoc.
      reflexivity.
  - revert tr. induction world as [|a world IH]; intros tr.
    + exists O. simpl. rewrite app_nil_r. auto.
    + cbn [Linux.tcp_client].
      pose proof (linux_session_links W H0 uw a tr) as Hs.
      destruct (Linux.tcp_session W H0 uw a tr) as [exit tr1]. cbn [fst snd] in Hs.
      destruct exit as [|e| |].
      * destruct (IH tr1) as (n & Hn & Hl). exists (S n). split; [simpl; lia|].
        rewrite Hl, Hs. cbn [replicate concat length]. rewrite <- !app_assoc.
        change (S n <? S (length world))%nat with (n <? length world)%nat. reflexivity.
      * destruct (IH tr1) as (n & Hn & Hl). exists (S n). split; [simpl; lia|].
        rewrite Hl, Hs. cbn [replicate concat length]. rewrite <- !app_assoc.
        change (S n <? S (length world))%nat with (n <? length world)%nat. reflexivity.
      * exists O. split; [lia|]. rewrite Hs. reflexivity.
      * exists O. split; [lia|]. rewrite Hs. reflexivity.
Qed.

(** ** A silent peer *)



(** ** The edge watch *)

Section EdgeWatch.
Context {lib : PyLib} {os : PyOs}.
Variable H0 : Z.

Lemma linux_sends_snoc tr a :
  linux_sends (tr ++ [a]) = (linux_sends tr + if linux_is_send a then 1 else 0)%nat.
Proof.
  rewrite linux_sends_app. unfold linux_sends at 2. simpl. destruct (linux_is_send a); reflexivity.
Qed.

Lemma watch_once polls : forall c st,
  let '(exit, stop', c', st') := LinuxEdge.watch H0 polls false c st in
  (linux_sends st' <= linux_sends st + 1)%nat
  /\ (sent c' <= sent c + 1)%nat
  /\ (exit = LinuxEdge.Returned -> stop' = true)
  /\ (linux_sends st' = S (linux_sends st) ->
      exit = LinuxEdge.Returned /\ stop' = true /\ sent c' = S (sent c)).
Proof.
  induction polls as [|located polls IH]; intros c st; cbn [LinuxEdge.watch].
  - repeat split; try lia; discriminate.
  - assert (Hmiss :
      let '(exit, stop', c', st') :=
        LinuxEdge.watch H0 polls false c (st ++ [Linux.Sleep LinuxEdge.EDGE_POLL_INTERVAL]) in
      (linux_sends st' <= linux_sends st + 1)%nat
      /\ (sent c' <= sent c + 1)%nat
      /\ (exit = LinuxEdge.Returned -> stop' = true)
      /\ (linux_sends st' = S (linux_sends st) ->
          exit = LinuxEdge.Returned /\ stop' = true /\ sent c' = S (sent c))).
    { specialize (IH c (st ++ [Linux.Sleep LinuxEdge.EDGE_POLL_INTERVAL])).
      destruct (LinuxEdge.watch H0 polls false c _) as [[[exit stop'] c'] st'].
      rewrite linux_sends_snoc in IH. simpl in IH. rewrite Nat.add_0_r in IH. exact IH. }
    destruct (LinuxEdge._get_cursor_position located) as [[x y]|]; [|exact Hmiss].
    destruct (x <=? Linux.EDGE_THRESHOLD); [|exact Hmiss]. cbv zeta.
    assert (Hlog : linux_sends (st ++ [Linux.Log INFO "Left edge reached at (%d, %d) — returning control to Mac"])
                   = linux_sends st).
    { rewrite linux_sends_snoc. simpl. lia. }
    destruct (Linux.norm_y_of H0 y) as [norm_y|e];
      [|rewrite Hlog; repeat split; try lia; discriminate].
    destruct (frame _) as [bytes|e];
      [|rewrite Hlog; repeat split; try lia; discriminate].
    unfold writer_write.
    destruct (wbudget c) as [k|]; [destruct (sent c <? k)%nat|];
      rewrite ?linux_sends_snoc, ?Hlog; cbn [linux_is_send sent]; repeat split; try lia; try discriminate.
Qed.

End EdgeWatch.

(** X20. [_edge_detection_loop] sends at most one [returnControl] frame,
    whatever the polls give: when it has sent it has set [stop_event] and
    returned. With [stop_event] already set it sends nothing and leaves
    the connection as it was. *)
Theorem X20_edge_detection_sends_at_most_once {lib : PyLib} {os : PyOs} (H0 : Z)
    (polls : list (res string)) (stop_event : bool) (c : conn) (st : Linux.state) :
  let '(exit, stop', c', st') := LinuxEdge._edge_detection_loop H0 polls stop_event c st in
  (linux_sends st' <= linux_sends st + 1)%nat
  /\ (sent c' <= sent c + 1)%nat
  /\ (exit = LinuxEdge.Returned -> stop' = true)
  /\ (linux_sends st' = S (linux_sends st) ->
      exit = LinuxEdge.Returned /\ stop' = true /\ sent c' = S (sent c))
  /\ (stop_event = true -> linux_sends st' = linux_sends st /\ c' = c).
Proof.
  unfold LinuxEdge._edge_detection_loop.
  set (st0 := st ++ [Linux.Log INFO "Edge detection active — push cursor to left screen edge to return control to Mac"]).
  assert (H0s : linux_sends st0 = linux_sends st).
  { unfold st0. rewrite linux_sends_snoc. simpl. lia. }
  destruct stop_event.
  - destruct polls; cbn [LinuxEdge.watch]; rewrite H0s; repeat split; try lia; discriminate.
  - pose proof (watch_once H0 polls c st0) as Hw.
    destruct (LinuxEdge.watch H0 polls false c st0) as [[[exit stop'] c'] st'].
    rewrite H0s in Hw. destruct Hw as (A & B & C & D).
    repeat split; try assumption; try (apply D; assumption); discriminate.
Qed.




(** ** Detecting the screen resolution *)

Section Detect.
Context {lib : PyLib} {os : PyOs}.
Import LinuxSetup.

Lemma take_resolution_cases groups msg s :
  taken_or_silent msg s (take_resolution groups msg s).
Proof.
  unfold taken_or_silent, take_resolution, bind, lift, ret, set_width, set_height, log, modify.
  destruct (py_int (JStr groups.1)) as [w|e]; [|right; split; [discriminate|reflexivity]].
  destruct (py_int (JStr groups.2)) as [h|e]; [|right; split; [discriminate|reflexivity]].
  left. split; reflexivity.
Qed.

Lemma scan_modes_cases lines s :
  taken_or_silent "Screen resolution (xrandr): %dx%d" s (scan_modes lines s).
Proof.
  induction lines as [|line lines IH]; cbn [scan_modes].
  - right. split; [discriminate|reflexivity].
  - destruct (re_search _ line) as [groups|]; [apply take_resolution_cases|exact IH].
Qed.

Lemma try_or_false_cases msg m s :
  taken_or_silent msg s (m s) -> taken_or_silent msg s (try_or_false m s)
  /\ exists b, fst (try_or_false m s) = Ok b.
Proof.
  unfold taken_or_silent, try_or_false.
  destruct (m s) as [[b|e] s']; cbn [fst snd]; intros [[H1 H2]|[H1 H2]]; try discriminate;
    (split; [|eauto]); auto.
Qed.
End Detect.

Section DetectAll.
Context {lib : PyLib} {os : PyOs}.
Import LinuxSetup.

Lemma scan_modes_first pre : forall line post g1 g2 w h' s,
  Forall (fun l => re_search "(\d+)x(\d+)\+\d+\+\d+" l = None) pre ->
  re_search "(\d+)x(\d+)\+\d+\+\d+" line = Some (g1, g2) ->
  int_of_str g1 = Some w -> int_of_str g2 = Some h' ->
  scan_modes (pre ++ line :: post) s
  = (Ok true, {| SCREEN_WIDTH := w; SCREEN_HEIGHT := h';
                 logged := logged s ++ [Linux.Log INFO "Screen resolution (xrandr): %dx%d"] |}).
Proof.
  induction pre as [|l pre IH]; intros line post g1 g2 w h' s Hpre Hm Hw Hh.
  - cbn [app scan_modes]. rewrite Hm.
    unfold take_resolution, bind, lift, ret, set_width, set_height, log, modify.
    cbn [py_int fst snd]. rewrite Hw, Hh. reflexivity.
  - inversion Hpre as [|? ? Hl Hrest]; subst. cbn [app scan_modes]. rewrite Hl.
    eapply IH; eassumption.
Qed.

(** The xrandr stage and the xdpyinfo stage of the detection. *)
Lemma xrandr_stage h s :
  let stage :=
    if which h "xrandr" then
      try_or_false (do result <- lift (subprocess_run h ["xrandr"]);
                    scan_modes (splitlines result))
    else ret false in
  taken_or_silent "Screen resolution (xrandr): %dx%d" s (stage s)
  /\ exists b, fst (stage s) = Ok b.
Proof.
  cbv zeta. destruct (which h "xrandr").
  - apply try_or_false_cases. unfold bind, lift.
    destruct (subprocess_run h ["xrandr"]) as [out|e].
    + apply scan_modes_cases.
    + right. split; [discriminate|reflexivity].
  - split; [right; split; [discriminate|reflexivity]|]. exists false. reflexivity.
Qed.

Lemma xdpyinfo_stage h s :
  let stage :=
    if which h "xdpyinfo" then
      try_or_false (do result <- lift (subprocess_run h ["xdpyinfo"]);
                    match re_search "dimensions:\s+(\d+)x(\d+)\s+pixels" result with
                    | Some groups =>
                        take_resolution groups "Screen resolution (xdpyinfo): %dx%d"
                    | None => ret false
                    end)
    else ret false in
  taken_or_silent "Screen resolution (xdpyinfo): %dx%d" s (stage s)
  /\ exists b, fst (stage s) = Ok b.
Proof.
  cbv zeta. destruct (which h "xdpyinfo").
  - apply try_or_false_cases. unfold bind, lift.
    destruct (subprocess_run h ["xdpyinfo"]) as [out|e].
    + destruct (re_search _ out) as [groups|]; [apply take_resolution_cases|].
      right. split; [discriminate|reflexivity].
    + right. split; [discriminate|reflexivity].
  - split; [right; split; [discriminate|reflexivity]|]. exists false. reflexivity.
Qed.

End DetectAll.

(** X22. [detect_screen_resolution] always returns, and logs exactly one line:
    the xrandr line, the xdpyinfo line, or the warning that the default
    is kept. With xrandr installed and running, the first line of its
    output that matches the mode pattern sets [SCREEN_WIDTH] and
    [SCREEN_HEIGHT]; with neither tool installed the resolution stays as
    it was. *)
Theorem X22_detect_screen_resolution_outcomes {lib : PyLib} {os : PyOs}
    (h : host) (s : LinuxSetup.setup) :
  (exists s' line,
      LinuxSetup.detect_screen_resolution h s = (Ok tt, s')
      /\ LinuxSetup.logged s' = LinuxSetup.logged s ++ [line]
      /\ line ∈ [Linux.Log INFO "Screen resolution (xrandr): %dx%d";
                 Linux.Log INFO "Screen resolution (xdpyinfo): %dx%d";
                 Linux.Log WARNING "Could not detect screen resolution — using default %dx%d"])
  /\ (forall out pre line post g1 g2 w h',
        which h "xrandr" = true ->
        subprocess_run h ["xrandr"] = Ok out ->
        splitlines out = pre ++ line :: post ->
        Forall (fun l => re_search "(\d+)x(\d+)\+\d+\+\d+" l = None) pre ->
        re_search "(\d+)x(\d+)\+\d+\+\d+" line = Some (g1, g2) ->
        int_of_str g1 = Some w -> int_of_str g2 = Some h' ->
        LinuxSetup.detect_screen_resolution h s
        = (Ok tt,
           {| LinuxSetup.SCREEN_WIDTH := w; LinuxSetup.SCREEN_HEIGHT := h';
              LinuxSetup.logged := LinuxSetup.logged s
                ++ [Linux.Log INFO "Screen resolution (xrandr): %dx%d"] |}))
  /\ (which h "xrandr" = false -> which h "xdpyinfo" = false ->
        LinuxSetup.detect_screen_resolution h s
        = (Ok tt,
           {| LinuxSetup.SCREEN_WIDTH := LinuxSetup.SCREEN_WIDTH s;
              LinuxSetup.SCREEN_HEIGHT := LinuxSetup.SCREEN_HEIGHT s;
              LinuxSetup.logged := LinuxSetup.logged s
                ++ [Linux.Log WARNING "Could not detect screen resolution — using default %dx%d"] |})).
Proof.
  split; [|split].
  - unfold LinuxSetup.detect_screen_resolution. unfold bind at 1.
    destruct (xrandr_stage h s) as [Hx [b Hb]]. cbv zeta in Hx, Hb.
    match type of Hb with fst ?t = _ => destruct t as [r1 s1] end.
    unfold taken_or_silent in Hx. cbn [fst snd] in *. subst r1.
    destruct b.
    { destruct Hx as [[_ Hl]|[Hn _]]; [|congruence].
      eexists _, _. split; [reflexivity|]. split; [exact Hl|]. repeat constructor. }
    destruct Hx as [[Hn _]|[_ Hl1]]; [discriminate|].
    unfold bind at 1.
    destruct (xdpyinfo_stage h s1) as [Hy [b Hb]]. cbv zeta in Hy, Hb.
    match type of Hb with fst ?t = _ => destruct t as [r2 s2] end.
    unfold taken_or_silent in Hy. cbn [fst snd] in *. subst r2.
    destruct b.
    { destruct Hy as [[_ Hl]|[Hn _]]; [|congruence].
      eexists _, _. split; [reflexivity|]. split; [rewrite Hl, Hl1; reflexivity|].
      repeat constructor. }
    destruct Hy as [[Hn _]|[_ Hl2]]; [discriminate|].
    eexists _, _. split; [reflexivity|]. cbn. rewrite Hl2, Hl1.
    split; [reflexivity|]. repeat constructor.
  - intros out pre line post g1 g2 w h' Hwhich Hrun Hsplit Hpre Hm Hw Hh.
    unfold LinuxSetup.detect_screen_resolution. rewrite Hwhich.
    unfold bind at 1. unfold LinuxSetup.try_or_false, bind at 1, lift at 1.
    rewrite Hrun, Hsplit, (scan_modes_first pre line post g1 g2 w h' s Hpre Hm Hw Hh).
    reflexivity.
  - intros Hx Hy. unfold LinuxSetup.detect_screen_resolution. rewrite Hx, Hy. reflexivity.
Qed.

(** ** Start-up of the Linux daemon *)

Ltac stop_branch Hstop :=
  match goal with
  | |- (_ -> _) /\ (_ ∈ ?out -> _) /\ ?c /\ ?d /\ ?e /\ (?ending = _ -> _) =>
      let Hc := fresh "Hc" in
      assert (Hc : c /\ d /\ e) by (repeat split; try reflexivity; discriminate);
      let A := fresh "A" in
      let B := fresh "B" in
      let C := fresh "C" in
      destruct (Hstop ending out) as (A & B & C); [repeat constructor|discriminate|];
      let c1 := fresh "c1" in
      let c2 := fresh "c2" in
      let c3 := fresh "c3" in
      destruct Hc as (c1 & c2 & c3);
      split; [exact A|split; [exact B|split; [exact c1|split; [exact c2|split; [exact c3|exact C]]]]]
  end.

(** X23. [main] creates the virtual device, and connects, only after both checks
    have passed: /dev/uinput exists and opens, and the pointer tool
    (ydotool under Wayland, xdotool otherwise) is installed. Each failed
    check exits with status 1. When [main] returns it was interrupted, and
    it has closed the device once, between its last two log lines. *)
Theorem X23_main_checks_before_device {lib : PyLib} {os : PyOs} (USE_WAYLAND : bool)
    (h : host) (world : list attempt) (interrupted : bool) :
  let tool := if USE_WAYLAND then "ydotool" else "xdotool" in
  let ready := path_exists h "/dev/uinput" = true
               /\ open_rb h "/dev/uinput" = Opened
               /\ which h tool = true in
  let '(ending, out) := LinuxSetup.main USE_WAYLAND h world interrupted in
  ((exists caps name, LinuxSetup.UInputCreate caps name ∈ out) -> ready)
  /\ (LinuxSetup.Does Linux.NetConnect ∈ out -> ready)
  /\ (path_exists h "/dev/uinput" = false -> ending = LinuxSetup.Exits 1)
  /\ (path_exists h "/dev/uinput" = true -> open_rb h "/dev/uinput" = PermissionError ->
      ending = LinuxSetup.Exits 1)
  /\ (path_exists h "/dev/uinput" = true -> open_rb h "/dev/uinput" = Opened ->
      which h tool = false -> ending = LinuxSetup.Exits 1)
  /\ (ending = LinuxSetup.Returns ->
      interrupted = true
      /\ LinuxSetup.UInputCreate LinuxDevice.capabilities "MouseShare Virtual Input" ∈ out
      /\ exists before,
           out = before ++ [LinuxSetup.Does (Linux.Log INFO "Shutting down …");
                            LinuxSetup.UInputClose;
                            LinuxSetup.Does (Linux.Log INFO "Virtual device closed. Goodbye.")]
           /\ LinuxSetup.UInputClose ∉ before).
Proof.
  intros tool ready. unfold LinuxSetup.main, LinuxSetup.check_uinput.
  assert (Hno : forall (pre : list LinuxSetup.step) caps name,
            Forall (fun a => match a with
                             | LinuxSetup.PrintLine _ | LinuxSetup.Does (Linux.Log _ _) => True
                             | _ => False
                             end) pre ->
            (LinuxSetup.UInputCreate caps name ∈ pre -> False)
            /\ (LinuxSetup.Does Linux.NetConnect ∈ pre -> False)).
  { intros pre caps name Hall. rewrite Forall_forall in Hall.
    split; intros Hin; apply Hall in Hin; exact Hin. }
  assert (Hstop : forall ending (out : list LinuxSetup.step),
            Forall (fun a => match a with
                             | LinuxSetup.PrintLine _ | LinuxSetup.Does (Linux.Log _ _) => True
                             | _ => False
                             end) out ->
            ending <> LinuxSetup.Returns ->
            ((exists caps name, LinuxSetup.UInputCreate caps name ∈ out) -> ready)
            /\ (LinuxSetup.Does Linux.NetConnect ∈ out -> ready)
            /\ (ending = LinuxSetup.Returns ->
                interrupted = true
                /\ LinuxSetup.UInputCreate LinuxDevice.capabilities "MouseShare Virtual Input" ∈ out
                /\ exists before,
                     out = before ++ [LinuxSetup.Does (Linux.Log INFO "Shutting down …");
                                      LinuxSetup.UInputClose;
                                      LinuxSetup.Does (Linux.Log INFO "Virtual device closed. Goodbye.")]
                     /\ LinuxSetup.UInputClose ∉ before)).
  { intros ending out Hall Hne. split; [|split].
    - intros (caps & name & Hin). exfalso. revert Hin. apply Hno, Hall.
    - intros Hin. exfalso. revert Hin. apply (Hno _ (fun _ => []) EmptyString), Hall.
    - intros He. contradiction. }
  destruct (path_exists h "/dev/uinput") eqn:Hex; cbn [negb].
  2:{ stop_branch Hstop. }
  destruct (open_rb h "/dev/uinput") eqn:Hop.
  2:{ stop_branch Hstop. }
  2:{ stop_branch Hstop. }
  unfold LinuxSetup.check_mouse_tool.
  assert (Htool : which h tool = (if USE_WAYLAND then which h "ydotool" else which h "xdotool")).
  { unfold tool. destruct USE_WAYLAND; reflexivity. }
  destruct (which h tool) eqn:Hw.
  2:{ destruct USE_WAYLAND; rewrite <- Htool; cbn [negb];
        stop_branch Hstop. }
  assert (Hready : ready) by (unfold ready; auto).
  replace (if USE_WAYLAND
           then if negb (which h "ydotool") then _ else _
           else if negb (which h "xdotool") then _ else _)
    with (LinuxSetup.Returns, [LinuxSetup.Does (Linux.Log INFO "MouseShare Linux Companion starting …")])
    by (destruct USE_WAYLAND; rewrite <- Htool; reflexivity).
  cbv zeta. unfold LinuxSetup.create_virtual_device.
  destruct (uinput_new h) as [u|e].
  2:{ split; [auto|]. split; [auto|]. repeat split; discriminate. }
  destruct interrupted.
  2:{ split; [auto|]. split; [auto|]. repeat split; discriminate. }
  split; [auto|]. split; [auto|]. split; [discriminate|]. split; [discriminate|].
  split; [discriminate|]. intros _. split; [reflexivity|]. split.
  - do 3 (apply elem_of_app; left). apply elem_of_app. right. constructor.
  - eexists. split; [reflexivity|].
    rewrite !not_elem_of_app. repeat split.
    + intros Hin. inversion Hin as [|? ? ? Hin']; subst. inversion Hin'.
    + intros Hin. apply list_elem_of_fmap in Hin as (a & Ha & _). discriminate.
    + intros Hin. inversion Hin as [|? ? ? Hin']; subst. inversion Hin' as [|? ? ? Hin'']; subst.
      inversion Hin''.
    + intros Hin. inversion Hin as [|? ? ? Hin']; subst. inversion Hin'.
    + intros Hin. apply list_elem_of_fmap in Hin as (a & Ha & _). discriminate.
Qed.

(** ** Pressed codes and the inputs that pressed them *)

Lemma presses_nothing_refl st : presses_nothing st st.
Proof. split; [reflexivity|]. exists []. rewrite app_nil_r. reflexivity. Qed.

Lemma presses_nothing_trans a b c :
  presses_nothing a b -> presses_nothing b c -> presses_nothing a c.
Proof.
  intros [Hab (x & Hx)] [Hbc (y & Hy)]. split; [etransitivity; eassumption|].
  exists (x ++ y). rewrite Hy, Hx, app_assoc. reflexivity.
Qed.

Lemma presses_nothing_backed st st' :
  presses_nothing st st' -> pressed_backed st -> pressed_backed st'.
Proof.
  intros [Hsub (acts & Ht)] Hb vk Hvk. rewrite Ht. apply elem_of_app. left. apply Hb, Hsub, Hvk.
Qed.

Lemma keeps_nothing_emit a : keeps presses_nothing (Windows.emit a).
Proof. intros st. split; [reflexivity|]. exists [a]. reflexivity. Qed.

Lemma keeps_nothing_discard f :
  (forall p : gset Z, f p ⊆ p) -> keeps presses_nothing (Windows.set_pressed f).
Proof. intros Hf st. split; [apply Hf|]. exists []. cbn. rewrite app_nil_r. reflexivity. Qed.

Lemma keeps_nothing_release_each vks : keeps presses_nothing (Windows.release_each vks).
Proof.
  induction vks as [|vk vks IH]; cbn [Windows.release_each].
  - apply (keeps_ret _ presses_nothing_refl).
  - apply (keeps_bind _ presses_nothing_trans); [|intros _; exact IH]. apply keeps_nothing_emit.
Qed.

Ltac nothing_step :=
  first
    [ match goal with
      | |- keeps _ (Windows.emit _) => apply keeps_nothing_emit
      | |- keeps _ (Windows._send_mouse_input _ _ _ _) => apply keeps_nothing_emit
      | |- keeps _ (Windows._send_key_input _ _) => apply keeps_nothing_emit
      | |- keeps _ (Windows.release_each _) => apply keeps_nothing_release_each
      | |- keeps _ (Windows.set_pressed (fun p => p ∖ _)) =>
          apply keeps_nothing_discard; intros p; apply subseteq_difference_l; reflexivity
      | |- keeps _ (Windows.set_pressed (fun _ => ∅)) =>
          apply keeps_nothing_discard; intros p; apply empty_subseteq
      | |- keeps _ Windows.get_pressed => intros ?; apply presses_nothing_refl
      end
    | adds_step presses_nothing_refl presses_nothing_trans ].

Section Backed.
Context {lib : PyLib}.
Variables (W H0 : Z).

Lemma backed_press st vk :
  pressed_backed st ->
  pressed_backed
    {| Windows._pressed_keys := {[ vk ]} ∪ Windows._pressed_keys st;
       Windows._connection_status := Windows._connection_status st;
       Windows.trace := Windows.trace st ++ [down_of vk] |}.
Proof.
  intros Hb x Hx. cbn in *. apply elem_of_app.
  apply elem_of_union in Hx as [Hx|Hx].
  - apply elem_of_singleton in Hx as ->. right. constructor.
  - left. apply Hb, Hx.
Qed.

Lemma windows_dispatch_backed ev st :
  pressed_backed st -> pressed_backed (snd (Windows.inject_event W H0 ev st)).
Proof.
  intros Hb. unfold Windows.inject_event.
  unfold bind at 1. unfold lift at 1.
  destruct (py_get ev "type" JNull) as [t|]; [|exact Hb].
  assert (Hnothing : forall A (m : M Windows.state A),
            keeps presses_nothing m -> pressed_backed (snd (m st))).
  { intros A m Hm. exact (presses_nothing_backed _ _ (Hm st) Hb). }
  destruct (is_str t "mouseMove"); [apply Hnothing; repeat nothing_step|].
  destruct (is_str t "leftMouseDown"); [exact (backed_press st (-1) Hb)|].
  destruct (is_str t "leftMouseUp"); [apply Hnothing; repeat nothing_step|].
  destruct (is_str t "rightMouseDown"); [exact (backed_press st (-2) Hb)|].
  destruct (is_str t "rightMouseUp"); [apply Hnothing; repeat nothing_step|].
  destruct (is_str t "keyDown" || is_str t "keyUp").
  { unfold bind at 1. unfold lift at 1.
    destruct (py_get ev "keyCode" JNull) as [mac_code|]; [|exact Hb].
    assert (Hkey : pressed_backed (snd (
      (do vk <- lift (table_get Windows.MAC_TO_WIN_KEYCODE mac_code);
       match vk with
       | None => run Windows.emit (Windows.Log WARNING "Unknown Mac keycode %d"); ret (false, JInt 0)
       | Some vk =>
           let down := is_str t "keyDown" in
           run (if down then Windows.set_pressed (fun p => {[ vk ]} ∪ p)
                else Windows.set_pressed (fun p => p ∖ {[ vk ]}));
           run Windows._send_key_input vk down; ret (false, JInt 0)
       end) st))).
    { unfold bind at 1. unfold lift at 1.
      destruct (table_get Windows.MAC_TO_WIN_KEYCODE mac_code) as [[vk|]|] eqn:Ht; [| |exact Hb].
      - cbv zeta. destruct (is_str t "keyDown"); [|apply Hnothing; repeat nothing_step].
        apply table_get_some in Ht as [k Hk]. apply win_table_word in Hk as [Hr _].
        assert (Hd : down_of vk = Windows.SendKeyInput (vk mod 2 ^ 16) (Windows.key_flags vk true)).
        { unfold down_of. replace (vk =? -1) with false by (symmetry; apply Z.eqb_neq; lia).
          replace (vk =? -2) with false by (symmetry; apply Z.eqb_neq; lia). reflexivity. }
        pose proof (backed_press st vk Hb) as Hp. rewrite Hd in Hp. exact Hp.
      - apply Hnothing; repeat nothing_step. }
    destruct mac_code; try exact Hkey. exact Hb. }
  destruct (is_str t "scrollWheel"); [apply Hnothing; repeat nothing_step|].
  destruct (is_str t "returnControl"); [|exact Hb].
  apply Hnothing. unfold Windows._release_all_keys. repeat nothing_step.
Qed.

End Backed.

Lemma backed_add_trace st acts : pressed_backed st -> pressed_backed (add_trace st acts).
Proof. intros Hb vk Hvk. cbn in *. apply elem_of_app. left. apply Hb, Hvk. Qed.

Lemma windows_loop_backed {lib : PyLib} (W H0 : Z) fuel : forall c st,
  pressed_backed st -> pressed_backed (snd (Windows.read_loop W H0 fuel c st)).
Proof.
  induction fuel as [|fuel IH]; intros c st Hb; [exact Hb|].
  cbn [Windows.read_loop].
  destruct (_read_exact (rd c) 4) as [[header| |] r1]; try exact Hb. cbv zeta.
  destruct ((struct_unpack_I header =? 0) || (1000000 <? struct_unpack_I header)).
  { cbn [snd]. rewrite windows_log. apply backed_add_trace, Hb. }
  destruct (_read_exact _ _) as [[payload| |] r2]; try exact Hb.
  destruct (json_loads payload) as [event|]; [|exact Hb].
  pose proof (windows_dispatch_backed W H0 event st Hb) as Hd.
  destruct (Windows.inject_event W H0 event st) as [[[b v]|e] st']; cbn [snd] in *; [|exact Hd].
  destruct b; [|apply IH, Hd]. cbv zeta.
  assert (Hlog : pressed_backed (Windows.log INFO "Left edge hit — sending returnControl" st')).
  { rewrite windows_log. apply backed_add_trace, Hd. }
  destruct (frame _) as [bytes|]; cbn [snd]; [|exact Hlog].
  destruct (writer_write _) as [[u| |] c']; cbn [snd]; try exact Hlog.
  apply IH.
  change (snd (Windows.emit (Windows.NetSend bytes) (Windows.log INFO "Left edge hit — sending returnControl" st')))
    with (add_trace (Windows.log INFO "Left edge hit — sending returnControl" st') [Windows.NetSend bytes]).
  apply backed_add_trace, Hlog.
Qed.

(** X24. On Windows every code in [_pressed_keys] has had its down input sent:
    if this holds before, it holds after a dispatch, after the read loop
    of a session, and after any number of passes of the client. *)
Theorem X24_pressed_keys_have_been_sent {lib : PyLib} (W H0 : Z) (event : json)
    (fuel : nat) (c : conn) (world : list attempt) (st : Windows.state) :
  pressed_backed st ->
  pressed_backed (snd (Windows.inject_event W H0 event st))
  /\ pressed_backed (snd (Windows.read_loop W H0 fuel c st))
  /\ pressed_backed (Windows.tcp_client W H0 world st).
Proof.
  intros Hb. split; [apply windows_dispatch_backed, Hb|].
  split; [apply windows_loop_backed, Hb|].
  revert st Hb. induction world as [|a world IH]; intros st Hb; [exact Hb|].
  cbn [Windows.tcp_client]. apply IH.
  assert (He : Windows._pressed_keys (snd (Windows.tcp_session W H0 a st)) = ∅).
  { unfold Windows.tcp_session, Windows.finally.
    destruct a as [e| |incoming writes].
    - rewrite release_all_spec. reflexivity.
    - rewrite release_all_spec. reflexivity.
    - destruct (Windows.read_loop _ _ _ _ _) as [[exit c'] st']. rewrite release_all_spec.
      reflexivity. }
  intros vk Hvk. rewrite He in Hvk. apply not_elem_of_empty in Hvk. contradiction.
Qed.

Lemma X24_pressed_keys_have_been_sent_witness :
  down_of 65
  ∈ Windows.trace (snd (Windows.inject_event (lib := Fixture.lib) 1920 1080
                          (Fixture.ev_key "keyDown" (JInt 0)) Fixture.win0)).
Proof.
  apply (proj1 (X24_pressed_keys_have_been_sent (lib := Fixture.lib) 1920 1080
                  (Fixture.ev_key "keyDown" (JInt 0)) O (fresh_conn [] None) [] Fixture.win0
                  ltac:(intros vk Hvk; apply not_elem_of_empty in Hvk; destruct Hvk))).
  apply (bool_decide_unpack _). vm_compute. reflexivity.
Defined.
